(** * MrPuff point of sale: cart, pricing, checkout and role permissions

    A shallow embedding of the TypeScript sources

    - the shared types and [ROLE_PERMISSIONS] (imported as [@/types/pos]),
    - the POS page, component [POS] (cart handlers, pricing, checkout), and
      its refill panel ([RefillQuickAdd]),
    - the pages Discounts, Inventory, Reports, Users and Settings
      ([RefillOptionsManager]) and the sidebar ([AppSidebar]),

    followed by the properties of the written specification that concern
    them.

    Modelling conventions.

    - A JavaScript [number] is an exact rational ([Q]): the binary64
      rounding of JavaScript, [Infinity] and [NaN] are not modelled ([NaN]
      only arises from [parseFloat], whose result is an [option]).  Two sums
      that the code rounds separately can differ in the last digit where
      the rationals agree, so amounts are related here only through the
      value of one expression of the code, through an order between amounts
      (which rounding keeps), or as two accumulations of the same terms.
      Numbers are compared up to [Qeq] ([==]).
    - React state is a record ([POS.State]); a handler is a function from the
      state of the render it was created in to the next state.  The two
      kinds of observable effects, toasts and requests sent to the hosted
      database, are appended to logs kept in that record.
    - The hosted database is an arbitrary deterministic machine (a type
      [Store] of its states and a function [exec]): it answers every request
      with a row or an error. *)

From Stdlib Require Import QArith Qminmax Qround Lqa Lia List String Ascii Bool NArith
  DecimalString Sorted Permutation.
Import ListNotations.

Local Open Scope Q_scope.

(** ** JavaScript numbers *)

Abbreviation number := Q (only parsing).

(** [a <= b], [a < b], [a >= b], [a > b] on numbers, as booleans. *)
Definition num_le (a b : number) : bool := Qle_bool a b.
Definition num_lt (a b : number) : bool := negb (Qle_bool b a).
Definition num_ge (a b : number) : bool := num_le b a.
Definition num_gt (a b : number) : bool := num_lt b a.

(** [Math.max(a, b)]. *)
Definition Math_max (a b : number) : number := if num_lt a b then b else a.

(** [arr.reduce((sum, x) => sum + f(x), 0)]. *)
Definition reduce_sum {A : Type} (f : A -> number) (arr : list A) : number :=
  fold_left (fun sum x => sum + f x) arr 0.

(** ** Shared types ([@/types/pos]) *)

Inductive AppRole : Type := super_admin | manager | cashier.

Inductive DiscountType : Type := percentage | fixed.

Module Product.
Record t : Type := mk {
  id : string;
  name : string;
  barcode : option string;
  category_id : option string;
  brand_id : option string;
  buying_price : number;
  selling_price : number;
  stock_quantity : number;
  low_stock_threshold : number;
  created_at : string;
  updated_at : string
}.
End Product.

Module Discount.
Record t : Type := mk {
  id : string;
  name : string;
  type : DiscountType;
  value : number;
  is_active : bool;
  created_by : string;
  created_at : string;
  updated_at : string
}.
End Discount.

Record CartItem : Type := mkCartItem {
  product : Product.t;
  quantity : number;
  discount : option Discount.t
}.

(** The capability record of one role. *)
Record Permissions : Type := mkPermissions {
  canManageUsers : bool;
  canViewBuyingPrice : bool;
  canViewProfit : bool;
  canManageProducts : bool;
  canViewReports : bool;
  canOverrideTransactions : bool;
  canAccessSettings : bool;
  canViewActivityLogs : bool
}.

(** [ROLE_PERMISSIONS], one field per role. *)
Module ROLE_PERMISSIONS.
Definition super_admin : Permissions :=
  {| canManageUsers := true;
     canViewBuyingPrice := true;
     canViewProfit := true;
     canManageProducts := true;
     canViewReports := true;
     canOverrideTransactions := true;
     canAccessSettings := true;
     canViewActivityLogs := true |}.
Definition manager : Permissions :=
  {| canManageUsers := false;
     canViewBuyingPrice := true;
     canViewProfit := true;
     canManageProducts := true;
     canViewReports := true;
     canOverrideTransactions := false;
     canAccessSettings := false;
     canViewActivityLogs := false |}.
Definition cashier : Permissions :=
  {| canManageUsers := false;
     canViewBuyingPrice := false;
     canViewProfit := false;
     canManageProducts := false;
     canViewReports := false;
     canOverrideTransactions := false;
     canAccessSettings := false;
     canViewActivityLogs := false |}.
End ROLE_PERMISSIONS.

(** [getRolePermissions = (role) => ROLE_PERMISSIONS[role]]. *)
Definition getRolePermissions (role : AppRole) : Permissions :=
  match role with
  | super_admin => ROLE_PERMISSIONS.super_admin
  | manager => ROLE_PERMISSIONS.manager
  | cashier => ROLE_PERMISSIONS.cashier
  end.

(** ** Effects shared by the pages *)

(** [toast.error(msg)] and [toast.success(msg)] of the sonner library. *)
Inductive Toast : Type :=
| toast_error (msg : string)
| toast_success (msg : string).

(** ** The hosted database

    Requests the pages send to the persistence service, and its answers.
    A reply is the [{ data, error }] pair of the client library; of a
    returned row only its [id] is ever read. *)

Inductive PaymentMethod : Type := cash | card.

Module SaleInsert.
Record t : Type := mk {
  cashier_id : string;
  total_amount : number;
  total_profit : number;
  discount_amount : number;
  payment_method : PaymentMethod
}.
End SaleInsert.

Module SaleItemInsert.
Record t : Type := mk {
  sale_id : string;
  product_id : option string;
  product_name : string;
  quantity : number;
  unit_price : number;
  buying_price : number;
  subtotal : number;
  profit : number;
  discount_id : option string;
  discount_type : option DiscountType;
  discount_value : option number;
  discount_amount : number;
  original_subtotal : number
}.
End SaleItemInsert.

Module DiscountWrite.
Record t : Type := mk {
  name : string;
  type : DiscountType;
  value : number;
  created_by : option string
}.
End DiscountWrite.

Inductive DbRequest : Type :=
| insert_sale (row : SaleInsert.t)
| insert_sale_items (rows : list SaleItemInsert.t)
| update_product_stock (id : string) (stock_quantity : number)
| select_products
| insert_discount (row : DiscountWrite.t)
| update_discount (id : string) (row : DiscountWrite.t)
| select_discounts.

(** A reply either carries the returned row, of which only the [id] is
    ever read (the empty string when the request selects nothing back), or
    an error. *)
Inductive Reply : Type :=
| success (id : string)
| failure (error : string).

(** What a [try] block can throw: the [error] of a reply, or the
    [TypeError] of reading a property of [null]. *)
Inductive Exn : Type :=
| thrown_error (e : string)
| TypeError.

Inductive Completion (A : Type) : Type :=
| Normal (a : A)
| Throw (e : Exn).
Arguments Normal {A} a.
Arguments Throw {A} e.

(** The body of an [async] handler: it transforms the page state and the
    database, and completes normally or by throwing. *)
Section Effects.
Context {Page Store : Type}.

Definition Eff (A : Type) : Type :=
  Page * Store -> (Page * Store) * Completion A.

Definition ret {A : Type} (a : A) : Eff A := fun c => (c, Normal a).

Definition bind {A B : Type} (m : Eff A) (k : A -> Eff B) : Eff B :=
  fun c =>
    match m c with
    | (c', Normal a) => k a c'
    | (c', Throw e) => (c', Throw e)
    end.

Definition throw {A : Type} (e : Exn) : Eff A := fun c => (c, Throw e).

(** A [useState] setter, or a toast. *)
Definition modify (f : Page -> Page) : Eff unit :=
  fun c => ((f (fst c), snd c), Normal tt).

(** [await supabase...]: the request is logged by [sent] and answered by
    the database [exec]. *)
Definition await (sent : DbRequest -> Page -> Page)
    (exec : Store -> DbRequest -> Store * Reply) (r : DbRequest) : Eff Reply :=
  fun c =>
    let (store', reply) := exec (snd c) r in
    ((sent r (fst c), store'), Normal reply).

(** [if (error) throw error]. *)
Definition orThrow (reply : Reply) : Eff string :=
  match reply with
  | success id => ret id
  | failure e => throw (thrown_error e)
  end.
End Effects.

Notation "x <- m ;; k" := (bind m (fun x => k))
  (at level 61, m at next level, right associativity).
Notation "m ;;; k" := (bind m (fun _ => k))
  (at level 61, right associativity).

(** ** The POS page (component [POS]) *)

Module POS.

Module ReceiptData.
Record t : Type := mk {
  saleId : string;
  items : list CartItem;
  subtotal : number;
  totalDiscount : number;
  total : number;
  paymentMethod : PaymentMethod;
  cashReceived : option number;
  changeAmount : option number;
  date : N
}.
End ReceiptData.

(** The state of the page: the values of [useAuth] and of the [useState]
    cells the handlers read or write, and the two effect logs (oldest
    first). *)
Record State : Type := mkState {
  user : option string;
  role : option AppRole;
  cart : list CartItem;
  paymentMethod : PaymentMethod;
  processing : bool;
  cashReceived : string;
  showCashDialog : bool;
  showReceipt : bool;
  receiptData : option ReceiptData.t;
  toasts : list Toast;
  requests : list DbRequest
}.

Definition setCart (v : list CartItem) (s : State) : State :=
  mkState (user s) (role s) v (paymentMethod s) (processing s)
    (cashReceived s) (showCashDialog s) (showReceipt s) (receiptData s)
    (toasts s) (requests s).
Definition setProcessing (v : bool) (s : State) : State :=
  mkState (user s) (role s) (cart s) (paymentMethod s) v
    (cashReceived s) (showCashDialog s) (showReceipt s) (receiptData s)
    (toasts s) (requests s).
Definition setCashReceived (v : string) (s : State) : State :=
  mkState (user s) (role s) (cart s) (paymentMethod s) (processing s)
    v (showCashDialog s) (showReceipt s) (receiptData s)
    (toasts s) (requests s).
Definition setShowCashDialog (v : bool) (s : State) : State :=
  mkState (user s) (role s) (cart s) (paymentMethod s) (processing s)
    (cashReceived s) v (showReceipt s) (receiptData s)
    (toasts s) (requests s).
Definition setShowReceipt (v : bool) (s : State) : State :=
  mkState (user s) (role s) (cart s) (paymentMethod s) (processing s)
    (cashReceived s) (showCashDialog s) v (receiptData s)
    (toasts s) (requests s).
Definition setReceiptData (v : option ReceiptData.t) (s : State) : State :=
  mkState (user s) (role s) (cart s) (paymentMethod s) (processing s)
    (cashReceived s) (showCashDialog s) (showReceipt s) v
    (toasts s) (requests s).
Definition toast (t : Toast) (s : State) : State :=
  mkState (user s) (role s) (cart s) (paymentMethod s) (processing s)
    (cashReceived s) (showCashDialog s) (showReceipt s) (receiptData s)
    (toasts s ++ [t]) (requests s).
Definition sent (r : DbRequest) (s : State) : State :=
  mkState (user s) (role s) (cart s) (paymentMethod s) (processing s)
    (cashReceived s) (showCashDialog s) (showReceipt s) (receiptData s)
    (toasts s) (requests s ++ [r]).

(** [a.product.id === id]. *)
Definition has_id (productId : string) (item : CartItem) : bool :=
  String.eqb (Product.id (product item)) productId.

(** [{ ...item, quantity }] and [{ ...item, discount }]. *)
Definition with_quantity (item : CartItem) (q : number) : CartItem :=
  mkCartItem (product item) q (discount item).
Definition with_discount (item : CartItem) (d : option Discount.t) : CartItem :=
  mkCartItem (product item) (quantity item) d.

(** *** Cart handlers *)

(** [now] is [Date.now()], [nowIso] is [new Date().toISOString()]. *)
Definition addRefillToCart (now : N) (nowIso : string)
    (name : string) (price : number) (volumeMl : number) (s : State) : State :=
  let refillProduct :=
    {| Product.id := "refill-" ++ NilZero.string_of_uint (N.to_uint now);
       Product.name := name;
       Product.barcode := None;
       Product.category_id := None;
       Product.brand_id := None;
       Product.buying_price := 0;
       Product.selling_price := price;
       Product.stock_quantity := 999;
       Product.low_stock_threshold := 0;
       Product.created_at := nowIso;
       Product.updated_at := nowIso |} in
  setCart (cart s ++ [mkCartItem refillProduct 1 None]) s.

Definition addToCart (product : Product.t) (s : State) : State :=
  match find (has_id (Product.id product)) (cart s) with
  | Some existingItem =>
      if num_ge (quantity existingItem) (Product.stock_quantity product)
      then toast (toast_error "Not enough stock available") s
      else
        setCart
          (map (fun item =>
                  if has_id (Product.id product) item
                  then with_quantity item (quantity item + 1)
                  else item) (cart s)) s
  | None => setCart (cart s ++ [mkCartItem product 1 None]) s
  end.

(** The callback of the [map] in [updateQuantity]: the new line, and the
    toasts it raised. *)
Definition updateQuantity_line (productId : string) (delta : number)
    (item : CartItem) : CartItem * list Toast :=
  if has_id productId item then
    let newQuantity := quantity item + delta in
    if num_le newQuantity 0 then (item, [])
    else if num_gt newQuantity (Product.stock_quantity (product item))
    then (item, [toast_error "Not enough stock available"])
    else (with_quantity item newQuantity, [])
  else (item, []).

Definition updateQuantity (productId : string) (delta : number)
    (s : State) : State :=
  let mapped := map (updateQuantity_line productId delta) (cart s) in
  let s' := fold_left (fun acc t => toast t acc) (List.concat (map snd mapped)) s in
  setCart (filter (fun item => num_gt (quantity item) 0) (map fst mapped)) s'.

Definition removeFromCart (productId : string) (s : State) : State :=
  setCart (filter (fun item => negb (has_id productId item)) (cart s)) s.

Definition applyDiscount (productId : string) (discount : option Discount.t)
    (s : State) : State :=
  let s' :=
    setCart
      (map (fun item =>
              if has_id productId item then with_discount item discount
              else item) (cart s)) s in
  match discount with
  | Some d =>
      toast (toast_success
               ("Applied " ++ String (ascii_of_nat 34) (Discount.name d)
                ++ String (ascii_of_nat 34) " discount")) s'
  | None => s'
  end.

Definition removeDiscount (productId : string) (s : State) : State :=
  setCart
    (map (fun item =>
            if has_id productId item then with_discount item None
            else item) (cart s)) s.

Definition clearCart (s : State) : State :=
  setCashReceived "" (setCart [] s).

(** *** Pricing *)


Definition calculateItemDiscount (item : CartItem) : number :=
  match discount item with
  | None => 0
  | Some d =>
      let originalSubtotal :=
        Product.selling_price (product item) * quantity item in
      match Discount.type d with
      | percentage => originalSubtotal * (Discount.value d / 100)
      | fixed => Discount.value d * quantity item
      end
  end.

Definition calculateItemSubtotal (item : CartItem) : number :=
  let originalSubtotal :=
    Product.selling_price (product item) * quantity item in
  let discountAmount := calculateItemDiscount item in
  Math_max 0 (originalSubtotal - discountAmount).

Record Totals : Type := mkTotals {
  originalSubtotal : number;
  totalDiscount : number;
  subtotal : number;
  totalProfit : number
}.

Definition calculateTotals (cart : list CartItem) : Totals :=
  let originalSubtotal :=
    reduce_sum
      (fun item => Product.selling_price (product item) * quantity item) cart in
  let totalDiscount := reduce_sum calculateItemDiscount cart in
  let subtotal := originalSubtotal - totalDiscount in
  let totalProfit :=
    reduce_sum
      (fun item =>
         let itemSubtotal := calculateItemSubtotal item in
         let itemCost := Product.buying_price (product item) * quantity item in
         itemSubtotal - itemCost) cart in
  {| originalSubtotal := originalSubtotal;
     totalDiscount := totalDiscount;
     subtotal := subtotal;
     totalProfit := totalProfit |}.

(** *** Checkout *)

Definition isRefill (item : CartItem) : bool :=
  String.prefix "refill-" (Product.id (product item)).

(** One element of [saleItems]: the callback of [cart.map] in
    [processCheckout].  [x || null] is [null] for the empty string and for
    the number zero. *)
Definition saleItem (sale_id : string) (item : CartItem) : SaleItemInsert.t :=
  let originalItemSubtotal :=
    Product.selling_price (product item) * quantity item in
  let discountAmount := calculateItemDiscount item in
  let finalSubtotal := calculateItemSubtotal item in
  let profit :=
    finalSubtotal - Product.buying_price (product item) * quantity item in
  {| SaleItemInsert.sale_id := sale_id;
     SaleItemInsert.product_id :=
       if isRefill item then None else Some (Product.id (product item));
     SaleItemInsert.product_name := Product.name (product item);
     SaleItemInsert.quantity := quantity item;
     SaleItemInsert.unit_price := Product.selling_price (product item);
     SaleItemInsert.buying_price := Product.buying_price (product item);
     SaleItemInsert.subtotal := finalSubtotal;
     SaleItemInsert.profit := profit;
     SaleItemInsert.discount_id :=
       match discount item with
       | Some d =>
           if String.eqb (Discount.id d) "" then None else Some (Discount.id d)
       | None => None
       end;
     SaleItemInsert.discount_type :=
       match discount item with
       | Some d => Some (Discount.type d)
       | None => None
       end;
     SaleItemInsert.discount_value :=
       match discount item with
       | Some d =>
           if Qeq_bool (Discount.value d) 0 then None
           else Some (Discount.value d)
       | None => None
       end;
     SaleItemInsert.discount_amount := discountAmount;
     SaleItemInsert.original_subtotal := originalItemSubtotal |}.

Section Runtime.
(** [parseFloat]: [None] is [NaN]. *)
Variable parseFloat : string -> option number.
(** The database. *)
Variable Store : Type.
Variable exec : Store -> DbRequest -> Store * Reply.

Definition supabase : DbRequest -> @Eff State Store Reply := await sent exec.

(** Values every render derives from the state. *)
Definition cashReceivedAmount (s : State) : number :=
  match parseFloat (cashReceived s) with
  | Some v => v
  | None => 0
  end.

Definition changeAmount (s : State) : number :=
  cashReceivedAmount s - subtotal (calculateTotals (cart s)).

Definition isValidCashPayment (s : State) : bool :=
  match paymentMethod s with
  | card => true
  | cash => num_ge (cashReceivedAmount s) (subtotal (calculateTotals (cart s)))
  end.

(** The [disabled] attribute of the Confirm Payment button, the only caller
    of [handleCashCheckout]. *)
Definition confirmPaymentDisabled (s : State) : bool :=
  negb (isValidCashPayment s) || Qeq_bool (cashReceivedAmount s) 0.

(** [fetchProducts]: only the request and the failure toast are kept; the
    list of products shown is not part of the state. *)
Definition fetchProducts : @Eff State Store unit :=
  reply <- supabase select_products ;;
  match reply with
  | failure _ => modify (toast (toast_error "Failed to load products"))
  | success _ => ret tt
  end.

(** The [for (const item of cart)] loop of [processCheckout]. *)
Fixpoint updateStock (items : list CartItem) : @Eff State Store unit :=
  match items with
  | [] => ret tt
  | item :: rest =>
      if isRefill item then updateStock rest
      else
        reply <- supabase
                   (update_product_stock (Product.id (product item))
                      (Product.stock_quantity (product item) - quantity item)) ;;
        orThrow reply ;;;
        updateStock rest
  end.

(** The [try] block of [processCheckout].  [render] is the state of the
    render that created the handler: [cart], the totals, [paymentMethod]
    and [user] are read from it.  [now] is [new Date()]. *)
Definition processCheckout_try (render : State) (now : N)
    (cashAmount change : option number) : @Eff State Store unit :=
  let totals := calculateTotals (cart render) in
  match user render with
  | None => throw TypeError
  | Some user_id =>
      reply <- supabase
                 (insert_sale
                    {| SaleInsert.cashier_id := user_id;
                       SaleInsert.total_amount := subtotal totals;
                       SaleInsert.total_profit := totalProfit totals;
                       SaleInsert.discount_amount := totalDiscount totals;
                       SaleInsert.payment_method := paymentMethod render |}) ;;
      sale_id <- orThrow reply ;;
      let saleItems := map (saleItem sale_id) (cart render) in
      reply <- supabase (insert_sale_items saleItems) ;;
      orThrow reply ;;;
      updateStock (cart render) ;;;
      modify (setReceiptData
                (Some {| ReceiptData.saleId := sale_id;
                         ReceiptData.items := cart render;
                         ReceiptData.subtotal := originalSubtotal totals;
                         ReceiptData.totalDiscount := totalDiscount totals;
                         ReceiptData.total := subtotal totals;
                         ReceiptData.paymentMethod := paymentMethod render;
                         ReceiptData.cashReceived := cashAmount;
                         ReceiptData.changeAmount := change;
                         ReceiptData.date := now |})) ;;;
      modify (toast (toast_success "Sale completed successfully!")) ;;;
      modify (setShowReceipt true) ;;;
      modify (setCart []) ;;;
      modify (setCashReceived "") ;;;
      fetchProducts
  end.

Definition processCheckout (now : N) (cashAmount change : option number)
    (c : State * Store) : State * Store :=
  let render := fst c in
  let c1 := (setProcessing true render, snd c) in
  let (c2, completion) := processCheckout_try render now cashAmount change c1 in
  let c3 :=
    match completion with
    | Normal _ => c2
    | Throw _ => (toast (toast_error "Failed to process sale") (fst c2), snd c2)
    end in
  (setProcessing false (fst c3), snd c3).

Definition handleInitiateCheckout (now : N) (c : State * Store)
    : State * Store :=
  let s := fst c in
  if Nat.eqb (List.length (cart s)) 0
  then (toast (toast_error "Cart is empty") s, snd c)
  else
    match user s, role s with
    | Some _, Some _ =>
        match paymentMethod s with
        | cash => (setShowCashDialog true (setCashReceived "" s), snd c)
        | card => processCheckout now None None c
        end
    | _, _ =>
        (toast (toast_error "You must be logged in to process sales") s, snd c)
    end.

Definition handleCashCheckout (now : N) (c : State * Store)
    : State * Store :=
  let s := fst c in
  if num_lt (cashReceivedAmount s) (subtotal (calculateTotals (cart s)))
  then (toast (toast_error "Insufficient cash received") s, snd c)
  else
    processCheckout now (Some (cashReceivedAmount s)) (Some (changeAmount s))
      (setShowCashDialog false s, snd c).
End Runtime.

End POS.

(** The Confirm Payment button of the cash dialog,
    [<Button onClick={handleCashCheckout}
             disabled={!isValidCashPayment || cashReceivedAmount === 0}>]:
    a disabled button does not call its handler. *)
Definition confirmPayment (parseFloat : string -> option number)
    (Store : Type) (exec : Store -> DbRequest -> Store * Reply)
    (now : N) (c : POS.State * Store) : POS.State * Store :=
  if POS.confirmPaymentDisabled parseFloat (fst c) then c
  else POS.handleCashCheckout parseFloat Store exec now c.

(** ** src/pages/Discounts.tsx *)

Module Discounts.

(** The state of the page: [useAuth().user], the dialog and its form, and
    the two effect logs. *)
Record State : Type := mkState {
  user : option string;
  showDialog : bool;
  editingDiscount : option Discount.t;
  saving : bool;
  name : string;
  type : DiscountType;
  value : string;
  toasts : list Toast;
  requests : list DbRequest
}.

Definition setShowDialog (v : bool) (s : State) : State :=
  mkState (user s) v (editingDiscount s) (saving s) (name s) (type s)
    (value s) (toasts s) (requests s).
Definition setEditingDiscount (v : option Discount.t) (s : State) : State :=
  mkState (user s) (showDialog s) v (saving s) (name s) (type s)
    (value s) (toasts s) (requests s).
Definition setSaving (v : bool) (s : State) : State :=
  mkState (user s) (showDialog s) (editingDiscount s) v (name s) (type s)
    (value s) (toasts s) (requests s).
Definition setName (v : string) (s : State) : State :=
  mkState (user s) (showDialog s) (editingDiscount s) (saving s) v (type s)
    (value s) (toasts s) (requests s).
Definition setType (v : DiscountType) (s : State) : State :=
  mkState (user s) (showDialog s) (editingDiscount s) (saving s) (name s) v
    (value s) (toasts s) (requests s).
Definition setValue (v : string) (s : State) : State :=
  mkState (user s) (showDialog s) (editingDiscount s) (saving s) (name s)
    (type s) v (toasts s) (requests s).
Definition toast (t : Toast) (s : State) : State :=
  mkState (user s) (showDialog s) (editingDiscount s) (saving s) (name s)
    (type s) (value s) (toasts s ++ [t]) (requests s).
Definition sent (r : DbRequest) (s : State) : State :=
  mkState (user s) (showDialog s) (editingDiscount s) (saving s) (name s)
    (type s) (value s) (toasts s) (requests s ++ [r]).

Definition resetForm (s : State) : State :=
  setEditingDiscount None (setValue "" (setType percentage (setName "" s))).

Section Runtime.
(** [parseFloat] ([None] is [NaN]) and [String.prototype.trim]. *)
Variable parseFloat : string -> option number.
Variable trim : string -> string.
(** The database. *)
Variable Store : Type.
Variable exec : Store -> DbRequest -> Store * Reply.

Definition supabase : DbRequest -> @Eff State Store Reply := await sent exec.

Definition fetchDiscounts : @Eff State Store unit :=
  reply <- supabase select_discounts ;;
  match reply with
  | failure _ => modify (toast (toast_error "Failed to load discounts"))
  | success _ => ret tt
  end.

(** The [try] block of [handleSave]; [render] is the state the handler
    was created in. *)
Definition handleSave_try (render : State) (numValue : number)
    : @Eff State Store unit :=
  match editingDiscount render with
  | Some editing =>
      reply <- supabase
                 (update_discount (Discount.id editing)
                    {| DiscountWrite.name := trim (name render);
                       DiscountWrite.type := type render;
                       DiscountWrite.value := numValue;
                       DiscountWrite.created_by := None |}) ;;
      orThrow reply ;;;
      modify (toast (toast_success "Discount updated successfully"))
  | None =>
      match user render with
      | None => throw TypeError
      | Some user_id =>
          reply <- supabase
                     (insert_discount
                        {| DiscountWrite.name := trim (name render);
                           DiscountWrite.type := type render;
                           DiscountWrite.value := numValue;
                           DiscountWrite.created_by := Some user_id |}) ;;
          orThrow reply ;;;
          modify (toast (toast_success "Discount created successfully"))
      end
  end ;;;
  modify (setShowDialog false) ;;;
  modify resetForm ;;;
  fetchDiscounts.

Definition handleSave (c : State * Store) : State * Store :=
  let s := fst c in
  if String.eqb (trim (name s)) ""
  then (toast (toast_error "Please enter a discount name") s, snd c)
  else
    match parseFloat (value s) with
    | None =>
        (toast (toast_error "Please enter a valid value greater than 0") s,
         snd c)
    | Some numValue =>
        if num_le numValue 0
        then
          (toast (toast_error "Please enter a valid value greater than 0") s,
           snd c)
        else
          if match type s with
             | percentage => num_gt numValue 100
             | fixed => false
             end
          then (toast (toast_error "Percentage cannot exceed 100%") s, snd c)
          else
            let c1 := (setSaving true s, snd c) in
            let (c2, completion) := handleSave_try s numValue c1 in
            let c3 :=
              match completion with
              | Normal _ => c2
              | Throw _ =>
                  (toast (toast_error "Failed to save discount") (fst c2),
                   snd c2)
              end in
            (setSaving false (fst c3), snd c3)
    end.
End Runtime.

End Discounts.

(** ** The refill panel of the POS page ([RefillQuickAdd]) *)

Module RefillOption.
Record t : Type := mk {
  id : string;
  name : string;
  volume_ml : number;
  default_price : number;
  is_active : bool;
  created_at : string;
  updated_at : string
}.
End RefillOption.

Module RefillQuickAdd.

(** The state of the component and the log of its toasts. *)
Record State : Type := mkState {
  refillOptions : list RefillOption.t;
  loading : bool;
  editDialogOpen : bool;
  selectedRefill : option RefillOption.t;
  customPrice : string;
  toasts : list Toast
}.

Definition setEditDialogOpen (v : bool) (s : State) : State :=
  mkState (refillOptions s) (loading s) v (selectedRefill s) (customPrice s)
    (toasts s).
Definition setSelectedRefill (v : option RefillOption.t) (s : State) : State :=
  mkState (refillOptions s) (loading s) (editDialogOpen s) v (customPrice s)
    (toasts s).
Definition setCustomPrice (v : string) (s : State) : State :=
  mkState (refillOptions s) (loading s) (editDialogOpen s) (selectedRefill s) v
    (toasts s).
Definition toast (t : Toast) (s : State) : State :=
  mkState (refillOptions s) (loading s) (editDialogOpen s) (selectedRefill s)
    (customPrice s) (toasts s ++ [t]).

Section Props.
(** The page that renders the panel, and the callback it passes. *)
Context {Parent : Type}.
Variable onAddRefill : string -> number -> number -> Parent -> Parent.
(** [parseFloat] ([None] is [NaN]) and the text of a number in a template
    literal. *)
Variable parseFloat : string -> option number.
Variable toString : number -> string.

Definition handleQuickAdd (option : RefillOption.t) (s : State * Parent)
    : State * Parent :=
  let parent :=
    onAddRefill (RefillOption.name option) (RefillOption.default_price option)
      (RefillOption.volume_ml option) (snd s) in
  (toast (toast_success ("Added " ++ RefillOption.name option)) (fst s),
   parent).

Definition handleCustomPriceAdd (s : State * Parent) : State * Parent :=
  match selectedRefill (fst s) with
  | None => s
  | Some selected =>
      if String.eqb (customPrice (fst s)) "" then s
      else
        match parseFloat (customPrice (fst s)) with
        | None =>
            (toast (toast_error "Please enter a valid price") (fst s), snd s)
        | Some price =>
            if num_le price 0
            then
              (toast (toast_error "Please enter a valid price") (fst s),
               snd s)
            else
              let parent :=
                onAddRefill (RefillOption.name selected ++ " (Custom)") price
                  (RefillOption.volume_ml selected) (snd s) in
              (setSelectedRefill None
                 (setCustomPrice ""
                    (setEditDialogOpen false
                       (toast
                          (toast_success
                             ("Added " ++ RefillOption.name selected
                              ++ " at Rs " ++ toString price))
                          (fst s)))),
               parent)
        end
  end.
End Props.

End RefillQuickAdd.

(** ** The Inventory page: saving a product *)

Module Inventory.

(** The form of the dialog: every field is the text of an input. *)
Module FormData.
Record t : Type := mk {
  name : string;
  barcode : string;
  category_id : string;
  brand_id : string;
  buying_price : string;
  selling_price : string;
  stock_quantity : string;
  low_stock_threshold : string
}.
End FormData.

(** The object written to [products]. *)
Module ProductWrite.
Record t : Type := mk {
  name : string;
  barcode : option string;
  category_id : option string;
  brand_id : option string;
  buying_price : number;
  selling_price : number;
  stock_quantity : number;
  low_stock_threshold : number
}.
End ProductWrite.

Inductive Request : Type :=
| insert_product (row : ProductWrite.t)
| update_product (id : string) (row : ProductWrite.t)
| select_products.

(** The cells [handleSave] reads or writes, and the two effect logs. *)
Record State : Type := mkState {
  dialogOpen : bool;
  editingProduct : option Product.t;
  saving : bool;
  formData : FormData.t;
  toasts : list Toast;
  requests : list Request
}.

Definition setDialogOpen (v : bool) (s : State) : State :=
  mkState v (editingProduct s) (saving s) (formData s) (toasts s) (requests s).
Definition setSaving (v : bool) (s : State) : State :=
  mkState (dialogOpen s) (editingProduct s) v (formData s) (toasts s)
    (requests s).
Definition toast (t : Toast) (s : State) : State :=
  mkState (dialogOpen s) (editingProduct s) (saving s) (formData s)
    (toasts s ++ [t]) (requests s).
Definition sent (r : Request) (s : State) : State :=
  mkState (dialogOpen s) (editingProduct s) (saving s) (formData s)
    (toasts s) (requests s ++ [r]).

(** [x || d] on a number ([None] is [NaN]) and [s || null] on a string. *)
Definition number_or (x : option number) (d : number) : number :=
  match x with
  | Some v => if Qeq_bool v 0 then d else v
  | None => d
  end.

Definition string_or_null (s : string) : option string :=
  if String.eqb s "" then None else Some s.

Section Runtime.
Variable parseFloat : string -> option number.
Variable parseInt : string -> option number.
Variable trim : string -> string.
(** The database. *)
Variable Store : Type.
Variable exec : Store -> Request -> Store * Reply.

Definition supabase (r : Request) : @Eff State Store Reply :=
  fun c =>
    let (store', reply) := exec (snd c) r in
    ((sent r (fst c), store'), Normal reply).

(** [fetchProducts]: only the request and the failure toast are kept. *)
Definition fetchProducts : @Eff State Store unit :=
  reply <- supabase select_products ;;
  match reply with
  | failure _ => modify (toast (toast_error "Failed to load products"))
  | success _ => ret tt
  end.

Definition productData (form : FormData.t) : ProductWrite.t :=
  {| ProductWrite.name := trim (FormData.name form);
     ProductWrite.barcode := string_or_null (trim (FormData.barcode form));
     ProductWrite.category_id := string_or_null (FormData.category_id form);
     ProductWrite.brand_id := string_or_null (FormData.brand_id form);
     ProductWrite.buying_price :=
       number_or (parseFloat (FormData.buying_price form)) 0;
     ProductWrite.selling_price :=
       number_or (parseFloat (FormData.selling_price form)) 0;
     ProductWrite.stock_quantity :=
       number_or (parseInt (FormData.stock_quantity form)) 0;
     ProductWrite.low_stock_threshold :=
       number_or (parseInt (FormData.low_stock_threshold form)) 10 |}.

(** The write [handleSave] sends for the state [render]. *)
Definition write_of (render : State) : Request :=
  match editingProduct render with
  | Some editing =>
      update_product (Product.id editing) (productData (formData render))
  | None => insert_product (productData (formData render))
  end.

(** The [try] block of [handleSave]; [render] is the state the handler
    was created in. *)
Definition handleSave_try (render : State) : @Eff State Store unit :=
  match editingProduct render with
  | Some editing =>
      reply <- supabase
                 (update_product (Product.id editing)
                    (productData (formData render))) ;;
      orThrow reply ;;;
      modify (toast (toast_success "Product updated successfully"))
  | None =>
      reply <- supabase (insert_product (productData (formData render))) ;;
      orThrow reply ;;;
      modify (toast (toast_success "Product added successfully"))
  end ;;;
  modify (setDialogOpen false) ;;;
  fetchProducts.

Definition handleSave (c : State * Store) : State * Store :=
  let s := fst c in
  if String.eqb (FormData.name (formData s)) ""
     || String.eqb (FormData.selling_price (formData s)) ""
  then (toast (toast_error "Name and selling price are required") s, snd c)
  else
    let c1 := (setSaving true s, snd c) in
    let (c2, completion) := handleSave_try s c1 in
    let c3 :=
      match completion with
      | Normal _ => c2
      | Throw _ =>
          (toast (toast_error "Failed to save product") (fst c2), snd c2)
      end in
    (setSaving false (fst c3), snd c3).
End Runtime.

End Inventory.

(** ** The Settings page: refill options ([RefillOptionsManager]) *)

Module RefillOptionsManager.

(** [toast({ title, description, variant })] of the page's own toast
    hook; [destructive] is [variant: 'destructive']. *)
Record Notice : Type := mkNotice {
  title : string;
  description : string;
  destructive : bool
}.

(** The form of the dialog; the inputs keep numbers in it. *)
Module FormData.
Record t : Type := mk {
  name : string;
  volume_ml : number;
  default_price : number;
  is_active : bool
}.
End FormData.

Inductive Request : Type :=
| insert_option (row : FormData.t)
| update_option (id : string) (row : FormData.t)
| select_options.

Record State : Type := mkState {
  saving : bool;
  dialogOpen : bool;
  editingOption : option RefillOption.t;
  formData : FormData.t;
  notices : list Notice;
  requests : list Request
}.

Definition setSaving (v : bool) (s : State) : State :=
  mkState v (dialogOpen s) (editingOption s) (formData s) (notices s)
    (requests s).
Definition setDialogOpen (v : bool) (s : State) : State :=
  mkState (saving s) v (editingOption s) (formData s) (notices s)
    (requests s).
Definition toast (n : Notice) (s : State) : State :=
  mkState (saving s) (dialogOpen s) (editingOption s) (formData s)
    (notices s ++ [n]) (requests s).
Definition sent (r : Request) (s : State) : State :=
  mkState (saving s) (dialogOpen s) (editingOption s) (formData s)
    (notices s) (requests s ++ [r]).

Definition validation_error (description : string) : Notice :=
  mkNotice "Validation Error" description true.
Definition error (description : string) : Notice :=
  mkNotice "Error" description true.
Definition done (description : string) : Notice :=
  mkNotice "Success" description false.

Section Runtime.
Variable trim : string -> string.
(** The database. *)
Variable Store : Type.
Variable exec : Store -> Request -> Store * Reply.

Definition supabase (r : Request) : @Eff State Store Reply :=
  fun c =>
    let (store', reply) := exec (snd c) r in
    ((sent r (fst c), store'), Normal reply).

(** [fetchRefillOptions]: only the request and the failure toast are
    kept. *)
Definition fetchRefillOptions : @Eff State Store unit :=
  reply <- supabase select_options ;;
  match reply with
  | failure _ => modify (toast (error "Failed to load refill options"))
  | success _ => ret tt
  end.

(** The object written to [refill_options]. *)
Definition optionData (form : FormData.t) : FormData.t :=
  {| FormData.name := trim (FormData.name form);
     FormData.volume_ml := FormData.volume_ml form;
     FormData.default_price := FormData.default_price form;
     FormData.is_active := FormData.is_active form |}.

(** The write [handleSave] sends for the state [render]. *)
Definition write_of (render : State) : Request :=
  match editingOption render with
  | Some editing =>
      update_option (RefillOption.id editing) (optionData (formData render))
  | None => insert_option (optionData (formData render))
  end.

(** The [try] block of [handleSave]; [render] is the state the handler
    was created in. *)
Definition handleSave_try (render : State) : @Eff State Store unit :=
  match editingOption render with
  | Some editing =>
      reply <- supabase
                 (update_option (RefillOption.id editing)
                    (optionData (formData render))) ;;
      orThrow reply ;;;
      modify (toast (done "Refill option updated successfully"))
  | None =>
      reply <- supabase (insert_option (optionData (formData render))) ;;
      orThrow reply ;;;
      modify (toast (done "Refill option created successfully"))
  end ;;;
  modify (setDialogOpen false) ;;;
  fetchRefillOptions.

Definition handleSave (c : State * Store) : State * Store :=
  let s := fst c in
  if String.eqb (trim (FormData.name (formData s))) ""
  then (toast (validation_error "Name is required") s, snd c)
  else
    if num_le (FormData.volume_ml (formData s)) 0
    then (toast (validation_error "Volume must be greater than 0") s, snd c)
    else
      if num_lt (FormData.default_price (formData s)) 0
      then (toast (validation_error "Price cannot be negative") s, snd c)
      else
        let c1 := (setSaving true s, snd c) in
        let (c2, completion) := handleSave_try s c1 in
        let c3 :=
          match completion with
          | Normal _ => c2
          | Throw _ =>
              (toast (error "Failed to save refill option") (fst c2), snd c2)
          end in
        (setSaving false (fst c3), snd c3).
End Runtime.

End RefillOptionsManager.

(** ** The POS page: quick cash amounts *)

Module QuickCash.

(** [Math.ceil]. *)
Definition Math_ceil (x : number) : number := inject_Z (Qceiling x).

(** [a.indexOf(v)]; [None] stands for [-1]. *)
Fixpoint indexOf (a : list number) (v : number) : option nat :=
  match a with
  | [] => None
  | x :: rest =>
      if Qeq_bool x v then Some 0%nat else option_map S (indexOf rest v)
  end.

(** [i === j] for the result of [indexOf]. *)
Definition is_index (found : option nat) (i : nat) : bool :=
  match found with
  | Some j => Nat.eqb j i
  | None => false
  end.

(** [a.filter((v, i) => f(v, i))], the elements of [a] being numbered from
    [i]. *)
Fixpoint filter_from {A : Type} (f : A -> nat -> bool) (i : nat) (a : list A)
    : list A :=
  match a with
  | [] => []
  | v :: rest =>
      if f v i then v :: filter_from f (S i) rest
      else filter_from f (S i) rest
  end.

(** The amounts offered in the cash dialog for the net total [subtotal]. *)
Definition quickCashAmounts (subtotal : number) : list number :=
  let a :=
    [Math_ceil subtotal;
     Math_ceil (subtotal / 10) * 10;
     Math_ceil (subtotal / 50) * 50;
     Math_ceil (subtotal / 100) * 100] in
  firstn 4
    (filter_from
       (fun v i => num_ge v subtotal && is_index (indexOf a v) i) 0%nat a).

End QuickCash.

(** ** The sidebar ([AppSidebar]) and the guards of the pages it links to *)

(** A key of the permission record, and [permissions[key]]. *)
Inductive PermissionKey : Type :=
| key_canManageUsers
| key_canViewBuyingPrice
| key_canViewProfit
| key_canManageProducts
| key_canViewReports
| key_canOverrideTransactions
| key_canAccessSettings
| key_canViewActivityLogs.

Definition permission (p : Permissions) (key : PermissionKey) : bool :=
  match key with
  | key_canManageUsers => canManageUsers p
  | key_canViewBuyingPrice => canViewBuyingPrice p
  | key_canViewProfit => canViewProfit p
  | key_canManageProducts => canManageProducts p
  | key_canViewReports => canViewReports p
  | key_canOverrideTransactions => canOverrideTransactions p
  | key_canAccessSettings => canAccessSettings p
  | key_canViewActivityLogs => canViewActivityLogs p
  end.

(** [const permissions = role ? getRolePermissions(role) : null], as every
    page computes it. *)
Definition permissionsOf (role : option AppRole) : option Permissions :=
  match role with
  | Some r => Some (getRolePermissions r)
  | None => None
  end.

(** [permissions?.key], read as a condition. *)
Definition allows (role : option AppRole) (key : PermissionKey) : bool :=
  match permissionsOf role with
  | Some p => permission p key
  | None => false
  end.

Module Sidebar.

Record MenuItem : Type := mkMenuItem {
  title : string;
  url : string;
  requiresPermission : PermissionKey
}.

Definition managementItems : list MenuItem :=
  [ mkMenuItem "Inventory" "/inventory" key_canManageProducts;
    mkMenuItem "Discounts" "/discounts" key_canManageProducts;
    mkMenuItem "Reports" "/reports" key_canViewReports;
    mkMenuItem "Users" "/users" key_canManageUsers;
    mkMenuItem "Settings" "/settings" key_canAccessSettings ].

Definition filteredManagementItems (role : option AppRole) : list MenuItem :=
  filter
    (fun item =>
       match permissionsOf role with
       | Some p => permission p (requiresPermission item)
       | None => false
       end) managementItems.

(** The Management group is rendered when
    [filteredManagementItems.length > 0]. *)
Definition showsManagement (role : option AppRole) : bool :=
  negb (Nat.eqb (List.length (filteredManagementItems role)) 0).

End Sidebar.

(** Whether a page turns the visitor away when it is opened: the Inventory,
    Users and Reports pages navigate to the dashboard unless their
    permission is there; the Settings page does so only when a role is
    present; the Discounts page shows a refusal unless the role is
    [super_admin] or [manager]. *)
Module PageGuard.

Definition Inventory (role : option AppRole) : bool :=
  negb (allows role key_canManageProducts).

Definition Users (role : option AppRole) : bool :=
  negb (allows role key_canManageUsers).

Definition Reports (role : option AppRole) : bool :=
  negb (allows role key_canViewReports).

Definition Settings (role : option AppRole) : bool :=
  match role with
  | Some _ => negb (allows role key_canAccessSettings)
  | None => false
  end.

Definition Discounts (role : option AppRole) : bool :=
  negb (match role with
        | Some super_admin => true
        | Some manager => true
        | _ => false
        end).

(** The guard of the page a link of the sidebar leads to, by its
    address. *)
Definition turnsAway (url : string) (role : option AppRole) : bool :=
  if String.eqb url "/inventory" then Inventory role
  else if String.eqb url "/discounts" then Discounts role
  else if String.eqb url "/reports" then Reports role
  else if String.eqb url "/users" then Users role
  else if String.eqb url "/settings" then Settings role
  else false.

End PageGuard.

(** ** The product grid of the POS page: categories and filters

    The Inventory page has the same three definitions. *)

Module Category.
Record t : Type := mk {
  id : string;
  name : string;
  description : option string;
  parent_id : option string;
  created_at : string
}.
End Category.

Module Catalog.

(** [!c.parent_id]: true for [null] and for the empty string. *)
Definition no_parent (c : Category.t) : bool :=
  match Category.parent_id c with
  | None => true
  | Some p => String.eqb p ""
  end.

Definition mainCategories (categories : list Category.t) : list Category.t :=
  filter no_parent categories.

Definition getSubCategories (categories : list Category.t) (parentId : string)
    : list Category.t :=
  filter
    (fun c =>
       match Category.parent_id c with
       | Some p => String.eqb p parentId
       | None => false
       end) categories.

(** The categories the category selector offers, in the order it renders
    them: each main category followed by its sub-categories.  (The selector
    starts with the entry [all].) *)
Definition offeredCategories (categories : list Category.t)
    : list Category.t :=
  flat_map
    (fun cat => cat :: getSubCategories categories (Category.id cat))
    (mainCategories categories).

Section Search.
(** [String.prototype.toLowerCase] and [String.prototype.includes]. *)
Variable toLowerCase : string -> string.
Variable includes : string -> string -> bool.

Definition filteredProducts (products : list Product.t)
    (searchQuery selectedCategory selectedBrand : string) : list Product.t :=
  filter
    (fun product =>
       let matchesSearch :=
         includes (toLowerCase (Product.name product)) (toLowerCase searchQuery)
         || match Product.barcode product with
            | Some barcode =>
                includes (toLowerCase barcode) (toLowerCase searchQuery)
            | None => false
            end in
       let matchesCategory :=
         String.eqb selectedCategory "all"
         || match Product.category_id product with
            | Some c => String.eqb c selectedCategory
            | None => false
            end in
       let matchesBrand :=
         String.eqb selectedBrand "all"
         || match Product.brand_id product with
            | Some b => String.eqb b selectedBrand
            | None => false
            end in
       matchesSearch && matchesCategory && matchesBrand) products.
End Search.

End Catalog.

(** ** The Reports page: aggregation of the fetched sales *)

(** A JavaScript [Map] with string keys: its entries in insertion order.
    [set] on a key that is present keeps the place of the entry. *)
Section JsMap.
Context {V : Type}.

Fixpoint map_get (m : list (string * V)) (key : string) : option V :=
  match m with
  | [] => None
  | (k, v) :: rest => if String.eqb k key then Some v else map_get rest key
  end.

Fixpoint map_set (m : list (string * V)) (key : string) (value : V)
    : list (string * V) :=
  match m with
  | [] => [(key, value)]
  | (k, v) :: rest =>
      if String.eqb k key then (k, value) :: rest
      else (k, v) :: map_set rest key value
  end.
End JsMap.

Module Reports.

(** A row of [sales] and a row of [sale_items] as the page selects them;
    [category_name] is [products?.categories?.name]. *)
Module SaleRow.
Record t : Type := mk {
  total_amount : number;
  total_profit : number;
  created_at : string
}.
End SaleRow.

Module SaleItemRow.
Record t : Type := mk {
  subtotal : number;
  category_name : option string
}.
End SaleItemRow.

Record ReportStats : Type := mkReportStats {
  totalSales : nat;
  totalRevenue : number;
  totalProfit : number;
  avgOrderValue : number
}.

(** The value kept per day, and a point of the chart. *)
Record Day : Type := mkDay {
  revenue : number;
  profit : number;
  count : nat
}.

Record DailySales : Type := mkDailySales {
  date : string;
  day : Day
}.

Record CategorySales : Type := mkCategorySales {
  name : string;
  value : number
}.

Definition stats (sales : list SaleRow.t) : ReportStats :=
  let totalRevenue :=
    fold_left (fun sum s => sum + SaleRow.total_amount s) sales 0 in
  let totalProfit :=
    fold_left (fun sum s => sum + SaleRow.total_profit s) sales 0 in
  {| totalSales := List.length sales;
     totalRevenue := totalRevenue;
     totalProfit := totalProfit;
     avgOrderValue :=
       if Nat.ltb 0 (List.length sales)
       then totalRevenue / inject_Z (Z.of_nat (List.length sales))
       else 0 |}.

Section Days.
(** [format(new Date(created_at), 'MMM d')] of date-fns. *)
Variable format : string -> string.

(** The body of [sales.forEach] that groups by day. *)
Definition addSale (salesByDate : list (string * Day)) (sale : SaleRow.t)
    : list (string * Day) :=
  let dateKey := format (SaleRow.created_at sale) in
  let existing :=
    match map_get salesByDate dateKey with
    | Some d => d
    | None => mkDay 0 0 0
    end in
  map_set salesByDate dateKey
    (mkDay (revenue existing + SaleRow.total_amount sale)
       (profit existing + SaleRow.total_profit sale)
       (count existing + 1)).

Definition salesByDate (sales : list SaleRow.t) : list (string * Day) :=
  fold_left addSale sales [].

Definition chartData (sales : list SaleRow.t) : list DailySales :=
  map (fun entry => mkDailySales (fst entry) (snd entry)) (salesByDate sales).
End Days.

(** [item.products?.categories?.name || 'Uncategorized']. *)
Definition categoryName (item : SaleItemRow.t) : string :=
  match SaleItemRow.category_name item with
  | Some n => if String.eqb n "" then "Uncategorized" else n
  | None => "Uncategorized"
  end.

(** The body of [saleItems.forEach]; [get(name) || 0]. *)
Definition addItem (categoryTotals : list (string * number))
    (item : SaleItemRow.t) : list (string * number) :=
  let existing :=
    match map_get categoryTotals (categoryName item) with
    | Some v => if Qeq_bool v 0 then 0 else v
    | None => 0
    end in
  map_set categoryTotals (categoryName item)
    (existing + SaleItemRow.subtotal item).

Definition categoryTotals (saleItems : list SaleItemRow.t)
    : list (string * number) :=
  fold_left addItem saleItems [].

(** [sort((a, b) => b.value - a.value)]: the sort of an array is stable, so
    its result is that of inserting the elements from the last to the
    first, each one before the first element that need not precede it. *)
Definition compare (a b : CategorySales) : number := value b - value a.

Fixpoint insert (x : CategorySales) (sorted : list CategorySales)
    : list CategorySales :=
  match sorted with
  | [] => [x]
  | y :: rest =>
      if num_gt (compare x y) 0 then y :: insert x rest else x :: sorted
  end.

Definition sort (a : list CategorySales) : list CategorySales :=
  fold_right insert [] a.

Definition categoryData (saleItems : list SaleItemRow.t)
    : list CategorySales :=
  firstn 5
    (sort (map (fun entry => mkCategorySales (fst entry) (snd entry))
             (categoryTotals saleItems))).

End Reports.

(** ** The specification's formulas (section 4.2), in its own words *)

Module Spec.

(** The capabilities of section 4.1 and its table, row by row. *)
Inductive Capability : Type :=
| manage_users
| view_buying_price
| view_profit
| manage_products
| view_reports
| override_transactions
| access_settings
| view_activity_logs.

Definition table (c : Capability) (role : AppRole) : bool :=
  match c, role with
  | manage_users, super_admin => true
  | manage_users, manager => false
  | manage_users, cashier => false
  | view_buying_price, super_admin => true
  | view_buying_price, manager => true
  | view_buying_price, cashier => false
  | view_profit, super_admin => true
  | view_profit, manager => true
  | view_profit, cashier => false
  | manage_products, super_admin => true
  | manage_products, manager => true
  | manage_products, cashier => false
  | view_reports, super_admin => true
  | view_reports, manager => true
  | view_reports, cashier => false
  | override_transactions, super_admin => true
  | override_transactions, manager => false
  | override_transactions, cashier => false
  | access_settings, super_admin => true
  | access_settings, manager => false
  | access_settings, cashier => false
  | view_activity_logs, super_admin => true
  | view_activity_logs, manager => false
  | view_activity_logs, cashier => false
  end.

(** The field of the code's record that stands for a capability. *)
Definition granted (p : Permissions) (c : Capability) : bool :=
  match c with
  | manage_users => canManageUsers p
  | view_buying_price => canViewBuyingPrice p
  | view_profit => canViewProfit p
  | manage_products => canManageProducts p
  | view_reports => canViewReports p
  | override_transactions => canOverrideTransactions p
  | access_settings => canAccessSettings p
  | view_activity_logs => canViewActivityLogs p
  end.

(** The line formulas: price [p], quantity [q], optional discount [d]. *)
Definition lineGross (item : CartItem) : number :=
  Product.selling_price (product item) * quantity item.

Definition lineDiscount (item : CartItem) : number :=
  match discount item with
  | None => 0
  | Some d =>
      match Discount.type d with
      | percentage => lineGross item * (Discount.value d / 100)
      | fixed => Discount.value d * quantity item
      end
  end.

Definition lineNet (item : CartItem) : number :=
  Qmax 0 (lineGross item - lineDiscount item).

(** The sum of [f] over the lines of a cart. *)
Fixpoint sigma (f : CartItem -> number) (cart : list CartItem) : number :=
  match cart with
  | [] => 0
  | item :: rest => f item + sigma f rest
  end.

Definition cartGross (cart : list CartItem) : number := sigma lineGross cart.

Definition cartDiscount (cart : list CartItem) : number :=
  sigma lineDiscount cart.

Definition cartNet (cart : list CartItem) : number :=
  cartGross cart - cartDiscount cart.

End Spec.

(** ** Carts a session can hold

    Every line of a cart has a positive quantity, and the stock recorded in
    its product snapshot is not negative (products are fetched with
    [stock_quantity > 0], a refill carries 999). *)

Definition line_ok (item : CartItem) : Prop :=
  0 < quantity item /\ 0 <= Product.stock_quantity (product item).

Definition cart_ok (cart : list CartItem) : Prop := Forall line_ok cart.

(** ** Reading the effect logs *)

(** What a log gained between two states. *)
Definition gained {A : Type} (before after : list A) : list A :=
  skipn (List.length before) after.

(** The request that lowers the stock of the product of a line. *)
Definition stock_write (item : CartItem) : DbRequest :=
  update_product_stock (Product.id (product item))
    (Product.stock_quantity (product item) - quantity item).

Definition is_stock_write (r : DbRequest) : bool :=
  match r with
  | update_product_stock _ _ => true
  | _ => false
  end.

Definition the_stock_error : Toast := toast_error "Not enough stock available".

(** A run of requests logged one after the other. *)
Definition sent_all (rs : list DbRequest) (s : POS.State) : POS.State :=
  fold_left (fun acc r => POS.sent r acc) rs s.

Definition not_refill (item : CartItem) : bool := negb (POS.isRefill item).

(** The two inserts [processCheckout] makes for the cart of [s], and the
    receipt it builds. *)
Definition sale_of (s : POS.State) (user_id : string) : DbRequest :=
  let totals := POS.calculateTotals (POS.cart s) in
  insert_sale
    {| SaleInsert.cashier_id := user_id;
       SaleInsert.total_amount := POS.subtotal totals;
       SaleInsert.total_profit := POS.totalProfit totals;
       SaleInsert.discount_amount := POS.totalDiscount totals;
       SaleInsert.payment_method := POS.paymentMethod s |}.

Definition sale_items_of (s : POS.State) (sale_id : string) : DbRequest :=
  insert_sale_items (map (POS.saleItem sale_id) (POS.cart s)).

Definition receipt_of (s : POS.State) (sale_id : string) (now : N)
    (cashAmount change : option number) : POS.ReceiptData.t :=
  let totals := POS.calculateTotals (POS.cart s) in
  {| POS.ReceiptData.saleId := sale_id;
     POS.ReceiptData.items := POS.cart s;
     POS.ReceiptData.subtotal := POS.originalSubtotal totals;
     POS.ReceiptData.totalDiscount := POS.totalDiscount totals;
     POS.ReceiptData.total := POS.subtotal totals;
     POS.ReceiptData.paymentMethod := POS.paymentMethod s;
     POS.ReceiptData.cashReceived := cashAmount;
     POS.ReceiptData.changeAmount := change;
     POS.ReceiptData.date := now |}.

Definition the_success : Toast := toast_success "Sale completed successfully!".

Definition the_failure : Toast := toast_error "Failed to process sale".

(** What the row of a line must say about its product: its name, and its id
    unless the line is a refill. *)
Definition row_of_line (item : CartItem) (row : SaleItemInsert.t) : Prop :=
  SaleItemInsert.product_name row = Product.name (product item)
  /\ SaleItemInsert.quantity row = quantity item
  /\ SaleItemInsert.product_id row
     = if POS.isRefill item then None else Some (Product.id (product item)).

(** ** The cart of the data model

    Quantities and stocks are whole numbers; every line holds at least one
    unit and no more than the stock its product records; a product has one
    line. *)

Definition whole (x : number) : Prop := exists z : Z, x == inject_Z z.

Definition line_sound (item : CartItem) : Prop :=
  whole (quantity item)
  /\ whole (Product.stock_quantity (product item))
  /\ 0 < quantity item
  /\ quantity item <= Product.stock_quantity (product item).

Definition ids (cart : list CartItem) : list string :=
  map (fun item => Product.id (product item)) cart.

Definition cart_sound (cart : list CartItem) : Prop :=
  Forall line_sound cart /\ NoDup (ids cart).

(** The cart [updateQuantity] writes when it accepts the adjustment. *)
Definition adjusted (X : string) (delta : number) (cart : list CartItem)
    : list CartItem :=
  map (fun item =>
         if POS.has_id X item
         then POS.with_quantity item (quantity item + delta)
         else item) cart.

(** The sum of a column over rows. *)
Fixpoint sum_of {A : Type} (f : A -> number) (rows : list A) : number :=
  match rows with
  | [] => 0
  | row :: rest => f row + sum_of f rest
  end.

(** A line whose discount stays within its price: a percentage between 0
    and 100, or a fixed amount between 0 and the unit price. *)
Definition discount_within_price (item : CartItem) : Prop :=
  match discount item with
  | None => True
  | Some d =>
      match Discount.type d with
      | percentage => 0 <= Discount.value d /\ Discount.value d <= 100
      | fixed =>
          0 <= Discount.value d
          /\ Discount.value d <= Product.selling_price (product item)
      end
  end.

(** The page a checkout of the state [s] leaves behind.  After a failure,
    [trace] being the requests it sent; after a success, [refreshed] telling
    whether the refresh of the products went through. *)
Definition after_failure (trace : list DbRequest) (s : POS.State) : POS.State :=
  POS.setProcessing false (POS.toast the_failure (sent_all trace s)).

Definition after_success (user_id sale_id : string) (now : N)
    (cashAmount change : option number) (refreshed : bool) (s : POS.State)
    : POS.State :=
  let s1 :=
    sent_all
      ([sale_of s user_id; sale_items_of s sale_id]
       ++ map stock_write (filter not_refill (POS.cart s))) s in
  let s2 :=
    POS.sent select_products
      (POS.setCashReceived ""
         (POS.setCart []
            (POS.setShowReceipt true
               (POS.toast the_success
                  (POS.setReceiptData
                     (Some (receipt_of s sale_id now cashAmount change))
                     s1))))) in
  POS.setProcessing false
    (if refreshed then s2
     else POS.toast (toast_error "Failed to load products") s2).

(** ** Reading what the Discounts page sent *)

(** The row of a request that writes a discount. *)
Definition discount_written (r : DbRequest) : option DiscountWrite.t :=
  match r with
  | insert_discount row => Some row
  | update_discount _ row => Some row
  | _ => None
  end.

(** The write [handleSave] makes for a form whose value parsed to
    [numValue]: an update of the discount being edited, else an insert in
    the name of the signed-in user, else none. *)
Definition discount_write (trim : string -> string) (form : Discounts.State)
    (numValue : number) : option DbRequest :=
  match Discounts.editingDiscount form with
  | Some editing =>
      Some (update_discount (Discount.id editing)
              (DiscountWrite.mk (trim (Discounts.name form))
                 (Discounts.type form) numValue None))
  | None =>
      match Discounts.user form with
      | Some user_id =>
          Some (insert_discount
                  (DiscountWrite.mk (trim (Discounts.name form))
                     (Discounts.type form) numValue (Some user_id)))
      | None => None
      end
  end.

Definition save_failed : Toast := toast_error "Failed to save discount".

(** The three ways [handleSave] ends once the form is valid. *)
Definition save_without_user (form : Discounts.State) : Discounts.State :=
  Discounts.setSaving false
    (Discounts.toast save_failed (Discounts.setSaving true form)).

Definition save_refused (w : DbRequest) (form : Discounts.State)
    : Discounts.State :=
  Discounts.setSaving false
    (Discounts.toast save_failed
       (Discounts.sent w (Discounts.setSaving true form))).

Definition save_done (w : DbRequest) (refreshed : bool)
    (form : Discounts.State) : Discounts.State :=
  let done :=
    Discounts.sent select_discounts
      (Discounts.resetForm
         (Discounts.setShowDialog false
            (Discounts.toast
               (toast_success
                  (match Discounts.editingDiscount form with
                   | Some _ => "Discount updated successfully"
                   | None => "Discount created successfully"
                   end))
               (Discounts.sent w (Discounts.setSaving true form))))) in
  Discounts.setSaving false
    (if refreshed then done
     else Discounts.toast (toast_error "Failed to load discounts") done).

(** ** Refill lines *)

(** The line is sold as a refill called [name] at [price]: whatever the
    sale, its row names no product, carries no cost and counts its whole
    subtotal as profit. *)
Definition sold_as_refill (name : string) (price : number) (line : CartItem)
    : Prop :=
  POS.isRefill line = true
  /\ discount line = None
  /\ forall sale_id,
       let row := POS.saleItem sale_id line in
       SaleItemInsert.product_id row = None
       /\ SaleItemInsert.product_name row = name
       /\ SaleItemInsert.quantity row == 1
       /\ SaleItemInsert.unit_price row == price
       /\ SaleItemInsert.buying_price row == 0
       /\ SaleItemInsert.subtotal row == Math_max 0 price
       /\ SaleItemInsert.profit row == SaleItemInsert.subtotal row.

(** ** The Users page: the list of users with their roles *)

Module Users.

Module Profile.
Record t : Type := mk {
  id : string;
  user_id : string;
  full_name : string;
  email : string;
  created_at : string;
  updated_at : string
}.
End Profile.

(** A row of [user_roles] as [fetchUsers] selects it. *)
Record RoleRow : Type := mkRoleRow {
  user_id : string;
  role : AppRole
}.

Record UserWithRole : Type := mkUserWithRole {
  profile : Profile.t;
  user_role : option AppRole
}.

(** [new Map(roles?.map(r => [r.user_id, r.role]))]: the entries are set
    in order, and without rows the map is empty. *)
Definition rolesMap (roles : option (list RoleRow)) : list (string * AppRole) :=
  match roles with
  | Some rows =>
      fold_left (fun m entry => map_set m (fst entry) (snd entry))
        (map (fun r => (user_id r, role r)) rows) []
  | None => []
  end.

(** [(profiles || []).map(profile => ({ ...profile, role: ... }))]. *)
Definition usersWithRoles (profiles : option (list Profile.t))
    (roles : option (list RoleRow)) : list UserWithRole :=
  map (fun profile =>
         mkUserWithRole profile
           (map_get (rolesMap roles) (Profile.user_id profile)))
    match profiles with
    | Some rows => rows
    | None => []
    end.

End Users.

(** ** Reading the sales chart *)

(** The sales of the day [date], in the order fetched. *)
Definition salesOn (format : string -> string) (date : string)
    (sales : list Reports.SaleRow.t) : list Reports.SaleRow.t :=
  filter
    (fun sale => String.eqb (format (Reports.SaleRow.created_at sale)) date)
    sales.

(** ** Reading the category chart *)

(** The value a [Map] of numbers holds for a key, 0 when it has none, and
    the total of the sale items of a category. *)
Definition held (m : list (string * number)) (key : string) : number :=
  match map_get m key with
  | Some v => v
  | None => 0
  end.

Definition categoryTotal (saleItems : list Reports.SaleItemRow.t)
    (category : string) : number :=
  sum_of Reports.SaleItemRow.subtotal
    (filter (fun item => String.eqb (Reports.categoryName item) category)
       saleItems).

(** [a] may precede [b] in the chart. *)
Definition not_below (a b : Reports.CategorySales) : Prop :=
  Reports.value b <= Reports.value a.

(** ** A small shop to run the handlers on *)

Module Demo.

Definition mango : Product.t :=
  Product.mk "p-1" "Mango Ice 30ml" None None None 90 150 5 2 "" "".

Definition coil : Product.t :=
  Product.mk "p-2" "Mesh coil 0.4" None None None 60 100 20 5 "" "".

Definition ten_percent : Discount.t :=
  Discount.mk "d-1" "Loyalty 10%" percentage 10 true "u-1" "" "".

Definition minus_150 : Discount.t :=
  Discount.mk "d-2" "Voucher 150" fixed 150 true "u-1" "" "".

Definition on_the_house : Discount.t :=
  Discount.mk "d-3" "On the house" percentage 100 true "u-1" "" "".

(** A signed-in cashier in front of the given cart, paying [method], with
    [typed] in the cash field. *)
Definition session (cart : list CartItem) (method : PaymentMethod)
    (typed : string) : POS.State :=
  POS.mkState (Some "u-1"%string) (Some cashier) cart method false typed
    false false None [] [].

(** The cart after one refill was added at time [1700000000000] and its
    quantity raised by 998. *)
Definition refill_id : string := "refill-1700000000000".

Definition refill_999 : POS.State :=
  POS.updateQuantity refill_id 998
    (POS.addRefillToCart 1700000000000 "2023-11-14T22:13:20.000Z"
       "Refill 30ml" 300 30 (session [] cash "")).

(** Two units of one product, then a refill, in the cart of a card sale. *)
Definition mango_and_refill : POS.State :=
  POS.addRefillToCart 1700000000000 "2023-11-14T22:13:20.000Z"
    "Refill 30ml" 300 30
    (POS.addToCart mango (POS.addToCart mango (session [] card ""))).

(** [parseFloat] on the strings these examples type: a run of decimal
    digits is its value, anything else is [NaN]. *)
Definition parseDigits (s : string) : option number :=
  match s with
  | EmptyString => None
  | _ =>
      match NilEmpty.uint_of_string s with
      | Some u => Some (inject_Z (Z.of_N (N.of_uint u)))
      | None => None
      end
  end.

(** [trim] on names that carry no white space at either end. *)
Definition trimmed (s : string) : string := s.

(** A database that stores every row it is sent: its state is the list of
    requests served so far, and the n-th sale gets the id [sale-n]. *)
Definition Ledger : Type := list DbRequest.

Definition serve (db : Ledger) (r : DbRequest) : Ledger * Reply :=
  (db ++ [r],
   match r with
   | insert_sale _ =>
       success
         ("sale-" ++ NilZero.string_of_uint
                       (Nat.to_uint
                          (S (List.length (filter
                                (fun x => match x with
                                          | insert_sale _ => true
                                          | _ => false
                                          end) db)))))
   | _ => success ""
   end).

(** A database that is down: every request fails. *)
Definition down (db : unit) (r : DbRequest) : unit * Reply :=
  (db, failure "network error").

End Demo.

(** ** Number facts *)

Lemma num_le_iff (a b : number) : num_le a b = true <-> a <= b.
Proof. apply Qle_bool_iff. Qed.

Lemma num_lt_iff (a b : number) : num_lt a b = true <-> a < b.
Proof.
  unfold num_lt. rewrite negb_true_iff.
  split; intro H.
  - apply Qnot_le_lt. intro Hle. apply Qle_bool_iff in Hle. congruence.
  - destruct (Qle_bool b a) eqn:E; [|reflexivity].
    apply Qle_bool_iff in E. exfalso. apply (Qlt_not_le _ _ H E).
Qed.

Lemma num_lt_false_iff (a b : number) : num_lt a b = false <-> b <= a.
Proof.
  unfold num_lt. rewrite negb_false_iff. apply Qle_bool_iff.
Qed.

Lemma num_le_false_iff (a b : number) : num_le a b = false <-> b < a.
Proof.
  rewrite <- num_lt_iff. unfold num_lt, num_le.
  destruct (Qle_bool a b); simpl; intuition congruence.
Qed.

Lemma num_gt_iff (a b : number) : num_gt a b = true <-> b < a.
Proof. apply num_lt_iff. Qed.

Lemma num_ge_iff (a b : number) : num_ge a b = true <-> b <= a.
Proof. apply num_le_iff. Qed.

Lemma Math_max_Qmax (a b : number) : Math_max a b = Qmax a b.
Proof.
  unfold Math_max, Qmax, GenericMinMax.gmax.
  destruct (num_lt a b) eqn:E.
  - apply num_lt_iff in E.
    assert (C : (a ?= b) = Lt) by (now apply Qlt_alt).
    now rewrite C.
  - destruct (a ?= b) eqn:C; try reflexivity.
    assert (L : a < b) by (now apply Qlt_alt).
    apply num_lt_iff in L. congruence.
Qed.

Lemma Math_max_nonneg (x : number) : 0 <= Math_max 0 x.
Proof.
  unfold Math_max. destruct (num_lt 0 x) eqn:E.
  - apply num_lt_iff in E. now apply Qlt_le_weak.
  - apply Qle_refl.
Qed.

(** [reduce] from [0] adds up the terms in cart order. *)
Lemma reduce_sum_from (f : CartItem -> number) (cart : list CartItem) (acc : number) :
  fold_left (fun sum x => sum + f x) cart acc == acc + Spec.sigma f cart.
Proof.
  revert acc. induction cart as [|item rest IH]; intro acc; simpl.
  - ring.
  - rewrite IH. ring.
Qed.

Lemma reduce_sum_sigma (f : CartItem -> number) (cart : list CartItem) :
  reduce_sum f cart == Spec.sigma f cart.
Proof.
  unfold reduce_sum. rewrite reduce_sum_from. ring.
Qed.

(** ** Role permissions *)

(** C8.  The permission mapping is the table of section 4.1, for each of the
    three roles and each of the eight capabilities: [super_admin] is granted
    everything, [manager] exactly view-buying-price, view-profit,
    manage-products and view-reports, [cashier] nothing. *)
Theorem getRolePermissions_table :
  (forall role c, Spec.granted (getRolePermissions role) c = Spec.table c role)
  /\ getRolePermissions super_admin
     = mkPermissions true true true true true true true true
  /\ getRolePermissions manager
     = mkPermissions false true true true true false false false
  /\ getRolePermissions cashier
     = mkPermissions false false false false false false false false.
Proof.
  split; [|repeat split].
  intros role c. destruct role, c; reflexivity.
Qed.

(** ** Pricing *)

Lemma calculateItemDiscount_spec (item : CartItem) :
  POS.calculateItemDiscount item = Spec.lineDiscount item.
Proof.
  unfold POS.calculateItemDiscount, Spec.lineDiscount, Spec.lineGross.
  now destruct (discount item).
Qed.

Lemma sigma_ext (f g : CartItem -> Q) (cart : list CartItem) :
  (forall item, f item = g item) -> Spec.sigma f cart = Spec.sigma g cart.
Proof.
  intro H. induction cart as [|item rest IH]; simpl; [reflexivity|].
  now rewrite H, IH.
Qed.

(** C1.  For every cart the net total returned by [calculateTotals] is its
    gross total minus its total discount, where the gross total is the sum
    over the lines of price times quantity and the total discount the sum
    over the lines of the line discount. *)
Theorem calculateTotals_net (cart : list CartItem) :
  let totals := POS.calculateTotals cart in
  POS.subtotal totals = POS.originalSubtotal totals - POS.totalDiscount totals
  /\ POS.originalSubtotal totals == Spec.cartGross cart
  /\ POS.totalDiscount totals == Spec.cartDiscount cart
  /\ POS.subtotal totals == Spec.cartNet cart.
Proof.
  assert (G : POS.originalSubtotal (POS.calculateTotals cart)
              == Spec.cartGross cart)
    by apply (reduce_sum_sigma Spec.lineGross).
  assert (D : POS.totalDiscount (POS.calculateTotals cart)
              == Spec.cartDiscount cart).
  { unfold Spec.cartDiscount.
    rewrite <- (sigma_ext POS.calculateItemDiscount Spec.lineDiscount)
      by apply calculateItemDiscount_spec.
    apply (reduce_sum_sigma POS.calculateItemDiscount). }
  cbv zeta. repeat split; try assumption.
  unfold Spec.cartNet.
  change (POS.subtotal (POS.calculateTotals cart))
    with (POS.originalSubtotal (POS.calculateTotals cart)
          - POS.totalDiscount (POS.calculateTotals cart)).
  now rewrite G, D.
Qed.

(** C2.  The discount of a line is 0 without a discount, gross times
    value/100 for a percentage discount and value times quantity for a fixed
    one; the net of a line is the larger of 0 and gross minus discount, and
    so is never negative. *)
Theorem line_discount_and_net (item : CartItem) :
  let p := Product.selling_price (product item) in
  let q := quantity item in
  match discount item with
  | None => POS.calculateItemDiscount item = 0
  | Some d =>
      match Discount.type d with
      | percentage =>
          POS.calculateItemDiscount item = (p * q) * (Discount.value d / 100)
      | fixed => POS.calculateItemDiscount item = Discount.value d * q
      end
  end
  /\ POS.calculateItemDiscount item = Spec.lineDiscount item
  /\ POS.calculateItemSubtotal item
     = Qmax 0 (p * q - POS.calculateItemDiscount item)
  /\ POS.calculateItemSubtotal item = Spec.lineNet item
  /\ 0 <= POS.calculateItemSubtotal item.
Proof.
  cbv zeta. split; [|split; [|split; [|split]]].
  - unfold POS.calculateItemDiscount.
    destruct (discount item) as [d|]; [destruct (Discount.type d)|];
      reflexivity.
  - apply calculateItemDiscount_spec.
  - unfold POS.calculateItemSubtotal. apply Math_max_Qmax.
  - unfold POS.calculateItemSubtotal, Spec.lineNet.
    rewrite Math_max_Qmax. now rewrite calculateItemDiscount_spec.
  - apply Math_max_nonneg.
Qed.

(** ** Cart handlers *)

Ltac qcompare :=
  unfold Qle, Qlt; simpl; first [reflexivity | discriminate | lia].

Lemma setCart_same (s : POS.State) : POS.setCart (POS.cart s) s = s.
Proof. now destruct s. Qed.

Lemma toast_all_cart (l : list Toast) (s : POS.State) :
  POS.cart (fold_left (fun acc t => POS.toast t acc) l s) = POS.cart s.
Proof.
  revert s. induction l as [|t l IH]; intro s; simpl; [reflexivity|].
  now rewrite IH.
Qed.

Lemma toast_all_toasts (l : list Toast) (s : POS.State) :
  POS.toasts (fold_left (fun acc t => POS.toast t acc) l s) = POS.toasts s ++ l.
Proof.
  revert s. induction l as [|t l IH]; intro s; simpl.
  - now rewrite app_nil_r.
  - rewrite IH. simpl. now rewrite <- app_assoc.
Qed.

Lemma toast_all_requests (l : list Toast) (s : POS.State) :
  POS.requests (fold_left (fun acc t => POS.toast t acc) l s) = POS.requests s.
Proof.
  revert s. induction l as [|t l IH]; intro s; simpl; [reflexivity|].
  now rewrite IH.
Qed.

Lemma filter_keeps_all {A : Type} (f : A -> bool) (l : list A) :
  (forall x, In x l -> f x = true) -> filter f l = l.
Proof.
  induction l as [|x l IH]; intro H; simpl; [reflexivity|].
  rewrite (H x (or_introl eq_refl)). f_equal. apply IH.
  intros y Hy. apply H. now right.
Qed.

Lemma gained_app {A : Type} (before new : list A) :
  gained before (before ++ new) = new.
Proof.
  unfold gained. induction before as [|x l IH]; simpl; [reflexivity|exact IH].
Qed.

Lemma cart_ok_positive (cart : list CartItem) :
  cart_ok cart -> forall item, In item cart -> num_gt (quantity item) 0 = true.
Proof.
  intros Hok item Hin. apply num_gt_iff.
  unfold cart_ok in Hok. rewrite Forall_forall in Hok.
  now destruct (Hok item Hin).
Qed.

(** The lines [updateQuantity] keeps as they are: the line it is given when
    the new quantity is not positive or exceeds the recorded stock, and every
    line of another product. *)
Lemma updateQuantity_line_kept (X : string) (delta : Q) (item : CartItem) :
  POS.has_id X item = false
  \/ quantity item + delta <= 0
  \/ Product.stock_quantity (product item) < quantity item + delta ->
  fst (POS.updateQuantity_line X delta item) = item.
Proof.
  unfold POS.updateQuantity_line. intros [H|[H|H]].
  - now rewrite H.
  - apply num_le_iff in H. rewrite H. now destruct (POS.has_id X item).
  - apply num_gt_iff in H. rewrite H.
    destruct (POS.has_id X item); [|reflexivity].
    now destruct (num_le (quantity item + delta) 0).
Qed.

Lemma updateQuantity_cart_kept (X : string) (delta : Q) (s : POS.State) :
  cart_ok (POS.cart s) ->
  (forall item, In item (POS.cart s) -> POS.has_id X item = true ->
     quantity item + delta <= 0
     \/ Product.stock_quantity (product item) < quantity item + delta) ->
  POS.cart (POS.updateQuantity X delta s) = POS.cart s.
Proof.
  intros Hok H. unfold POS.updateQuantity. cbv zeta.
  change (POS.cart (POS.setCart ?c _)) with c.
  assert (E : map fst (map (POS.updateQuantity_line X delta) (POS.cart s))
              = POS.cart s).
  { rewrite map_map. rewrite <- (map_id (POS.cart s)) at 2.
    apply map_ext_in. intros item Hin.
    apply updateQuantity_line_kept.
    destruct (POS.has_id X item) eqn:E; [right|now left].
    now apply H. }
  rewrite E. apply filter_keeps_all. now apply cart_ok_positive.
Qed.

Lemma updateQuantity_silent (X : string) (delta : Q) (cart : list CartItem) :
  (forall item, In item cart -> POS.has_id X item = true ->
     quantity item + delta <= 0) ->
  List.concat (map snd (map (POS.updateQuantity_line X delta) cart)) = [].
Proof.
  induction cart as [|item rest IH]; intro H; simpl; [reflexivity|].
  rewrite IH by (intros i Hi; apply H; now right).
  rewrite app_nil_r. unfold POS.updateQuantity_line.
  destruct (POS.has_id X item) eqn:E; [|reflexivity].
  assert (L : num_le (quantity item + delta) 0 = true)
    by (apply num_le_iff, H; [now left|exact E]).
  now rewrite L.
Qed.

Lemma updateQuantity_complains (X : string) (delta : Q) (cart : list CartItem) :
  (forall item, In item cart -> POS.has_id X item = true ->
     0 < quantity item + delta
     /\ Product.stock_quantity (product item) < quantity item + delta) ->
  List.concat (map snd (map (POS.updateQuantity_line X delta) cart))
  = map (fun _ => the_stock_error) (filter (POS.has_id X) cart).
Proof.
  induction cart as [|item rest IH]; intro H; simpl; [reflexivity|].
  rewrite IH by (intros i Hi; apply H; now right).
  unfold POS.updateQuantity_line.
  destruct (POS.has_id X item) eqn:E; [|reflexivity].
  destruct (H item (or_introl eq_refl) E) as [Hpos Hstock].
  apply num_le_false_iff in Hpos. apply num_gt_iff in Hstock.
  now rewrite Hpos, Hstock.
Qed.

(** Every cart handler keeps the cart well formed (for [addToCart], when the
    product offered has a stock that is not negative). *)
Lemma addRefillToCart_ok now nowIso name price volumeMl (s : POS.State) :
  cart_ok (POS.cart s) ->
  cart_ok (POS.cart (POS.addRefillToCart now nowIso name price volumeMl s)).
Proof.
  intro H. unfold POS.addRefillToCart. simpl.
  apply Forall_app. split; [exact H|].
  constructor; [|constructor]. split; simpl; qcompare.
Qed.

Lemma addToCart_ok (p : Product.t) (s : POS.State) :
  0 <= Product.stock_quantity p ->
  cart_ok (POS.cart s) -> cart_ok (POS.cart (POS.addToCart p s)).
Proof.
  intros Hp H. unfold POS.addToCart.
  destruct (find (POS.has_id (Product.id p)) (POS.cart s)) as [existing|].
  - destruct (num_ge (quantity existing) (Product.stock_quantity p));
      [exact H|].
    simpl. unfold cart_ok in *. rewrite Forall_forall in *.
    intros item Hin. apply in_map_iff in Hin as [old [E Hold]].
    destruct (H old Hold) as [Hq Hs].
    destruct (POS.has_id (Product.id p) old); subst item; [|now split].
    split; simpl; [|exact Hs]. lra.
  - simpl. apply Forall_app. split; [exact H|].
    constructor; [|constructor]. split; simpl; [qcompare|exact Hp].
Qed.

Lemma updateQuantity_ok (X : string) (delta : Q) (s : POS.State) :
  cart_ok (POS.cart s) -> cart_ok (POS.cart (POS.updateQuantity X delta s)).
Proof.
  intro H. unfold POS.updateQuantity. cbv zeta.
  change (POS.cart (POS.setCart ?c _)) with c.
  unfold cart_ok in *. rewrite Forall_forall in *.
  intros item Hin. apply filter_In in Hin as [Hin Hq].
  apply num_gt_iff in Hq. split; [exact Hq|].
  rewrite map_map in Hin. apply in_map_iff in Hin as [old [E Hold]].
  destruct (H old Hold) as [_ Hs]. subst item.
  unfold POS.updateQuantity_line.
  destruct (POS.has_id X old); [|exact Hs].
  destruct (num_le (quantity old + delta) 0); [exact Hs|].
  destruct (num_gt (quantity old + delta) (Product.stock_quantity (product old)));
    exact Hs.
Qed.

Lemma removeFromCart_ok (X : string) (s : POS.State) :
  cart_ok (POS.cart s) -> cart_ok (POS.cart (POS.removeFromCart X s)).
Proof.
  intro H. unfold POS.removeFromCart. simpl.
  unfold cart_ok in *. rewrite Forall_forall in *.
  intros item Hin. apply filter_In in Hin as [Hin _]. now apply H.
Qed.

Lemma applyDiscount_ok (X : string) (d : option Discount.t) (s : POS.State) :
  cart_ok (POS.cart s) -> cart_ok (POS.cart (POS.applyDiscount X d s)).
Proof.
  intro H. unfold POS.applyDiscount. cbv zeta.
  assert (G : cart_ok
                (map (fun item => if POS.has_id X item
                                  then POS.with_discount item d else item)
                   (POS.cart s))).
  { unfold cart_ok in *. rewrite Forall_forall in *.
    intros item Hin. apply in_map_iff in Hin as [old [E Hold]].
    specialize (H old Hold). destruct (POS.has_id X old); subst item; exact H. }
  destruct d; exact G.
Qed.

(** C3, as the code has it.  When the adjustment would bring the quantity of
    the line of product [X] to zero or below, [updateQuantity] changes
    nothing at all: the line stays in the cart with the quantity it had, and
    no toast is raised. *)
Theorem updateQuantity_not_below_one (X : string) (delta : Q) (s : POS.State) :
  cart_ok (POS.cart s) ->
  (forall item, In item (POS.cart s) -> POS.has_id X item = true ->
     quantity item + delta <= 0) ->
  POS.updateQuantity X delta s = s.
Proof.
  intros Hok H.
  assert (C : POS.cart (POS.updateQuantity X delta s) = POS.cart s)
    by (apply updateQuantity_cart_kept; [exact Hok|]; intros; left; now apply H).
  unfold POS.updateQuantity in *. cbv zeta in *.
  rewrite (updateQuantity_silent X delta (POS.cart s) H) in *.
  simpl in *. rewrite C. apply setCart_same.
Qed.

(** Taking one unit off a line of quantity 1 changes nothing. *)
Lemma updateQuantity_not_below_one_witness :
  POS.updateQuantity "p-1" (-1)
    (Demo.session [mkCartItem Demo.mango 1 None] cash "")
  = Demo.session [mkCartItem Demo.mango 1 None] cash "".
Proof.
  apply updateQuantity_not_below_one.
  - constructor; [|constructor]. split; simpl; qcompare.
  - intros item [E|[]] _. subst item. simpl. qcompare.
Defined.

(** C3 as the specification words it fails: taking one unit off a line of
    quantity 1 gives a quantity of 0, yet the line is still in the cart
    afterwards, whereas [removeFromCart] empties that cart. *)
Lemma updateQuantity_does_not_remove :
  let line := mkCartItem Demo.mango 1 None in
  let s := Demo.session [line] cash "" in
  quantity line + (-1) <= 0
  /\ POS.cart (POS.updateQuantity "p-1" (-1) s) = [line]
  /\ POS.cart (POS.removeFromCart "p-1" s) = []
  /\ POS.cart (POS.updateQuantity "p-1" (-1) s)
     <> POS.cart (POS.removeFromCart "p-1" s).
Proof.
  cbv zeta. split; [simpl; qcompare|].
  split; [reflexivity|]. split; [reflexivity|]. discriminate.
Qed.

(** C4.  In a well-formed cart, adding a product whose line already holds as
    many units as the product has in stock, and adjusting the lines of a
    product to a quantity above the stock they record, are both refused:
    the stock error is raised and the cart is what it was. *)
Theorem stock_ceiling_rejects (s : POS.State) :
  cart_ok (POS.cart s) ->
  (forall (p : Product.t) (existing : CartItem),
     find (POS.has_id (Product.id p)) (POS.cart s) = Some existing ->
     Product.stock_quantity p <= quantity existing ->
     POS.addToCart p s = POS.toast the_stock_error s
     /\ POS.cart (POS.addToCart p s) = POS.cart s)
  /\ (forall (X : string) (delta : Q),
        (exists item, In item (POS.cart s) /\ POS.has_id X item = true) ->
        (forall item, In item (POS.cart s) -> POS.has_id X item = true ->
           Product.stock_quantity (product item) < quantity item + delta) ->
        POS.cart (POS.updateQuantity X delta s) = POS.cart s
        /\ POS.toasts (POS.updateQuantity X delta s)
           = POS.toasts s
             ++ map (fun _ => the_stock_error)
                  (filter (POS.has_id X) (POS.cart s))
        /\ In the_stock_error
             (gained (POS.toasts s) (POS.toasts (POS.updateQuantity X delta s)))).
Proof.
  intro Hok. split.
  - intros p existing Hfind Hstock. unfold POS.addToCart. rewrite Hfind.
    apply num_ge_iff in Hstock. rewrite Hstock. split; reflexivity.
  - intros X delta [line [Hin Hid]] Hover.
    assert (Hboth : forall item, In item (POS.cart s) ->
              POS.has_id X item = true ->
              0 < quantity item + delta
              /\ Product.stock_quantity (product item) < quantity item + delta).
    { intros item Hi Hx. specialize (Hover item Hi Hx).
      unfold cart_ok in Hok. rewrite Forall_forall in Hok.
      destruct (Hok item Hi) as [_ Hs]. split; [|exact Hover].
      eapply Qle_lt_trans; eassumption. }
    assert (T : POS.toasts (POS.updateQuantity X delta s)
                = POS.toasts s
                  ++ map (fun _ => the_stock_error)
                       (filter (POS.has_id X) (POS.cart s))).
    { unfold POS.updateQuantity. cbv zeta.
      rewrite (updateQuantity_complains X delta (POS.cart s) Hboth).
      change (POS.toasts (POS.setCart ?c ?t)) with (POS.toasts t).
      apply toast_all_toasts. }
    split; [|split].
    + apply updateQuantity_cart_kept; [exact Hok|].
      intros item Hi Hx. right. now apply Hover.
    + exact T.
    + rewrite T, gained_app. apply in_map_iff. exists line.
      split; [reflexivity|]. apply filter_In. now split.
Qed.

(** A line holding all 5 units in stock: neither adding the product again
    nor one more unit gets through. *)
Lemma stock_ceiling_rejects_witness :
  let line := mkCartItem Demo.mango 5 None in
  let s := Demo.session [line; mkCartItem Demo.coil 2 None] cash "" in
  POS.cart (POS.addToCart Demo.mango s) = POS.cart s
  /\ POS.cart (POS.updateQuantity "p-1" 1 s) = POS.cart s
  /\ POS.toasts (POS.updateQuantity "p-1" 1 s) = [the_stock_error].
Proof.
  cbv zeta.
  destruct (stock_ceiling_rejects
              (Demo.session [mkCartItem Demo.mango 5 None;
                             mkCartItem Demo.coil 2 None] cash ""))
    as [Hadd Hupd].
  - repeat constructor; simpl; qcompare.
  - split.
    + apply (Hadd Demo.mango (mkCartItem Demo.mango 5 None));
        [reflexivity|simpl; qcompare].
    + destruct (Hupd "p-1"%string 1) as [C [T _]].
      * exists (mkCartItem Demo.mango 5 None). split; [now left|reflexivity].
      * intros item [E|[E|[]]] Hid; subst item; simpl; [qcompare|discriminate].
      * split; [exact C|exact T].
Defined.

(** C5 on the code: a refill line carries a stock of 999, and
    [updateQuantity] applies the stock ceiling to it like to any other line.
    With the quantity of a refill at 999, one more unit is refused with the
    stock error and the cart stays as it was. *)
Theorem refill_stops_at_999 :
  let s := Demo.refill_999 in
  (exists line,
     POS.cart s = [line]
     /\ POS.isRefill line = true
     /\ Product.id (product line) = Demo.refill_id
     /\ Product.stock_quantity (product line) = 999
     /\ quantity line = 999)
  /\ POS.cart (POS.updateQuantity Demo.refill_id 1 s) = POS.cart s
  /\ POS.toasts (POS.updateQuantity Demo.refill_id 1 s) = [the_stock_error].
Proof.
  cbv zeta. split; [|split].
  - eexists. vm_compute. repeat split.
  - vm_compute. reflexivity.
  - vm_compute. reflexivity.
Qed.

(** ** Checkout *)

Lemma sent_all_requests (rs : list DbRequest) (s : POS.State) :
  POS.requests (sent_all rs s) = POS.requests s ++ rs.
Proof.
  unfold sent_all. revert s.
  induction rs as [|r rs IH]; intro s; simpl.
  - now rewrite app_nil_r.
  - rewrite IH. simpl. now rewrite <- app_assoc.
Qed.

Lemma sent_all_rest (rs : list DbRequest) (s : POS.State) :
  POS.toasts (sent_all rs s) = POS.toasts s
  /\ POS.cart (sent_all rs s) = POS.cart s
  /\ POS.receiptData (sent_all rs s) = POS.receiptData s.
Proof.
  unfold sent_all. revert s.
  induction rs as [|r rs IH]; intro s; simpl; [repeat split|].
  destruct (IH (POS.sent r s)) as [T [C R]]. now rewrite T, C, R.
Qed.

Lemma sent_all_app (rs rs' : list DbRequest) (s : POS.State) :
  sent_all (rs ++ rs') s = sent_all rs' (sent_all rs s).
Proof. unfold sent_all. apply fold_left_app. Qed.

(** The stock loop writes the stock of the lines that are not refills, in
    cart order, and stops at the first write that fails. *)
Lemma updateStock_outcome (Store : Type)
    (exec : Store -> DbRequest -> Store * Reply)
    (items : list CartItem) (s0 : POS.State) (st0 : Store) :
  exists done todo,
    filter not_refill items = done ++ todo
    /\ fst (fst (POS.updateStock Store exec items (s0, st0)))
       = sent_all (map stock_write done) s0
    /\ match snd (POS.updateStock Store exec items (s0, st0)) with
       | Normal _ => todo = []
       | Throw _ => True
       end.
Proof.
  revert s0 st0. induction items as [|item rest IH]; intros s0 st0.
  - exists [], []. simpl. repeat split.
  - simpl. unfold not_refill at 1. destruct (POS.isRefill item) eqn:R; simpl.
    + apply IH.
    + unfold bind, POS.supabase, await. simpl.
      destruct (exec st0 _) as [st1 [id|e]] eqn:E; simpl.
      * destruct (IH (POS.sent (stock_write item) s0) st1)
          as [done [todo [F [S C]]]].
        exists (item :: done), todo. rewrite F. split; [reflexivity|].
        split; [exact S|exact C].
      * exists [item], (filter not_refill rest). repeat split.
Qed.

(** How [bind] runs past a request, a reply check and a setter. *)
Lemma bind_await {Page Store A : Type} (sent : DbRequest -> Page -> Page)
    (exec : Store -> DbRequest -> Store * Reply) (r : DbRequest)
    (k : Reply -> @Eff Page Store A) (s : Page) (st : Store) :
  bind (await sent exec r) k (s, st)
  = k (snd (exec st r)) (sent r s, fst (exec st r)).
Proof. unfold bind, await. simpl. now destruct (exec st r). Qed.

Lemma bind_run {Page Store A B : Type} (m : @Eff Page Store A)
    (k : A -> @Eff Page Store B) (c : Page * Store) :
  bind m k c
  = match m c with
    | (c', Normal a) => k a c'
    | (c', Throw e) => (c', Throw e)
    end.
Proof. reflexivity. Qed.

Lemma bind_orThrow {Page Store A : Type} (reply : Reply)
    (k : string -> @Eff Page Store A) (c : Page * Store) :
  bind (orThrow reply) k c
  = match reply with
    | success id => k id c
    | failure e => (c, Throw (thrown_error e))
    end.
Proof. now destruct reply. Qed.

Lemma bind_modify {Page Store A : Type} (f : Page -> Page)
    (k : unit -> @Eff Page Store A) (s : Page) (st : Store) :
  bind (modify f) k (s, st) = k tt (f s, st).
Proof. reflexivity. Qed.

(** What the [try] block of [processCheckout] does, for a signed-in user.
    If it throws, it has sent the sale, then possibly the sale items, then
    possibly some of the stock writes, and changed nothing else.  If it
    completes, it has sent the sale, the sale items, the stock write of
    every line that is not a refill and the refresh of the products, and it
    has set the receipt, raised the success toast and emptied the cart. *)
Lemma processCheckout_try_outcome (Store : Type)
    (exec : Store -> DbRequest -> Store * Reply)
    (render : POS.State) (now : N) (cashAmount change : option Q)
    (s0 : POS.State) (st0 : Store) (user_id : string) :
  POS.user render = Some user_id ->
  let out :=
    POS.processCheckout_try Store exec render now cashAmount change (s0, st0) in
  let s1 := fst (fst out) in
  match snd out with
  | Throw _ =>
      s1 = sent_all [sale_of render user_id] s0
      \/ exists sale_id tried todo,
           filter not_refill (POS.cart render) = tried ++ todo
           /\ s1 = sent_all
                     ([sale_of render user_id; sale_items_of render sale_id]
                      ++ map stock_write tried) s0
  | Normal _ =>
      exists sale_id,
        POS.requests s1
        = POS.requests s0
          ++ [sale_of render user_id; sale_items_of render sale_id]
          ++ map stock_write (filter not_refill (POS.cart render))
          ++ [select_products]
        /\ POS.receiptData s1
           = Some (receipt_of render sale_id now cashAmount change)
        /\ POS.cart s1 = []
        /\ (POS.toasts s1 = POS.toasts s0 ++ [the_success]
            \/ POS.toasts s1
               = POS.toasts s0
                 ++ [the_success; toast_error "Failed to load products"])
  end.
Proof.
  intro Huser. cbv zeta. unfold POS.processCheckout_try. rewrite Huser.
  unfold POS.supabase. rewrite bind_await.
  change (insert_sale _) with (sale_of render user_id).
  destruct (exec st0 (sale_of render user_id)) as [st1 [sale_id|e]];
    cbn [fst snd]; rewrite bind_orThrow; [|left; reflexivity].
  rewrite bind_await.
  change (insert_sale_items _) with (sale_items_of render sale_id).
  set (s2 := POS.sent (sale_items_of render sale_id)
               (POS.sent (sale_of render user_id) s0)).
  destruct (exec st1 (sale_items_of render sale_id)) as [st2 [x|e]];
    cbn [fst snd]; rewrite bind_orThrow.
  2:{ right. exists sale_id, [], (filter not_refill (POS.cart render)).
      split; reflexivity. }
  destruct (updateStock_outcome Store exec (POS.cart render) s2 st2)
    as [tried [todo [F [S C]]]].
  rewrite (bind_run (POS.updateStock Store exec (POS.cart render))).
  destruct (POS.updateStock Store exec (POS.cart render) (s2, st2))
    as [[s3 st3] [u|e]]; simpl in S, C.
  2:{ simpl. right. exists sale_id, tried, todo. split; [exact F|].
      rewrite S. reflexivity. }
  subst todo. rewrite app_nil_r in F. subst s3.
  rewrite !bind_modify. unfold POS.fetchProducts, POS.supabase.
  rewrite bind_await.
  destruct (sent_all_rest (map stock_write tried) s2) as [T _].
  destruct (exec st3 select_products) as [st4 [y|e]]; cbn [fst snd];
    cbv beta iota; unfold ret, modify; cbn [fst snd];
    exists sale_id; simpl;
    rewrite sent_all_requests, T, F; unfold s2; simpl;
    rewrite <- !app_assoc; simpl.
  - repeat split. now left.
  - repeat split. now right.
Qed.

(** What [processCheckout] leaves behind.  Either the sale failed: the
    failure toast is raised, cart and receipt are untouched, and the
    database was sent nothing, or the sale alone, or the sale, its items and
    the stock writes of the first few lines that are not refills.  Or the
    sale went through: the database was sent the sale, its items, the stock
    write of every line that is not a refill, and the refresh; the receipt
    is set and the cart is empty. *)
Lemma processCheckout_outcome (Store : Type)
    (exec : Store -> DbRequest -> Store * Reply)
    (now : N) (cashAmount change : option Q) (s : POS.State) (st : Store) :
  let s' := fst (POS.processCheckout Store exec now cashAmount change (s, st)) in
  (POS.toasts s' = POS.toasts s ++ [the_failure]
   /\ POS.receiptData s' = POS.receiptData s
   /\ POS.cart s' = POS.cart s
   /\ exists trace,
        POS.requests s' = POS.requests s ++ trace
        /\ (POS.user s = None /\ trace = []
            \/ exists user_id,
                 POS.user s = Some user_id
                 /\ (trace = [sale_of s user_id]
                     \/ exists sale_id tried todo,
                          filter not_refill (POS.cart s) = tried ++ todo
                          /\ trace
                             = [sale_of s user_id; sale_items_of s sale_id]
                               ++ map stock_write tried)))
  \/ (exists user_id sale_id,
        POS.user s = Some user_id
        /\ POS.requests s'
           = POS.requests s
             ++ [sale_of s user_id; sale_items_of s sale_id]
             ++ map stock_write (filter not_refill (POS.cart s))
             ++ [select_products]
        /\ POS.receiptData s'
           = Some (receipt_of s sale_id now cashAmount change)
        /\ POS.cart s' = []
        /\ (POS.toasts s' = POS.toasts s ++ [the_success]
            \/ POS.toasts s'
               = POS.toasts s
                 ++ [the_success; toast_error "Failed to load products"])).
Proof.
  cbv zeta. unfold POS.processCheckout. cbn [fst snd].
  destruct (POS.user s) as [user_id|] eqn:Huser.
  - pose proof (processCheckout_try_outcome Store exec s now cashAmount change
                  (POS.setProcessing true s) st user_id Huser) as H.
    cbv zeta in H.
    destruct (POS.processCheckout_try Store exec s now cashAmount change
                (POS.setProcessing true s, st)) as [[s1 st1] [u|e]];
      cbn [fst snd] in *.
    + right. destruct H as [sale_id [R [D [C T]]]].
      exists user_id, sale_id. split; [reflexivity|].
      repeat split; assumption.
    + left.
      assert (G : exists trace, s1 = sent_all trace (POS.setProcessing true s)
                /\ (trace = [sale_of s user_id]
                    \/ exists sale_id tried todo,
                         filter not_refill (POS.cart s) = tried ++ todo
                         /\ trace
                            = [sale_of s user_id; sale_items_of s sale_id]
                              ++ map stock_write tried)).
      { destruct H as [H|[sale_id [tried [todo [F H]]]]].
        - eexists. split; [exact H|now left].
        - eexists. split; [exact H|]. right. now exists sale_id, tried, todo. }
      destruct G as [trace [E G]]. subst s1.
      destruct (sent_all_rest trace (POS.setProcessing true s)) as [T [C D]].
      simpl. rewrite T, C, D. repeat split.
      exists trace. rewrite sent_all_requests. split; [reflexivity|].
      right. now exists user_id.
  - left. unfold POS.processCheckout_try. rewrite Huser. simpl.
    repeat split. exists []. rewrite app_nil_r. split; [reflexivity|].
    left. now split.
Qed.

Lemma saleItem_rows (sale_id : string) (cart : list CartItem) :
  Forall2 row_of_line cart (map (POS.saleItem sale_id) cart).
Proof.
  induction cart as [|item rest IH]; simpl; constructor; [|exact IH].
  repeat split.
Qed.

Lemma stock_writes_only (items : list CartItem) :
  filter is_stock_write (map stock_write items) = map stock_write items.
Proof.
  induction items as [|item rest IH]; simpl; [reflexivity|now rewrite IH].
Qed.

Lemma in_stock_writes (id : string) (q : Q) (cart tried todo : list CartItem) :
  filter not_refill cart = tried ++ todo ->
  In (update_product_stock id q) (map stock_write tried) ->
  String.prefix "refill-" id = false
  /\ exists item,
       In item cart /\ POS.isRefill item = false
       /\ update_product_stock id q = stock_write item.
Proof.
  intros F Hin. apply in_map_iff in Hin as [item [E Hin]].
  assert (Hf : In item (filter not_refill cart))
    by (rewrite F; apply in_or_app; now left).
  apply filter_In in Hf as [Hc Hr].
  unfold not_refill in Hr. apply negb_true_iff in Hr.
  split.
  - unfold stock_write in E. injection E as E1 _. subst id. exact Hr.
  - exists item. repeat split; [exact Hc|exact Hr|now symmetry].
Qed.

(** With a signed-in user and a database that accepts every request, the
    checkout goes through. *)
Lemma updateStock_completes (Store : Type)
    (exec : Store -> DbRequest -> Store * Reply) :
  (forall st r, exists id, snd (exec st r) = success id) ->
  forall items c, snd (POS.updateStock Store exec items c) = Normal tt.
Proof.
  intros Hup items. induction items as [|item rest IH]; intros [s st];
    [reflexivity|].
  simpl. destruct (POS.isRefill item); [apply IH|].
  unfold POS.supabase. rewrite bind_await, bind_orThrow.
  destruct (Hup st (update_product_stock (Product.id (product item))
                      (Product.stock_quantity (product item) - quantity item)))
    as [id E].
  rewrite E. apply IH.
Qed.

Lemma processCheckout_completes (Store : Type)
    (exec : Store -> DbRequest -> Store * Reply)
    (now : N) (cashAmount change : option Q) (s : POS.State) (st : Store)
    (user_id : string) :
  POS.user s = Some user_id ->
  (forall st r, exists id, snd (exec st r) = success id) ->
  let s' := fst (POS.processCheckout Store exec now cashAmount change (s, st)) in
  exists sale_id,
    POS.requests s'
    = POS.requests s
      ++ [sale_of s user_id; sale_items_of s sale_id]
      ++ map stock_write (filter not_refill (POS.cart s))
      ++ [select_products]
    /\ POS.receiptData s' = Some (receipt_of s sale_id now cashAmount change)
    /\ POS.cart s' = []
    /\ POS.toasts s' = POS.toasts s ++ [the_success].
Proof.
  intros Huser Hup. cbv zeta.
  unfold POS.processCheckout, POS.processCheckout_try. cbn [fst snd].
  rewrite Huser. unfold POS.supabase. rewrite bind_await.
  change (insert_sale _) with (sale_of s user_id).
  destruct (Hup st (sale_of s user_id)) as [sale_id E1].
  rewrite E1, bind_orThrow, bind_await.
  change (insert_sale_items _) with (sale_items_of s sale_id).
  set (st1 := fst (exec st (sale_of s user_id))).
  destruct (Hup st1 (sale_items_of s sale_id)) as [x E2].
  rewrite E2, bind_orThrow.
  set (c2 := (POS.sent (sale_items_of s sale_id)
                (POS.sent (sale_of s user_id) (POS.setProcessing true s)),
              fst (exec st1 (sale_items_of s sale_id)))).
  rewrite (bind_run (POS.updateStock Store exec (POS.cart s))).
  pose proof (updateStock_completes Store exec Hup (POS.cart s) c2) as E3.
  destruct (updateStock_outcome Store exec (POS.cart s) (fst c2) (snd c2))
    as [tried [todo [F [S C]]]].
  change (fst c2, snd c2) with c2 in S, C.
  destruct (POS.updateStock Store exec (POS.cart s) c2) as [[s3 st3] r].
  cbn [fst snd] in E3, S, C. subst r todo s3. rewrite app_nil_r in F.
  rewrite !bind_modify. unfold POS.fetchProducts, POS.supabase.
  rewrite bind_await.
  destruct (Hup st3 select_products) as [y E4]. rewrite E4.
  exists sale_id.
  destruct (sent_all_rest (map stock_write tried) (fst c2)) as [T _].
  simpl in T. simpl. rewrite sent_all_requests, T, F. simpl.
  rewrite <- !app_assoc. repeat split.
Qed.

Lemma sent_all_state (trace : list DbRequest) (s : POS.State) :
  sent_all trace s
  = POS.mkState (POS.user s) (POS.role s) (POS.cart s) (POS.paymentMethod s)
      (POS.processing s) (POS.cashReceived s) (POS.showCashDialog s)
      (POS.showReceipt s) (POS.receiptData s) (POS.toasts s)
      (POS.requests s ++ trace).
Proof.
  unfold sent_all. revert s.
  induction trace as [|r trace IH]; intro s; simpl.
  - rewrite app_nil_r. now destruct s.
  - rewrite IH. simpl. now rewrite <- app_assoc.
Qed.

Ltac same_state s :=
  repeat match goal with x := _ |- _ => subst x end;
  destruct s;
  cbv [POS.setCart POS.setProcessing POS.setCashReceived
       POS.setShowCashDialog POS.setShowReceipt POS.setReceiptData
       POS.toast POS.sent fst snd
       POS.user POS.role POS.cart POS.paymentMethod POS.processing
       POS.cashReceived POS.showCashDialog POS.showReceipt POS.receiptData
       POS.toasts POS.requests];
  rewrite ?app_nil_r, <- ?app_assoc; cbn [app]; reflexivity.

(** The page after [processCheckout], in full. *)
Lemma processCheckout_state (Store : Type)
    (exec : Store -> DbRequest -> Store * Reply)
    (now : N) (cashAmount change : option Q) (s : POS.State) (st : Store) :
  let s' := fst (POS.processCheckout Store exec now cashAmount change (s, st)) in
  (POS.user s = None /\ s' = after_failure [] s)
  \/ (exists user_id,
        POS.user s = Some user_id
        /\ (s' = after_failure [sale_of s user_id] s
            \/ (exists sale_id tried todo,
                  filter not_refill (POS.cart s) = tried ++ todo
                  /\ s' = after_failure
                            ([sale_of s user_id; sale_items_of s sale_id]
                             ++ map stock_write tried) s)
            \/ exists sale_id refreshed,
                 s' = after_success user_id sale_id now cashAmount change
                        refreshed s)).
Proof.
  cbv zeta. unfold POS.processCheckout. cbn [fst snd].
  destruct (POS.user s) as [user_id|] eqn:Huser.
  2:{ left. split; [reflexivity|].
      unfold POS.processCheckout_try. rewrite Huser. simpl.
      unfold after_failure. rewrite sent_all_state. same_state s. }
  right. exists user_id. split; [reflexivity|].
  unfold POS.processCheckout_try. rewrite Huser.
  unfold POS.supabase. rewrite bind_await.
  change (insert_sale _) with (sale_of s user_id).
  destruct (exec st (sale_of s user_id)) as [st1 [sale_id|e]];
    cbn [fst snd]; rewrite bind_orThrow.
  2:{ left. unfold after_failure. rewrite sent_all_state. same_state s. }
  rewrite bind_await.
  change (insert_sale_items _) with (sale_items_of s sale_id).
  set (s2 := POS.sent (sale_items_of s sale_id)
               (POS.sent (sale_of s user_id) (POS.setProcessing true s))).
  destruct (exec st1 (sale_items_of s sale_id)) as [st2 [x|e]];
    cbn [fst snd]; rewrite bind_orThrow.
  2:{ right. left. exists sale_id, [], (filter not_refill (POS.cart s)).
      split; [reflexivity|]. unfold after_failure. rewrite sent_all_state.
      same_state s. }
  destruct (updateStock_outcome Store exec (POS.cart s) s2 st2)
    as [tried [todo [F [S C]]]].
  rewrite (bind_run (POS.updateStock Store exec (POS.cart s))).
  destruct (POS.updateStock Store exec (POS.cart s) (s2, st2))
    as [[s3 st3] [u|e]]; simpl in S, C.
  2:{ right. left. exists sale_id, tried, todo. split; [exact F|].
      cbn [fst snd]. subst s3. unfold after_failure.
      rewrite !sent_all_state. unfold s2. same_state s. }
  subst todo. rewrite app_nil_r in F. subst s3.
  right. right.
  rewrite !bind_modify. unfold POS.fetchProducts, POS.supabase.
  rewrite bind_await.
  destruct (exec st3 select_products) as [st4 [y|e]]; cbn [fst snd].
  - exists sale_id, true. unfold after_success. cbv zeta.
    rewrite F, !sent_all_state. unfold s2, ret. same_state s.
  - exists sale_id, false. unfold after_success. cbv zeta.
    rewrite F, !sent_all_state. unfold s2, modify. same_state s.
Qed.

(** The stock loop completes on a database that accepts every stock
    write. *)
Lemma updateStock_accepted (Store : Type)
    (exec : Store -> DbRequest -> Store * Reply) :
  (forall st id q, exists y,
     snd (exec st (update_product_stock id q)) = success y) ->
  forall items c, snd (POS.updateStock Store exec items c) = Normal tt.
Proof.
  intros Hup items. induction items as [|item rest IH]; intros [s st];
    [reflexivity|].
  simpl. destruct (POS.isRefill item); [apply IH|].
  unfold POS.supabase. rewrite bind_await, bind_orThrow.
  destruct (Hup st (Product.id (product item))
              (Product.stock_quantity (product item) - quantity item))
    as [y E].
  rewrite E. apply IH.
Qed.

(** What [processCheckout] sends once the database has accepted the sale:
    the sale items come next; and when these are accepted too, and so is
    every stock write, the stock writes of the lines that are not refills
    and the refresh follow, and the receipt and the success toast are
    set. *)
Lemma processCheckout_accepted_sale (Store : Type)
    (exec : Store -> DbRequest -> Store * Reply)
    (now : N) (cashAmount change : option Q) (s : POS.State) (st : Store)
    (user_id : string) (st1 : Store) (sale_id : string) :
  POS.user s = Some user_id ->
  exec st (sale_of s user_id) = (st1, success sale_id) ->
  let s' := fst (POS.processCheckout Store exec now cashAmount change (s, st)) in
  exists rest,
    POS.requests s'
    = POS.requests s ++ sale_of s user_id :: sale_items_of s sale_id :: rest
    /\ (forall st2 x,
          exec st1 (sale_items_of s sale_id) = (st2, success x) ->
          (forall st' id q, exists y,
             snd (exec st' (update_product_stock id q)) = success y) ->
          rest
          = map stock_write (filter not_refill (POS.cart s))
            ++ [select_products]
          /\ POS.receiptData s'
             = Some (receipt_of s sale_id now cashAmount change)
          /\ In the_success (gained (POS.toasts s) (POS.toasts s'))).
Proof.
  intros Huser E1. cbv zeta.
  unfold POS.processCheckout, POS.processCheckout_try. cbn [fst snd].
  rewrite Huser. unfold POS.supabase. rewrite bind_await.
  change (insert_sale _) with (sale_of s user_id).
  rewrite E1. cbn [fst snd]. rewrite bind_orThrow, bind_await.
  change (insert_sale_items _) with (sale_items_of s sale_id).
  set (s2 := POS.sent (sale_items_of s sale_id)
               (POS.sent (sale_of s user_id) (POS.setProcessing true s))).
  destruct (exec st1 (sale_items_of s sale_id)) as [st2 [x|e]] eqn:E2;
    cbn [fst snd]; rewrite bind_orThrow.
  2:{ exists []. split.
      - simpl. now rewrite <- app_assoc.
      - intros st2' x' E. discriminate E. }
  destruct (updateStock_outcome Store exec (POS.cart s) s2 st2)
    as [tried [todo [F [S C]]]].
  rewrite (bind_run (POS.updateStock Store exec (POS.cart s))).
  destruct (POS.updateStock Store exec (POS.cart s) (s2, st2))
    as [[s3 st3] [u|e]] eqn:U; simpl in S, C.
  2:{ exists (map stock_write tried). split.
      - cbn [fst snd]. subst s3. simpl.
        rewrite sent_all_requests. unfold s2. simpl.
        now rewrite <- !app_assoc.
      - intros st2' x' _ Hup.
        pose proof (updateStock_accepted Store exec Hup (POS.cart s) (s2, st2))
          as N.
        rewrite U in N. discriminate N. }
  subst todo. rewrite app_nil_r in F. subst s3.
  rewrite !bind_modify. unfold POS.fetchProducts, POS.supabase.
  rewrite bind_await.
  destruct (sent_all_rest (map stock_write tried) s2) as [T _].
  exists (map stock_write (filter not_refill (POS.cart s))
          ++ [select_products]).
  destruct (exec st3 select_products) as [st4 [y|e]]; cbn [fst snd];
    cbv beta iota; unfold ret, modify; cbn [fst snd]; simpl;
    rewrite sent_all_requests, T, F; unfold s2; simpl;
    rewrite <- !app_assoc; simpl.
  - split; [reflexivity|]. intros _ _ _ _. split; [reflexivity|].
    split; [reflexivity|]. rewrite gained_app. now left.
  - split; [reflexivity|]. intros _ _ _ _. split; [reflexivity|].
    split; [reflexivity|]. rewrite gained_app. now left.
Qed.

(** C6.  A checkout by a signed-in user sends the sale first.  Once the
    database has accepted the sale, the sale items are sent next: one row
    per cart line, in cart order, and the row of a refill line has
    [product_id = null].  Once the rows are accepted too, on a database that
    accepts stock writes, what follows is the stock write of every line
    that is not a refill, in cart order, and the refresh of the products:
    no stock write for a refill line.  And whatever the database answers,
    every sale-item request it sends carries these rows, every stock write
    it sends is for a line that is not a refill (its id does not start with
    [refill-]) and sets the stock to the recorded stock minus the quantity
    of the line, and a sale that succeeds has sent exactly the stock writes
    of the lines that are not refills. *)
Theorem checkout_refill_lines (Store : Type)
    (exec : Store -> DbRequest -> Store * Reply)
    (now : N) (cashAmount change : option Q) (s : POS.State) (st : Store)
    (user_id : string) :
  POS.user s = Some user_id ->
  let s' := fst (POS.processCheckout Store exec now cashAmount change (s, st)) in
  let trace := gained (POS.requests s) (POS.requests s') in
  (exists rest, trace = sale_of s user_id :: rest)
  /\ (forall st1 sale_id,
        exec st (sale_of s user_id) = (st1, success sale_id) ->
        exists rows rest,
          trace = sale_of s user_id :: insert_sale_items rows :: rest
          /\ rows = map (POS.saleItem sale_id) (POS.cart s)
          /\ Forall2 row_of_line (POS.cart s) rows
          /\ (forall st2 x,
                exec st1 (insert_sale_items rows) = (st2, success x) ->
                (forall st' id q, exists y,
                   snd (exec st' (update_product_stock id q)) = success y) ->
                rest
                = map stock_write (filter not_refill (POS.cart s))
                  ++ [select_products]
                /\ In the_success (gained (POS.toasts s) (POS.toasts s'))))
  /\ (forall rows, In (insert_sale_items rows) trace ->
        Forall2 row_of_line (POS.cart s) rows)
  /\ (forall id q, In (update_product_stock id q) trace ->
        String.prefix "refill-" id = false
        /\ exists item,
             In item (POS.cart s) /\ POS.isRefill item = false
             /\ update_product_stock id q = stock_write item)
  /\ (In the_success (gained (POS.toasts s) (POS.toasts s')) ->
      filter is_stock_write trace
      = map stock_write (filter not_refill (POS.cart s))).
Proof.
  intro Huser. cbv zeta. split.
  { destruct (exec st (sale_of s user_id)) as [st1 [sale_id|e]] eqn:E1.
    + destruct (processCheckout_accepted_sale Store exec now cashAmount change
                  s st user_id st1 sale_id Huser E1) as [rest [R _]].
      rewrite R, gained_app. now eexists.
    + unfold POS.processCheckout, POS.processCheckout_try. cbn [fst snd].
      rewrite Huser. unfold POS.supabase. rewrite bind_await.
      change (insert_sale _) with (sale_of s user_id).
      rewrite E1. cbn [fst snd]. rewrite bind_orThrow. simpl.
      rewrite gained_app. now eexists. }
  split.
  { intros st1 sale_id E1.
    destruct (processCheckout_accepted_sale Store exec now cashAmount change
                s st user_id st1 sale_id Huser E1) as [rest [R H]].
    exists (map (POS.saleItem sale_id) (POS.cart s)), rest.
    rewrite R, gained_app. split; [reflexivity|]. split; [reflexivity|].
    split; [apply saleItem_rows|].
    intros st2 x E2 Hup. destruct (H st2 x E2 Hup) as [Hrest [_ Hok]].
    split; [exact Hrest|exact Hok]. }
  clear Huser user_id.

  destruct (processCheckout_outcome Store exec now cashAmount change s st)
    as [[T [_ [_ [trace [R Htrace]]]]]|[user_id [sale_id [_ [R [_ [_ T]]]]]]];
    rewrite R, gained_app.
  - rewrite T, gained_app.
    split; [|split].
    + intros rows Hin.
      destruct Htrace
        as [[_ E]|[user_id [_ [E|[sale_id [tried [todo [F E]]]]]]]];
        subst trace.
      * destruct Hin.
      * destruct Hin as [Hin|[]]. discriminate Hin.
      * simpl in Hin. destruct Hin as [Hin|[Hin|Hin]]; [discriminate Hin| |].
        -- injection Hin as <-. apply saleItem_rows.
        -- apply in_map_iff in Hin as [item [Hin _]]. discriminate Hin.
    + intros id q Hin.
      destruct Htrace
        as [[_ E]|[user_id [_ [E|[sale_id [tried [todo [F E]]]]]]]];
        subst trace.
      * destruct Hin.
      * destruct Hin as [Hin|[]]. discriminate Hin.
      * simpl in Hin.
        destruct Hin as [Hin|[Hin|Hin]]; [discriminate Hin|discriminate Hin|].
        eapply in_stock_writes; eassumption.
    + intros [Hin|[]]. discriminate Hin.
  - split; [|split].
    + intros rows Hin. simpl in Hin.
      destruct Hin as [Hin|[Hin|Hin]]; [discriminate Hin| |].
      * injection Hin as <-. apply saleItem_rows.
      * apply in_app_or in Hin as [Hin|[Hin|[]]]; [|discriminate Hin].
        apply in_map_iff in Hin as [item [Hin _]]. discriminate Hin.
    + intros id q Hin. simpl in Hin.
      destruct Hin as [Hin|[Hin|Hin]]; [discriminate Hin|discriminate Hin|].
      apply in_app_or in Hin as [Hin|[Hin|[]]]; [|discriminate Hin].
      apply (in_stock_writes id q (POS.cart s)
               (filter not_refill (POS.cart s)) []);
        [now rewrite app_nil_r|exact Hin].
    + intros _. simpl. rewrite filter_app, stock_writes_only. simpl.
      now rewrite app_nil_r.
Qed.

(** Two units of a stocked product and one refill, sold by card on a
    database that stores what it is sent: the rows are sent after the sale,
    the row of the refill names no product, and what follows is the stock
    write of the stocked product and the refresh. *)
Lemma checkout_refill_lines_witness :
  let s := Demo.mango_and_refill in
  let s' := fst (POS.processCheckout Demo.Ledger Demo.serve 0 None None (s, [])) in
  exists rows,
    gained (POS.requests s) (POS.requests s')
    = [sale_of s "u-1"; insert_sale_items rows;
       update_product_stock "p-1" (5 - (1 + 1)); select_products]
    /\ map SaleItemInsert.product_id rows = [Some "p-1"%string; None].
Proof.
  cbv zeta.
  destruct (checkout_refill_lines Demo.Ledger Demo.serve 0 None None
              Demo.mango_and_refill [] "u-1" eq_refl)
    as [_ [H _]].
  destruct (H [sale_of Demo.mango_and_refill "u-1"] "sale-1"%string eq_refl)
    as [rows [rest [T [Erows [_ Hrest]]]]].
  destruct (Hrest [sale_of Demo.mango_and_refill "u-1";
                   insert_sale_items rows] ""%string) as [E _].
  - rewrite Erows. reflexivity.
  - intros st' id q. now exists ""%string.
  - exists rows. split; [|rewrite Erows; reflexivity].
    rewrite E in T. exact T.
Defined.

(** A card sale of two units of a stocked product and one refill, on a
    database that accepts everything: the refill row carries no product id
    and the only stock write is that of the stocked product, from 5 to 3. *)
Example checkout_with_refill_runs :
  let out :=
    POS.processCheckout Demo.Ledger Demo.serve 0 None None
      (Demo.mango_and_refill, []) in
  snd out
  = [sale_of Demo.mango_and_refill "u-1";
     sale_items_of Demo.mango_and_refill "sale-1";
     update_product_stock "p-1" 3;
     select_products]
  /\ map SaleItemInsert.product_id
       (map (POS.saleItem "sale-1") (POS.cart Demo.mango_and_refill))
     = [Some "p-1"%string; None]
  /\ POS.toasts (fst out) = [the_success]
  /\ POS.cart (fst out) = [].
Proof. cbv zeta. repeat split; vm_compute; reflexivity. Qed.

(** C7, as the page has it.  In the cash dialog the commit is permitted
    exactly when the amount tendered covers the net total and is not 0:
    otherwise the Confirm Payment button is disabled, pressing it changes
    nothing and sends nothing, and another amount can be entered.  The
    handler behind the button guards the amount once more: below the net
    total its only effect is the insufficient-cash toast.  When the commit
    is permitted the sale is processed with the change [tendered - net],
    which is not negative, and it ends in one of two ways: failed, with the
    failure toast and with cart, amount and receipt as they were; or done,
    with the success toast and a receipt that records the amount tendered
    and that change.  For a signed-in user on a database that accepts every
    request it is done.  A card checkout never opens the cash dialog: it is
    processed at once. *)
Theorem cash_tender_guard (parseFloat : string -> option Q) (Store : Type)
    (exec : Store -> DbRequest -> Store * Reply)
    (now : N) (s : POS.State) (st : Store) :
  let net := POS.subtotal (POS.calculateTotals (POS.cart s)) in
  let tendered := POS.cashReceivedAmount parseFloat s in
  let out := confirmPayment parseFloat Store exec now (s, st) in
  let sale :=
    POS.processCheckout Store exec now (Some tendered) (Some (tendered - net))
      (POS.setShowCashDialog false s, st) in
  let receipt sale_id :=
    receipt_of s sale_id now (Some tendered) (Some (tendered - net)) in
  (POS.paymentMethod s = cash ->
   (POS.confirmPaymentDisabled parseFloat s = false
    <-> net <= tendered /\ ~ tendered == 0)
   /\ (POS.confirmPaymentDisabled parseFloat s = true -> out = (s, st))
   /\ (POS.confirmPaymentDisabled parseFloat s = false ->
       out = sale
       /\ 0 <= tendered - net
       /\ ((POS.toasts (fst out) = POS.toasts s ++ [the_failure]
            /\ POS.receiptData (fst out) = POS.receiptData s
            /\ POS.cart (fst out) = POS.cart s
            /\ POS.cashReceived (fst out) = POS.cashReceived s)
           \/ (exists sale_id,
                 POS.receiptData (fst out) = Some (receipt sale_id)
                 /\ In the_success
                      (gained (POS.toasts s) (POS.toasts (fst out)))
                 /\ POS.cart (fst out) = []))
       /\ (forall user_id,
             POS.user s = Some user_id ->
             (forall st' r, exists id, snd (exec st' r) = success id) ->
             exists sale_id,
               POS.receiptData (fst out) = Some (receipt sale_id)
               /\ POS.toasts (fst out) = POS.toasts s ++ [the_success]
               /\ In (sale_of s user_id)
                    (gained (POS.requests s) (POS.requests (fst out))))))
  /\ (tendered < net ->
      POS.handleCashCheckout parseFloat Store exec now (s, st)
      = (POS.toast (toast_error "Insufficient cash received") s, st))
  /\ (net <= tendered ->
      POS.handleCashCheckout parseFloat Store exec now (s, st) = sale)
  /\ (POS.paymentMethod s = card ->
      POS.cart s <> [] -> POS.user s <> None -> POS.role s <> None ->
      POS.handleInitiateCheckout Store exec now (s, st)
      = POS.processCheckout Store exec now None None (s, st)).
Proof.
  cbv zeta.
  assert (Hhandler :
            POS.subtotal (POS.calculateTotals (POS.cart s))
            <= POS.cashReceivedAmount parseFloat s ->
            POS.handleCashCheckout parseFloat Store exec now (s, st)
            = POS.processCheckout Store exec now
                (Some (POS.cashReceivedAmount parseFloat s))
                (Some (POS.cashReceivedAmount parseFloat s
                       - POS.subtotal (POS.calculateTotals (POS.cart s))))
                (POS.setShowCashDialog false s, st)).
  { intro G. apply num_lt_false_iff in G.
    unfold POS.handleCashCheckout. cbn [fst snd]. now rewrite G. }
  assert (Hbutton :
            POS.paymentMethod s = cash ->
            (POS.confirmPaymentDisabled parseFloat s = false
             <-> POS.subtotal (POS.calculateTotals (POS.cart s))
                 <= POS.cashReceivedAmount parseFloat s
                 /\ ~ POS.cashReceivedAmount parseFloat s == 0)).
  { intro Hcash. unfold POS.confirmPaymentDisabled, POS.isValidCashPayment.
    rewrite Hcash, orb_false_iff, negb_false_iff, num_ge_iff.
    split; intros [G Z]; (split; [exact G|]).
    - intro E. apply Qeq_bool_iff in E. congruence.
    - destruct (Qeq_bool (POS.cashReceivedAmount parseFloat s) 0) eqn:E;
        [|reflexivity].
      apply Qeq_bool_iff in E. now destruct Z. }
  split; [|split; [|split]].
  - intro Hcash. split; [exact (Hbutton Hcash)|]. split.
    + intro Hoff. unfold confirmPayment. cbn [fst]. now rewrite Hoff.
    + intro Hon. destruct (proj1 (Hbutton Hcash) Hon) as [G _].
      assert (E : confirmPayment parseFloat Store exec now (s, st)
                  = POS.processCheckout Store exec now
                      (Some (POS.cashReceivedAmount parseFloat s))
                      (Some (POS.cashReceivedAmount parseFloat s
                             - POS.subtotal
                                 (POS.calculateTotals (POS.cart s))))
                      (POS.setShowCashDialog false s, st)).
      { unfold confirmPayment. cbn [fst]. rewrite Hon. exact (Hhandler G). }
      rewrite E. split; [reflexivity|]. split; [lra|]. split.
      * destruct (processCheckout_outcome Store exec now
                    (Some (POS.cashReceivedAmount parseFloat s))
                    (Some (POS.cashReceivedAmount parseFloat s
                           - POS.subtotal
                               (POS.calculateTotals (POS.cart s))))
                    (POS.setShowCashDialog false s) st)
          as [[T [R [C _]]]|[user_id [sale_id [_ [_ [R [C T]]]]]]].
        -- left. split; [exact T|]. split; [exact R|]. split; [exact C|].
           destruct (processCheckout_state Store exec now
                       (Some (POS.cashReceivedAmount parseFloat s))
                       (Some (POS.cashReceivedAmount parseFloat s
                              - POS.subtotal
                                  (POS.calculateTotals (POS.cart s))))
                       (POS.setShowCashDialog false s) st)
             as [[_ F]|[u [_ [F|[[i [tried [todo [_ F]]]]|[i [b F]]]]]]];
             try (rewrite F; unfold after_failure;
                  rewrite sent_all_state; reflexivity).
           exfalso. rewrite F in T. revert T. unfold after_success.
           cbv zeta. rewrite sent_all_state.
           destruct b; simpl; rewrite <- ?app_assoc; intro T;
             apply app_inv_head in T; discriminate T.
        -- right. exists sale_id. split; [exact R|]. split; [|exact C].
           destruct T as [T|T]; rewrite T;
             change (POS.toasts (POS.setShowCashDialog false s))
               with (POS.toasts s);
             rewrite gained_app; now left.
      * intros user_id Huser Hup.
        destruct (processCheckout_completes Store exec now
                    (Some (POS.cashReceivedAmount parseFloat s))
                    (Some (POS.cashReceivedAmount parseFloat s
                           - POS.subtotal
                               (POS.calculateTotals (POS.cart s))))
                    (POS.setShowCashDialog false s) st user_id Huser Hup)
          as [sale_id [R [D [_ T]]]].
        exists sale_id. split; [exact D|]. split; [exact T|].
        rewrite R.
        change (POS.requests (POS.setShowCashDialog false s))
          with (POS.requests s).
        rewrite gained_app. now left.
  - intro G. apply num_lt_iff in G.
    unfold POS.handleCashCheckout. cbn [fst snd]. now rewrite G.
  - exact Hhandler.
  - intros Hcard Hcart Huser Hrole. unfold POS.handleInitiateCheckout.
    cbn [fst snd]. rewrite Hcard.
    destruct (POS.cart s) as [|item rest] eqn:C; [now destruct Hcart|].
    destruct (POS.user s); [|now destruct Huser].
    destruct (POS.role s); [|now destruct Hrole].
    reflexivity.
Qed.

(** 400 tendered for a net total of 300: the button is enabled, and on a
    database that stores what it is sent the receipt records 400 tendered
    and a change of [400 - 300]. *)
Lemma cash_tender_guard_witness :
  let s := Demo.session [mkCartItem Demo.mango 2 None] cash "400" in
  let out := confirmPayment Demo.parseDigits Demo.Ledger Demo.serve 0 (s, []) in
  POS.confirmPaymentDisabled Demo.parseDigits s = false
  /\ exists sale_id,
       POS.receiptData (fst out)
       = Some (receipt_of s sale_id 0
                 (Some (POS.cashReceivedAmount Demo.parseDigits s))
                 (Some (POS.cashReceivedAmount Demo.parseDigits s
                        - POS.subtotal (POS.calculateTotals (POS.cart s)))))
       /\ POS.toasts (fst out) = [the_success].
Proof.
  cbv zeta. split; [reflexivity|].
  destruct (cash_tender_guard Demo.parseDigits Demo.Ledger Demo.serve 0
              (Demo.session [mkCartItem Demo.mango 2 None] cash "400") [])
    as [Hcash _].
  destruct (Hcash eq_refl) as [_ [_ Hon]].
  destruct (Hon eq_refl) as [_ [_ [_ Hdone]]].
  destruct (Hdone "u-1"%string eq_refl) as [sale_id [R [T _]]].
  - intros st' r. destruct r; eexists; reflexivity.
  - exists sale_id. split; [exact R|exact T].
Defined.

(** C7 as the specification words it fails on the page: a line given away
    at 100% has a net total of 0, so with nothing typed the amount tendered,
    0, covers the net total; yet the Confirm Payment button is disabled and
    pressing it commits nothing. *)
Lemma cash_commit_needs_an_amount :
  let s :=
    Demo.session [mkCartItem Demo.coil 1 (Some Demo.on_the_house)] cash "" in
  POS.subtotal (POS.calculateTotals (POS.cart s))
  <= POS.cashReceivedAmount Demo.parseDigits s
  /\ POS.isValidCashPayment Demo.parseDigits s = true
  /\ POS.confirmPaymentDisabled Demo.parseDigits s = true
  /\ confirmPayment Demo.parseDigits Demo.Ledger Demo.serve 0 (s, [])
     = (s, []).
Proof.
  cbv zeta. split; [vm_compute; discriminate|].
  split; [reflexivity|]. split; reflexivity.
Qed.

(** The first testable checkout of the specification: two units at 150,
    cash, 400 tendered.  The sale total is 300, the change on the receipt
    100, and the stock goes from 5 to 3. *)
Example cash_checkout_runs :
  let s := Demo.session [mkCartItem Demo.mango 2 None] cash "400" in
  let out :=
    POS.handleCashCheckout Demo.parseDigits Demo.Ledger Demo.serve 0 (s, []) in
  (exists r,
     POS.receiptData (fst out) = Some r
     /\ POS.ReceiptData.total r == 300
     /\ POS.ReceiptData.cashReceived r = Some 400
     /\ exists change,
          POS.ReceiptData.changeAmount r = Some change /\ change == 100)
  /\ filter is_stock_write (snd out) = [update_product_stock "p-1" 3].
Proof.
  cbv zeta. split.
  - eexists. split; [vm_compute; reflexivity|].
    split; [reflexivity|]. split; [reflexivity|].
    eexists. split; reflexivity.
  - vm_compute. reflexivity.
Qed.

(** The second testable checkout of the specification: one unit at 100
    with a 10% discount, card.  The line discount is 10, the line net 90,
    and the sale carries a discount amount of 10. *)
Example card_checkout_with_discount_runs :
  let line := mkCartItem Demo.coil 1 (Some Demo.ten_percent) in
  let s := Demo.session [line] card "" in
  let out := POS.handleInitiateCheckout Demo.Ledger Demo.serve 0 (s, []) in
  POS.calculateItemDiscount line == 10
  /\ POS.calculateItemSubtotal line == 90
  /\ exists row rest,
       snd out = insert_sale row :: rest
       /\ SaleInsert.discount_amount row == 10
       /\ SaleInsert.total_amount row == 90
       /\ SaleInsert.payment_method row = card.
Proof.
  cbv zeta. split; [vm_compute; reflexivity|].
  split; [vm_compute; reflexivity|].
  eexists. eexists. split; [vm_compute; reflexivity|].
  repeat split.
Qed.

(** When the database is down the sale fails at its first request: the
    failure toast is raised, and cart and receipt stay as they were. *)
Example checkout_fails_when_database_is_down :
  let s := Demo.session [mkCartItem Demo.mango 2 None] card "" in
  let out := POS.handleInitiateCheckout unit Demo.down 0 (s, tt) in
  POS.toasts (fst out) = [the_failure]
  /\ POS.requests (fst out) = [sale_of s "u-1"]
  /\ POS.cart (fst out) = POS.cart s
  /\ POS.receiptData (fst out) = None.
Proof. cbv zeta. repeat split. Qed.

(** Whenever the Confirm Payment button is enabled, [handleCashCheckout]
    goes on to the sale (its insufficient-cash branch is not taken). *)
Lemma confirm_enabled_proceeds (parseFloat : string -> option Q) (Store : Type)
    (exec : Store -> DbRequest -> Store * Reply)
    (now : N) (s : POS.State) (st : Store) :
  POS.paymentMethod s = cash ->
  POS.confirmPaymentDisabled parseFloat s = false ->
  POS.handleCashCheckout parseFloat Store exec now (s, st)
  = POS.processCheckout Store exec now
      (Some (POS.cashReceivedAmount parseFloat s))
      (Some (POS.changeAmount parseFloat s))
      (POS.setShowCashDialog false s, st).
Proof.
  intros Hcash Hen. unfold POS.confirmPaymentDisabled in Hen.
  apply orb_false_iff in Hen as [Hvalid _]. apply negb_false_iff in Hvalid.
  unfold POS.isValidCashPayment in Hvalid. rewrite Hcash in Hvalid.
  apply num_ge_iff, num_lt_false_iff in Hvalid.
  unfold POS.handleCashCheckout. cbn [fst snd]. now rewrite Hvalid.
Qed.

(** ** Discounts *)

(** A discount form on a database that accepts everything is saved when its
    value is in range: one insert is sent. *)
Example handleSave_runs :
  let form :=
    Discounts.mkState (Some "u-1"%string) true None false
      "Loyalty 10%" percentage "10" [] [] in
  let out :=
    Discounts.handleSave Demo.parseDigits Demo.trimmed Demo.Ledger Demo.serve
      (form, []) in
  snd out
  = [insert_discount
       (DiscountWrite.mk "Loyalty 10%" percentage 10 (Some "u-1"%string));
     select_discounts]
  /\ Discounts.toasts (fst out)
     = [toast_success "Discount created successfully"].
Proof. cbv zeta. split; vm_compute; reflexivity. Qed.

(** C9.  Saving a discount, new or edited, is refused with an error toast
    and nothing else happens (no request is sent, the database and the form
    are as before) whenever the value typed is not a number, is zero or
    negative, or exceeds 100 on a percentage.  Applying a stored discount
    checks nothing: whatever its value, every line of the product carries it
    afterwards and its discount amount is computed from that value. *)
Theorem discount_validated_on_save_only
    (parseFloat : string -> option Q) (trim : string -> string) (Store : Type)
    (exec : Store -> DbRequest -> Store * Reply)
    (form : Discounts.State) (st : Store) :
  (match parseFloat (Discounts.value form) with
   | None => True
   | Some numValue =>
       numValue <= 0
       \/ (Discounts.type form = percentage /\ 100 < numValue)
   end ->
   exists msg,
     Discounts.handleSave parseFloat trim Store exec (form, st)
     = (Discounts.toast (toast_error msg) form, st))
  /\ (forall (X : string) (d : Discount.t) (s : POS.State) (item : CartItem),
        In item (POS.cart s) -> POS.has_id X item = true ->
        In (POS.with_discount item (Some d))
          (POS.cart (POS.applyDiscount X (Some d) s))
        /\ POS.calculateItemDiscount (POS.with_discount item (Some d))
           = match Discount.type d with
             | percentage =>
                 Product.selling_price (product item) * quantity item
                 * (Discount.value d / 100)
             | fixed => Discount.value d * quantity item
             end).
Proof.
  split.
  - intro Hbad. unfold Discounts.handleSave. cbn [fst snd].
    destruct (String.eqb (trim (Discounts.name form)) "");
      [eexists; reflexivity|].
    destruct (parseFloat (Discounts.value form)) as [numValue|];
      [|eexists; reflexivity].
    destruct (num_le numValue 0) eqn:L; [eexists; reflexivity|].
    apply num_le_false_iff in L.
    destruct Hbad as [Hneg|[Hp Hbig]].
    + exfalso. apply (Qlt_not_le _ _ L Hneg).
    + rewrite Hp. apply num_gt_iff in Hbig. rewrite Hbig.
      eexists; reflexivity.
  - intros X d s item Hin Hid. split.
    + unfold POS.applyDiscount. cbv zeta.
      change (POS.cart (POS.toast ?t ?u)) with (POS.cart u).
      change (POS.cart (POS.setCart ?c ?u)) with c.
      apply in_map_iff. exists item. now rewrite Hid.
    + unfold POS.calculateItemDiscount. simpl. now destruct (Discount.type d).
Qed.

(** A percentage of 150 cannot be saved, yet a discount record carrying it
    is applied to a line as it is. *)
Lemma discount_validated_on_save_only_witness :
  let form :=
    Discounts.mkState (Some "u-1"%string) true None false
      "Everything free" percentage "150" [] [] in
  let too_much :=
    Discount.mk "d-9" "Everything free" percentage 150 true "u-1" "" "" in
  let line := mkCartItem Demo.coil 1 None in
  (exists msg,
     Discounts.handleSave Demo.parseDigits Demo.trimmed Demo.Ledger Demo.serve
       (form, [])
     = (Discounts.toast (toast_error msg) form, []))
  /\ In (POS.with_discount line (Some too_much))
       (POS.cart (POS.applyDiscount "p-2" (Some too_much)
                    (Demo.session [line] cash ""))).
Proof.
  cbv zeta.
  destruct (discount_validated_on_save_only Demo.parseDigits Demo.trimmed
              Demo.Ledger Demo.serve
              (Discounts.mkState (Some "u-1"%string) true None false
                 "Everything free" percentage "150" [] []) [])
    as [Hsave Happly].
  split.
  - apply Hsave. right. split; [reflexivity|]. vm_compute. reflexivity.
  - apply (Happly "p-2"%string
             (Discount.mk "d-9" "Everything free" percentage 150 true
                "u-1" "" "")
             (Demo.session [mkCartItem Demo.coil 1 None] cash "")
             (mkCartItem Demo.coil 1 None));
      [now left|reflexivity].
Defined.

(** ** The net total below zero *)

(** The sale is the first request of every checkout by a signed-in user. *)
Lemma processCheckout_sends_sale (Store : Type)
    (exec : Store -> DbRequest -> Store * Reply)
    (now : N) (cashAmount change : option Q) (s : POS.State) (st : Store)
    (user_id : string) :
  POS.user s = Some user_id ->
  exists rest,
    gained (POS.requests s)
      (POS.requests
         (fst (POS.processCheckout Store exec now cashAmount change (s, st))))
    = sale_of s user_id :: rest.
Proof.
  intro Huser.
  destruct (processCheckout_outcome Store exec now cashAmount change s st)
    as [[_ [_ [_ [trace [R Htrace]]]]]|[u [sale_id [Hu [R _]]]]];
    rewrite R, gained_app.
  - destruct Htrace as [[Hnone _]|[u [Hu [E|[sale_id [tried [todo [_ E]]]]]]]].
    + congruence.
    + assert (u = user_id) by congruence. subst u trace. now eexists.
    + assert (u = user_id) by congruence. subst u trace. now eexists.
  - assert (u = user_id) by congruence. subst u. now eexists.
Qed.

(** C10.  One unit at 100 with a fixed discount of 150: the net total of the
    cart is -50, although the net of its only line is 0.  The cash guard
    then lets every amount that is not negative through, and the sale sent
    to the database carries -50 as its [total_amount]. *)
Theorem net_total_not_floored (parseFloat : string -> option Q) (Store : Type)
    (exec : Store -> DbRequest -> Store * Reply)
    (now : N) (typed : string) (st : Store) :
  let line := mkCartItem Demo.coil 1 (Some Demo.minus_150) in
  let s := Demo.session [line] cash typed in
  let net := POS.subtotal (POS.calculateTotals (POS.cart s)) in
  let tendered := POS.cashReceivedAmount parseFloat s in
  let out := POS.handleCashCheckout parseFloat Store exec now (s, st) in
  0 <= tendered ->
  net == -50
  /\ POS.calculateItemSubtotal line == 0
  /\ POS.isValidCashPayment parseFloat s = true
  /\ out
     = POS.processCheckout Store exec now
         (Some tendered) (Some (tendered - net))
         (POS.setShowCashDialog false s, st)
  /\ exists row rest,
       gained (POS.requests s) (POS.requests (fst out))
       = insert_sale row :: rest
       /\ SaleInsert.total_amount row = net
       /\ SaleInsert.total_amount row < 0.
Proof.
  cbv zeta. intro Hpos.
  set (s := Demo.session [mkCartItem Demo.coil 1 (Some Demo.minus_150)]
              cash typed).
  assert (Hnet : POS.subtotal (POS.calculateTotals (POS.cart s)) == -50)
    by (vm_compute; reflexivity).
  assert (Hle : POS.subtotal (POS.calculateTotals (POS.cart s))
                <= POS.cashReceivedAmount parseFloat s)
    by (rewrite Hnet; eapply Qle_trans; [|exact Hpos]; qcompare).
  split; [exact Hnet|]. split; [vm_compute; reflexivity|].
  split; [unfold POS.isValidCashPayment; simpl; now apply num_ge_iff|].
  assert (Hout : POS.handleCashCheckout parseFloat Store exec now (s, st)
                 = POS.processCheckout Store exec now
                     (Some (POS.cashReceivedAmount parseFloat s))
                     (Some (POS.cashReceivedAmount parseFloat s
                            - POS.subtotal (POS.calculateTotals (POS.cart s))))
                     (POS.setShowCashDialog false s, st)).
  { unfold POS.handleCashCheckout. cbn [fst snd].
    apply num_lt_false_iff in Hle. now rewrite Hle. }
  split; [exact Hout|].
  rewrite Hout.
  destruct (processCheckout_sends_sale Store exec now
              (Some (POS.cashReceivedAmount parseFloat s))
              (Some (POS.cashReceivedAmount parseFloat s
                     - POS.subtotal (POS.calculateTotals (POS.cart s))))
              (POS.setShowCashDialog false s) st "u-1"%string eq_refl)
    as [rest Hrest].
  eexists. exists rest. split; [exact Hrest|].
  split; [reflexivity|]. vm_compute. reflexivity.
Qed.

(** With nothing tendered the cash guard still holds for the cart whose net
    total is -50. *)
Lemma net_total_not_floored_witness :
  let s :=
    Demo.session [mkCartItem Demo.coil 1 (Some Demo.minus_150)] cash "0" in
  POS.subtotal (POS.calculateTotals (POS.cart s)) == -50
  /\ POS.isValidCashPayment Demo.parseDigits s = true.
Proof.
  cbv zeta.
  destruct (net_total_not_floored Demo.parseDigits Demo.Ledger Demo.serve 0
              "0" []) as [Hnet [_ [Hvalid _]]].
  - vm_compute. discriminate.
  - split; [exact Hnet|exact Hvalid].
Defined.

(** ** More on the cart handlers *)

Lemma plus_one_minus_one (q : Q) : q + 1 + -1 = q.
Proof.
  destruct q as [a b]. unfold Qplus. simpl.
  rewrite !Pos.mul_1_r. f_equal. lia.
Qed.

Lemma has_id_with_quantity (X : string) (item : CartItem) (q : Q) :
  POS.has_id X (POS.with_quantity item q) = POS.has_id X item.
Proof. reflexivity. Qed.

Lemma concat_nils {A B : Type} (l : list A) :
  List.concat (map (fun _ : A => @nil B) l) = [].
Proof. induction l as [|x l IH]; simpl; [reflexivity|exact IH]. Qed.

(** An adjustment that stays between 1 and the recorded stock on every line
    of the product is written to those lines, silently. *)
Lemma updateQuantity_accepts (X : string) (delta : Q) (s : POS.State) :
  cart_ok (POS.cart s) ->
  (forall item, In item (POS.cart s) -> POS.has_id X item = true ->
     0 < quantity item + delta
     /\ quantity item + delta <= Product.stock_quantity (product item)) ->
  POS.updateQuantity X delta s = POS.setCart (adjusted X delta (POS.cart s)) s.
Proof.
  intros Hok H. unfold POS.updateQuantity. cbv zeta.
  assert (L : forall item, In item (POS.cart s) ->
            POS.updateQuantity_line X delta item
            = (if POS.has_id X item
               then POS.with_quantity item (quantity item + delta)
               else item, [])).
  { intros item Hin. unfold POS.updateQuantity_line.
    destruct (POS.has_id X item) eqn:E; [|reflexivity].
    destruct (H item Hin E) as [Hpos Hle].
    apply num_le_false_iff in Hpos. rewrite Hpos.
    apply num_lt_false_iff in Hle. unfold num_gt. now rewrite Hle. }
  rewrite (map_ext_in _ _ _ L).
  rewrite !map_map. cbn [fst snd].
  rewrite concat_nils. simpl. f_equal. apply filter_keeps_all.
  intros item Hin. apply in_map_iff in Hin as [old [E Hold]].
  apply num_gt_iff. subst item.
  destruct (POS.has_id X old) eqn:E.
  - simpl. now destruct (H old Hold E).
  - unfold cart_ok in Hok. rewrite Forall_forall in Hok.
    now destruct (Hok old Hold).
Qed.

Lemma adjusted_others (X : string) (delta : Q) (cart : list CartItem) :
  (forall item, In item cart -> POS.has_id X item = false) ->
  adjusted X delta cart = cart.
Proof.
  intro H. unfold adjusted. rewrite <- (map_id cart) at 2.
  apply map_ext_in. intros item Hin. now rewrite (H item Hin).
Qed.

(** X1.  An adjustment that keeps the quantity of the one line of product
    [X] between 1 and its recorded stock changes the quantity of that line
    and nothing else: the other lines, their order, the toasts and the rest
    of the page are as before. *)
Theorem updateQuantity_changes_one_line (X : string) (delta : Q)
    (s : POS.State) (before after : list CartItem) (line : CartItem) :
  POS.cart s = before ++ line :: after ->
  cart_ok (POS.cart s) ->
  POS.has_id X line = true ->
  (forall item, In item (before ++ after) -> POS.has_id X item = false) ->
  0 < quantity line + delta ->
  quantity line + delta <= Product.stock_quantity (product line) ->
  POS.updateQuantity X delta s
  = POS.setCart
      (before ++ POS.with_quantity line (quantity line + delta) :: after) s.
Proof.
  intros Hcart Hok Hid Hothers Hpos Hle.
  rewrite updateQuantity_accepts.
  - f_equal. rewrite Hcart. unfold adjusted. rewrite map_app. simpl.
    rewrite Hid. fold (adjusted X delta before). fold (adjusted X delta after).
    rewrite !adjusted_others; [reflexivity| |];
      intros item Hin; apply Hothers, in_or_app; [now right|now left].
  - exact Hok.
  - intros item Hin HX. rewrite Hcart in Hin.
    apply in_app_or in Hin as [Hin|[E|Hin]].
    + rewrite (Hothers item) in HX; [discriminate|]. apply in_or_app. now left.
    + subst item. now split.
    + rewrite (Hothers item) in HX; [discriminate|]. apply in_or_app. now right.
Qed.

(** Two units of one product and one of another: raising the second line
    by 3 touches that line only. *)
Lemma updateQuantity_changes_one_line_witness :
  POS.updateQuantity "p-2" 3
    (Demo.session [mkCartItem Demo.mango 2 None; mkCartItem Demo.coil 1 None]
       cash "")
  = POS.setCart
      [mkCartItem Demo.mango 2 None;
       POS.with_quantity (mkCartItem Demo.coil 1 None) (1 + 3)]
      (Demo.session [mkCartItem Demo.mango 2 None; mkCartItem Demo.coil 1 None]
         cash "").
Proof.
  apply (updateQuantity_changes_one_line "p-2" 3
           (Demo.session [mkCartItem Demo.mango 2 None;
                          mkCartItem Demo.coil 1 None] cash "")
           [mkCartItem Demo.mango 2 None] [] (mkCartItem Demo.coil 1 None)).
  - reflexivity.
  - repeat constructor; simpl; qcompare.
  - reflexivity.
  - intros item [E|[]]. now subst item.
  - simpl. qcompare.
  - simpl. qcompare.
Defined.

(** X2.  One unit more, then one unit less, gives back the page as it was,
    whenever the stock recorded on the lines of the product leaves room for
    the extra unit. *)
Theorem plus_then_minus_restores (X : string) (s : POS.State) :
  cart_ok (POS.cart s) ->
  (forall item, In item (POS.cart s) -> POS.has_id X item = true ->
     quantity item + 1 <= Product.stock_quantity (product item)) ->
  POS.updateQuantity X (-1) (POS.updateQuantity X 1 s) = s.
Proof.
  intros Hok Hroom.
  assert (Hpos : forall item, In item (POS.cart s) -> 0 < quantity item).
  { intros item Hin. unfold cart_ok in Hok. rewrite Forall_forall in Hok.
    now destruct (Hok item Hin). }
  rewrite (updateQuantity_accepts X 1 s Hok).
  2:{ intros item Hin HX. split; [|now apply Hroom].
      specialize (Hpos item Hin). lra. }
  rewrite updateQuantity_accepts.
  - simpl. unfold adjusted. rewrite map_map.
    match goal with
    | |- POS.setCart (map ?f _) _ = _ =>
        assert (E : map f (POS.cart s) = POS.cart s)
    end.
    { rewrite <- (map_id (POS.cart s)) at 2. apply map_ext. intro item.
      destruct (POS.has_id X item) eqn:E.
      - rewrite has_id_with_quantity, E. destruct item as [p q d].
        unfold POS.with_quantity. simpl. now rewrite plus_one_minus_one.
      - now rewrite E. }
    rewrite E. now destruct s.
  - simpl. unfold cart_ok, adjusted. rewrite Forall_forall.
    intros item Hin. apply in_map_iff in Hin as [old [E Hold]].
    unfold cart_ok in Hok. rewrite Forall_forall in Hok.
    destruct (Hok old Hold) as [Hq Hs]. subst item.
    destruct (POS.has_id X old); [|now split].
    split; simpl; [lra|exact Hs].
  - simpl. unfold adjusted. intros item Hin HX.
    apply in_map_iff in Hin as [old [E Hold]]. subst item.
    destruct (POS.has_id X old) eqn:E.
    + simpl. specialize (Hpos old Hold). specialize (Hroom old Hold E).
      split; lra.
    + congruence.
Qed.

(** Two of five units in the cart: plus, then minus. *)
Lemma plus_then_minus_restores_witness :
  POS.updateQuantity "p-1" (-1)
    (POS.updateQuantity "p-1" 1
       (Demo.session [mkCartItem Demo.mango 2 None] cash ""))
  = Demo.session [mkCartItem Demo.mango 2 None] cash "".
Proof.
  apply plus_then_minus_restores.
  - repeat constructor; simpl; qcompare.
  - intros item [E|[]] _. subst item. simpl. qcompare.
Defined.

(** *** The cart stays sound *)

Lemma whole_plus (a b : Q) : whole a -> whole b -> whole (a + b).
Proof.
  intros [x Hx] [y Hy]. exists (x + y)%Z.
  rewrite Hx, Hy. now rewrite inject_Z_plus.
Qed.

Lemma whole_1 : whole 1.
Proof. now exists 1%Z. Qed.

Lemma whole_next (a b : Q) : whole a -> whole b -> a < b -> a + 1 <= b.
Proof.
  intros [x Hx] [y Hy] H. rewrite Hx, Hy in *.
  rewrite <- Zlt_Qlt in H.
  change 1 with (inject_Z 1). rewrite <- inject_Z_plus, <- Zle_Qle. lia.
Qed.

Lemma whole_positive (a : Q) : whole a -> 0 < a -> 1 <= a.
Proof.
  intros Ha H.
  assert (G : 0 + 1 <= a) by (apply whole_next; [now exists 0%Z|exact Ha|exact H]).
  lra.
Qed.

Lemma has_id_true (X : string) (item : CartItem) :
  POS.has_id X item = true <-> Product.id (product item) = X.
Proof. unfold POS.has_id. apply String.eqb_eq. Qed.

Lemma has_id_false (X : string) (item : CartItem) :
  POS.has_id X item = false <-> Product.id (product item) <> X.
Proof. unfold POS.has_id. apply String.eqb_neq. Qed.

Lemma ids_same_products (f : CartItem -> CartItem) (cart : list CartItem) :
  (forall item, product (f item) = product item) ->
  ids (map f cart) = ids cart.
Proof.
  intro H. unfold ids. rewrite map_map. apply map_ext.
  intro item. now rewrite H.
Qed.

Lemma ids_filter_NoDup (f : CartItem -> bool) (cart : list CartItem) :
  NoDup (ids cart) -> NoDup (ids (filter f cart)).
Proof.
  induction cart as [|item rest IH]; simpl; intro H; [constructor|].
  inversion H as [|x l Hnotin Hrest]; subst.
  destruct (f item); simpl; [|now apply IH].
  constructor; [|now apply IH].
  intro Hin. apply Hnotin. unfold ids in *.
  apply in_map_iff in Hin as [other [E Hin]].
  apply filter_In in Hin as [Hin _].
  apply in_map_iff. now exists other.
Qed.

Lemma one_line_per_id (cart : list CartItem) (a b : CartItem) :
  NoDup (ids cart) -> In a cart -> In b cart ->
  Product.id (product a) = Product.id (product b) -> a = b.
Proof.
  induction cart as [|item rest IH]; simpl; intros H Ha Hb E; [destruct Ha|].
  inversion H as [|x l Hnotin Hrest]; subst.
  destruct Ha as [Ha|Ha], Hb as [Hb|Hb]; subst.
  - reflexivity.
  - exfalso. apply Hnotin. rewrite E.
    exact (in_map (fun i => Product.id (product i)) _ _ Hb).
  - exfalso. apply Hnotin. rewrite <- E.
    exact (in_map (fun i => Product.id (product i)) _ _ Ha).
  - now apply IH.
Qed.

Lemma updateQuantity_line_sound (X : string) (delta : Q) (item : CartItem) :
  whole delta -> line_sound item ->
  line_sound (fst (POS.updateQuantity_line X delta item))
  /\ product (fst (POS.updateQuantity_line X delta item)) = product item.
Proof.
  intros Hd Hs. unfold POS.updateQuantity_line.
  destruct (POS.has_id X item); [|now split].
  destruct (num_le (quantity item + delta) 0) eqn:L; [now split|].
  destruct (num_gt (quantity item + delta)
              (Product.stock_quantity (product item))) eqn:G; [now split|].
  split; [|reflexivity].
  destruct Hs as [Hq [Hst _]]. apply num_le_false_iff in L.
  apply num_lt_false_iff in G.
  split; [|split; [|split]]; simpl; try assumption. now apply whole_plus.
Qed.

Lemma updateQuantity_sound (X : string) (delta : Q) (s : POS.State) :
  whole delta -> cart_sound (POS.cart s) ->
  cart_sound (POS.cart (POS.updateQuantity X delta s)).
Proof.
  intros Hd [Hs Hn]. unfold POS.updateQuantity. cbv zeta.
  change (POS.cart (POS.setCart ?c _)) with c.
  rewrite map_map. split.
  - rewrite Forall_forall in *. intros item Hin.
    apply filter_In in Hin as [Hin _].
    apply in_map_iff in Hin as [old [E Hold]]. subst item.
    now apply updateQuantity_line_sound, Hs.
  - apply ids_filter_NoDup. rewrite ids_same_products; [exact Hn|].
    intro item. unfold POS.updateQuantity_line.
    destruct (POS.has_id X item); [|reflexivity].
    destruct (num_le (quantity item + delta) 0); [reflexivity|].
    now destruct (num_gt (quantity item + delta)
                    (Product.stock_quantity (product item))).
Qed.

Lemma appended_sound (cart : list CartItem) (line : CartItem) :
  cart_sound cart -> line_sound line ->
  ~ In (Product.id (product line)) (ids cart) ->
  cart_sound (cart ++ [line]).
Proof.
  intros [Hs Hn] Hl Hfresh. split.
  - apply Forall_app. split; [exact Hs|]. constructor; [exact Hl|constructor].
  - unfold ids in *. rewrite map_app. simpl.
    apply NoDup_app; [exact Hn|constructor; [now intros []|constructor]|].
    intros x Hx [E|[]]. subst x. now apply Hfresh.
Qed.

Lemma addToCart_sound (p : Product.t) (s : POS.State) :
  whole (Product.stock_quantity p) -> 0 < Product.stock_quantity p ->
  (forall item, In item (POS.cart s) -> POS.has_id (Product.id p) item = true ->
     Product.stock_quantity p <= Product.stock_quantity (product item)) ->
  cart_sound (POS.cart s) -> cart_sound (POS.cart (POS.addToCart p s)).
Proof.
  intros Hw Hp Hsame Hsound. unfold POS.addToCart.
  destruct (find (POS.has_id (Product.id p)) (POS.cart s)) as [existing|] eqn:F.
  - destruct (num_ge (quantity existing) (Product.stock_quantity p)) eqn:G;
      [exact Hsound|].
    apply find_some in F as [Hex Hid].
    apply num_le_false_iff in G. destruct Hsound as [Hs Hn].
    simpl. split.
    + rewrite Forall_forall in *. intros item Hin.
      apply in_map_iff in Hin as [old [E Hold]]. subst item.
      destruct (POS.has_id (Product.id p) old) eqn:Hold_id; [|now apply Hs].
      assert (old = existing).
      { apply (one_line_per_id (POS.cart s)); try assumption.
        apply has_id_true in Hid, Hold_id. congruence. }
      subst old. destruct (Hs existing Hex) as [Hq [Hst [Hpos Hle]]].
      split; [|split; [|split]]; simpl.
      * apply whole_plus; [exact Hq|exact whole_1].
      * exact Hst.
      * lra.
      * eapply Qle_trans; [|exact (Hsame existing Hex Hid)].
        now apply whole_next.
    + rewrite ids_same_products; [exact Hn|].
      intro item. now destruct (POS.has_id (Product.id p) item).
  - simpl. apply appended_sound; [exact Hsound| |].
    + split; [exact whole_1|]. split; [exact Hw|].
      split; simpl; [reflexivity|]. now apply whole_positive.
    + simpl. unfold ids. intro Hin.
      apply in_map_iff in Hin as [item [E Hin]].
      pose proof (find_none _ _ F item Hin) as Hno.
      apply has_id_false in Hno. congruence.
Qed.

Lemma same_products_sound (f : CartItem -> CartItem) (cart : list CartItem) :
  (forall item, product (f item) = product item
                /\ quantity (f item) = quantity item) ->
  cart_sound cart -> cart_sound (map f cart).
Proof.
  intros H [Hs Hn]. split.
  - rewrite Forall_forall in *. intros item Hin.
    apply in_map_iff in Hin as [old [E Hold]]. subst item.
    destruct (H old) as [Hp Hq]. unfold line_sound. rewrite Hp, Hq.
    now apply Hs.
  - rewrite ids_same_products; [exact Hn|]. intro item. now destruct (H item).
Qed.

(** X3.  The cart handlers keep the cart of the data model: whole
    quantities between 1 and the stock recorded on the line, and one line
    per product.  This holds for every adjustment by a whole number, for
    every removal and every change of discount; for adding a product whose
    stock is a positive whole number not above the stock recorded on its
    line; and for adding a refill under a fresh id. *)
Theorem cart_handlers_keep_sound (s : POS.State) :
  cart_sound (POS.cart s) ->
  (forall X delta, whole delta ->
     cart_sound (POS.cart (POS.updateQuantity X delta s)))
  /\ (forall p,
        whole (Product.stock_quantity p) -> 0 < Product.stock_quantity p ->
        (forall item, In item (POS.cart s) ->
           POS.has_id (Product.id p) item = true ->
           Product.stock_quantity p <= Product.stock_quantity (product item)) ->
        cart_sound (POS.cart (POS.addToCart p s)))
  /\ (forall now nowIso name price volumeMl,
        ~ In ("refill-" ++ NilZero.string_of_uint (N.to_uint now))%string
            (ids (POS.cart s)) ->
        cart_sound
          (POS.cart (POS.addRefillToCart now nowIso name price volumeMl s)))
  /\ (forall X, cart_sound (POS.cart (POS.removeFromCart X s)))
  /\ (forall X d, cart_sound (POS.cart (POS.applyDiscount X d s)))
  /\ (forall X, cart_sound (POS.cart (POS.removeDiscount X s)))
  /\ cart_sound (POS.cart (POS.clearCart s)).
Proof.
  intro H. repeat split.
  - destruct (updateQuantity_sound X delta s H0 H) as [G _]. exact G.
  - destruct (updateQuantity_sound X delta s H0 H) as [_ G]. exact G.
  - destruct (addToCart_sound p s H0 H1 H2 H) as [G _]. exact G.
  - destruct (addToCart_sound p s H0 H1 H2 H) as [_ G]. exact G.
  - apply (appended_sound (POS.cart s)); [exact H| |exact H0].
    split; [exact whole_1|]. split; [now exists 999%Z|].
    split; simpl; qcompare.
  - apply (appended_sound (POS.cart s)); [exact H| |exact H0].
    split; [exact whole_1|]. split; [now exists 999%Z|].
    split; simpl; qcompare.
  - destruct H as [Hs _]. simpl. rewrite Forall_forall in *.
    intros item Hin. apply filter_In in Hin as [Hin _]. now apply Hs.
  - apply ids_filter_NoDup. now destruct H.
  - unfold POS.applyDiscount. cbv zeta.
    assert (G : cart_sound
                  (map (fun item => if POS.has_id X item
                                    then POS.with_discount item d else item)
                     (POS.cart s))).
    { apply same_products_sound; [|exact H].
      intro item. now destruct (POS.has_id X item). }
    destruct d; apply G.
  - unfold POS.applyDiscount. cbv zeta.
    assert (G : cart_sound
                  (map (fun item => if POS.has_id X item
                                    then POS.with_discount item d else item)
                     (POS.cart s))).
    { apply same_products_sound; [|exact H].
      intro item. now destruct (POS.has_id X item). }
    destruct d; apply G.
  - simpl. apply same_products_sound; [|exact H].
    intro item. now destruct (POS.has_id X item).
  - simpl. apply same_products_sound; [|exact H].
    intro item. now destruct (POS.has_id X item).
  - constructor.
  - constructor.
Qed.

(** Two of five units in the cart: a third unit, or one more by the plus
    button, leaves a sound cart. *)
Lemma cart_handlers_keep_sound_witness :
  let s := Demo.session [mkCartItem Demo.mango 2 None] cash "" in
  cart_sound (POS.cart (POS.updateQuantity "p-1" 1 s))
  /\ cart_sound (POS.cart (POS.addToCart Demo.mango s)).
Proof.
  cbv zeta.
  destruct (cart_handlers_keep_sound
              (Demo.session [mkCartItem Demo.mango 2 None] cash ""))
    as [Hupdate [Hadd _]].
  - split.
    + constructor; [|constructor].
      split; [now exists 2%Z|]. split; [now exists 5%Z|].
      split; simpl; qcompare.
    + constructor; [now intros []|constructor].
  - split.
    + apply Hupdate. exact whole_1.
    + apply Hadd.
      * now exists 5%Z.
      * simpl. qcompare.
      * intros item [E|[]] _. subst item. simpl. qcompare.
Defined.

(** *** Removing a line, changing a discount, adding twice *)

(** X4.  After [removeFromCart] no line of that product is left, the lines
    of the other products are all still there, removing again or removing a
    product that has no line changes nothing, and nothing but the cart is
    touched. *)
Theorem removeFromCart_complete (X : string) (s : POS.State) :
  (forall item, In item (POS.cart (POS.removeFromCart X s)) <->
                In item (POS.cart s) /\ Product.id (product item) <> X)
  /\ POS.removeFromCart X (POS.removeFromCart X s) = POS.removeFromCart X s
  /\ (~ In X (ids (POS.cart s)) -> POS.removeFromCart X s = s)
  /\ POS.toasts (POS.removeFromCart X s) = POS.toasts s
  /\ POS.requests (POS.removeFromCart X s) = POS.requests s.
Proof.
  split; [|split; [|split; [|split]]]; try reflexivity.
  - intro item. simpl. rewrite filter_In, negb_true_iff, has_id_false.
    tauto.
  - unfold POS.removeFromCart. simpl.
    rewrite (filter_keeps_all _ (filter _ (POS.cart s))); [reflexivity|].
    intros item Hin. apply filter_In in Hin as [_ Hin]. exact Hin.
  - intro Hno. unfold POS.removeFromCart.
    rewrite filter_keeps_all; [apply setCart_same|].
    intros item Hin. apply negb_true_iff, has_id_false. intro E.
    apply Hno. rewrite <- E.
    exact (in_map (fun i => Product.id (product i)) _ _ Hin).
Qed.

(** X5.  A line carries one discount at a time: applying a discount replaces
    whatever the lines of the product carried, so only the last one applied
    counts; applying [null] is [removeDiscount]; and products, quantities
    and the order of the lines are never affected. *)
Theorem applyDiscount_replaces (X : string) (d1 d2 : option Discount.t)
    (s : POS.State) :
  POS.cart (POS.applyDiscount X d2 (POS.applyDiscount X d1 s))
  = POS.cart (POS.applyDiscount X d2 s)
  /\ POS.applyDiscount X None s = POS.removeDiscount X s
  /\ map product (POS.cart (POS.applyDiscount X d1 s)) = map product (POS.cart s)
  /\ map quantity (POS.cart (POS.applyDiscount X d1 s))
     = map quantity (POS.cart s)
  /\ (forall item, In item (POS.cart (POS.applyDiscount X d1 s)) ->
        Product.id (product item) = X -> discount item = d1)
  /\ (forall item, In item (POS.cart s) -> Product.id (product item) <> X ->
        In item (POS.cart (POS.applyDiscount X d1 s))).
Proof.
  assert (C : forall d t,
            POS.cart (POS.applyDiscount X d t)
            = map (fun item => if POS.has_id X item
                               then POS.with_discount item d else item)
                (POS.cart t))
    by (intros d t; now destruct d).
  split; [|split; [|split; [|split; [|split]]]].
  - rewrite !C, map_map. apply map_ext. intro item.
    destruct (POS.has_id X item) eqn:E; [|now rewrite E].
    unfold POS.has_id in *. simpl. now rewrite E.
  - reflexivity.
  - rewrite C, map_map. apply map_ext. intro item.
    now destruct (POS.has_id X item).
  - rewrite C, map_map. apply map_ext. intro item.
    now destruct (POS.has_id X item).
  - intros item Hin Hid. rewrite C in Hin.
    apply in_map_iff in Hin as [old [E Hold]]. subst item.
    destruct (POS.has_id X old) eqn:G; [reflexivity|].
    apply has_id_false in G. contradiction.
  - intros item Hin Hid. rewrite C. apply in_map_iff. exists item.
    apply has_id_false in Hid. now rewrite Hid.
Qed.

(** X6.  Adding a product that has no line yet appends a line of one unit
    without discount after the lines already there; adding it once more
    raises that line to two units, provided the product has more than one
    unit in stock, and adds no line. *)
Theorem addToCart_twice (p : Product.t) (s : POS.State) :
  ~ In (Product.id p) (ids (POS.cart s)) ->
  1 < Product.stock_quantity p ->
  POS.cart (POS.addToCart p s) = POS.cart s ++ [mkCartItem p 1 None]
  /\ POS.cart (POS.addToCart p (POS.addToCart p s))
     = POS.cart s ++ [mkCartItem p (1 + 1) None]
  /\ POS.toasts (POS.addToCart p (POS.addToCart p s)) = POS.toasts s.
Proof.
  intros Hfresh Hstock.
  assert (Hno : forall item, In item (POS.cart s) ->
                  POS.has_id (Product.id p) item = false).
  { intros item Hin. apply has_id_false. intro E. apply Hfresh.
    rewrite <- E. exact (in_map (fun i => Product.id (product i)) _ _ Hin). }
  assert (F : find (POS.has_id (Product.id p)) (POS.cart s) = None).
  { destruct (find (POS.has_id (Product.id p)) (POS.cart s)) as [item|] eqn:F;
      [|reflexivity].
    apply find_some in F as [Hin Hid]. rewrite (Hno item Hin) in Hid.
    discriminate. }
  assert (A : POS.addToCart p s
              = POS.setCart (POS.cart s ++ [mkCartItem p 1 None]) s)
    by (unfold POS.addToCart; now rewrite F).
  assert (Hself : POS.has_id (Product.id p) (mkCartItem p 1 None) = true)
    by (apply has_id_true; reflexivity).
  assert (F2 : find (POS.has_id (Product.id p))
                 (POS.cart s ++ [mkCartItem p 1 None])
               = Some (mkCartItem p 1 None)).
  { clear A F. induction (POS.cart s) as [|item rest IH]; simpl.
    - now rewrite Hself.
    - rewrite (Hno item (or_introl eq_refl)). apply IH.
      + intro Hin. apply Hfresh. now right.
      + intros i Hi. apply Hno. now right. }
  split; [now rewrite A|].
  rewrite A.
  assert (B : POS.addToCart p
                (POS.setCart (POS.cart s ++ [mkCartItem p 1 None]) s)
              = POS.setCart (POS.cart s ++ [mkCartItem p (1 + 1) None])
                  (POS.setCart (POS.cart s ++ [mkCartItem p 1 None]) s)).
  { unfold POS.addToCart. simpl POS.cart. rewrite F2.
    simpl quantity. apply num_lt_iff in Hstock.
    unfold num_ge, num_le. unfold num_lt in Hstock.
    apply negb_true_iff in Hstock. rewrite Hstock.
    f_equal. rewrite map_app. simpl. rewrite Hself.
    f_equal. rewrite <- (map_id (POS.cart s)) at 2. apply map_ext_in.
    intros item Hin. now rewrite (Hno item Hin). }
  rewrite B. split; reflexivity.
Qed.

(** An empty cart and a product with 5 units in stock. *)
Lemma addToCart_twice_witness :
  POS.cart (POS.addToCart Demo.mango
              (POS.addToCart Demo.mango (Demo.session [] cash "")))
  = [mkCartItem Demo.mango (1 + 1) None].
Proof.
  destruct (addToCart_twice Demo.mango (Demo.session [] cash ""))
    as [_ [H _]].
  - now intros [].
  - simpl. qcompare.
  - exact H.
Defined.

(** ** More on pricing *)

Lemma Math_max_same (x : Q) : 0 <= x -> Math_max 0 x == x.
Proof.
  intro H. unfold Math_max. destruct (num_lt 0 x) eqn:E; [reflexivity|].
  apply num_lt_false_iff in E. lra.
Qed.

(** Adding up in cart order keeps the order between two columns, and the
    sum of a column without negative entries is not negative. *)
Lemma fold_sum_le (f g : CartItem -> Q) (cart : list CartItem) (a b : Q) :
  a <= b ->
  (forall item, In item cart -> f item <= g item) ->
  fold_left (fun sum x => sum + f x) cart a
  <= fold_left (fun sum x => sum + g x) cart b.
Proof.
  revert a b. induction cart as [|item rest IH]; intros a b Hab H; simpl;
    [exact Hab|].
  apply IH.
  - apply Qplus_le_compat; [exact Hab|apply H; now left].
  - intros i Hi. apply H. now right.
Qed.

Lemma fold_sum_nonneg (f : CartItem -> Q) (cart : list CartItem) (a : Q) :
  0 <= a ->
  (forall item, In item cart -> 0 <= f item) ->
  0 <= fold_left (fun sum x => sum + f x) cart a.
Proof.
  revert a. induction cart as [|item rest IH]; intros a Ha H; simpl;
    [exact Ha|].
  apply IH.
  - pose proof (H item (or_introl eq_refl)). lra.
  - intros i Hi. apply H. now right.
Qed.

Lemma discount_within_gross (item : CartItem) :
  0 <= Product.selling_price (product item) -> 0 <= quantity item ->
  discount_within_price item ->
  0 <= POS.calculateItemDiscount item
  /\ POS.calculateItemDiscount item <= Spec.lineGross item.
Proof.
  intros Hp Hq Hd.
  unfold discount_within_price in Hd.
  unfold POS.calculateItemDiscount, Spec.lineGross.
  set (p := Product.selling_price (product item)) in *.
  set (q := quantity item) in *.
  assert (Hg : 0 <= p * q) by (apply Qmult_le_0_compat; assumption).
  destruct (discount item) as [d|]; [|split; [apply Qle_refl|exact Hg]].
  set (v := Discount.value d) in *.
  destruct (Discount.type d); destruct Hd as [Hv Hmax].
  - assert (E : v / 100 == v * (1 # 100)) by field.
    assert (Ht : 0 <= v / 100 /\ v / 100 <= 1) by (rewrite E; split; lra).
    clear E. destruct Ht as [Ht0 Ht1]. set (t := v / 100) in *. split.
    + apply Qmult_le_0_compat; assumption.
    + assert (G : 0 <= p * q * (1 - t))
        by (apply Qmult_le_0_compat; [exact Hg|lra]).
      lra.
  - split.
    + apply Qmult_le_0_compat; assumption.
    + assert (G : 0 <= (p - v) * q)
        by (apply Qmult_le_0_compat; [lra|exact Hq]).
      lra.
Qed.

(** X8.  When prices and quantities are not negative and every discount
    stays within the price of its line (a percentage between 0 and 100, a
    fixed amount between 0 and the unit price), no line discount is
    negative or above the gross amount of the line, and the net of a line
    is its gross minus its discount: the floor at 0 is not reached.  The
    discounts of the cart then add up to an amount that is not negative and
    not above its gross total, and the net total is not negative.  (Each
    of these is an order between amounts, or the value of one expression of
    the code.) *)
Theorem discounts_within_price (cart : list CartItem) :
  (forall item, In item cart ->
     0 <= Product.selling_price (product item)
     /\ 0 <= quantity item
     /\ discount_within_price item) ->
  let totals := POS.calculateTotals cart in
  (forall item, In item cart ->
     0 <= POS.calculateItemDiscount item
     /\ POS.calculateItemDiscount item <= Spec.lineGross item
     /\ POS.calculateItemSubtotal item
        == Spec.lineGross item - POS.calculateItemDiscount item)
  /\ 0 <= POS.totalDiscount totals
  /\ POS.totalDiscount totals <= POS.originalSubtotal totals
  /\ 0 <= POS.subtotal totals.
Proof.
  intro H. cbv zeta.
  assert (L : forall item, In item cart ->
            0 <= POS.calculateItemDiscount item
            /\ POS.calculateItemDiscount item <= Spec.lineGross item).
  { intros item Hin. destruct (H item Hin) as [Hp [Hq Hd]].
    exact (discount_within_gross item Hp Hq Hd). }
  assert (D0 : 0 <= POS.totalDiscount (POS.calculateTotals cart)).
  { apply (fold_sum_nonneg POS.calculateItemDiscount cart 0);
      [apply Qle_refl|]. intros item Hin. now destruct (L item Hin). }
  assert (DG : POS.totalDiscount (POS.calculateTotals cart)
               <= POS.originalSubtotal (POS.calculateTotals cart)).
  { apply (fold_sum_le POS.calculateItemDiscount Spec.lineGross cart 0 0);
      [apply Qle_refl|]. intros item Hin. now destruct (L item Hin). }
  split; [|split; [exact D0|split; [exact DG|]]].
  - intros item Hin. destruct (L item Hin) as [H0 Hg].
    split; [exact H0|]. split; [exact Hg|].
    unfold POS.calculateItemSubtotal. cbv zeta. unfold Spec.lineGross in *.
    apply Math_max_same.
    set (g := Product.selling_price (product item) * quantity item) in *.
    lra.
  - change (POS.subtotal (POS.calculateTotals cart))
      with (POS.originalSubtotal (POS.calculateTotals cart)
            - POS.totalDiscount (POS.calculateTotals cart)).
    lra.
Qed.

(** One unit at 100 with 10% off: the discount is 10, within the gross. *)
Lemma discounts_within_price_witness :
  let line := mkCartItem Demo.coil 1 (Some Demo.ten_percent) in
  POS.calculateItemDiscount line <= Spec.lineGross line
  /\ 0 <= POS.subtotal (POS.calculateTotals [line]).
Proof.
  cbv zeta.
  destruct (discounts_within_price
              [mkCartItem Demo.coil 1 (Some Demo.ten_percent)])
    as [Hline [_ [_ Htotal]]].
  - intros item [E|[]]. subst item. simpl.
    repeat split; qcompare.
  - split; [|exact Htotal].
    destruct (Hline (mkCartItem Demo.coil 1 (Some Demo.ten_percent)))
      as [_ [G _]]; [now left|exact G].
Defined.

(** Adding up a column of the rows made of the lines is adding it up over
    the lines, step by step. *)
Lemma reduce_sum_map {A B : Type} (f : B -> Q) (g : A -> B) (l : list A) :
  reduce_sum f (map g l) = reduce_sum (fun x => f (g x)) l.
Proof.
  unfold reduce_sum. generalize 0. induction l as [|x l IH]; intro acc;
    simpl; [reflexivity|apply IH].
Qed.

(** X9.  The rows a checkout writes account for its header.  There is one
    row per cart line; the discount amount and the profit of the sale are
    the discount amounts and the profits of the rows added up in cart
    order; and the total amount of the sale is the original subtotals of
    the rows added up, minus their discount amounts added up.  (The total
    amount is not the subtotals of the rows added up: a row subtotal is
    floored at 0, the total is not.) *)
Theorem sale_rows_add_up (s : POS.State) (user_id sale_id : string) :
  exists header rows,
    sale_of s user_id = insert_sale header
    /\ sale_items_of s sale_id = insert_sale_items rows
    /\ List.length rows = List.length (POS.cart s)
    /\ SaleInsert.discount_amount header
       = reduce_sum SaleItemInsert.discount_amount rows
    /\ SaleInsert.total_profit header
       = reduce_sum SaleItemInsert.profit rows
    /\ SaleInsert.total_amount header
       = reduce_sum SaleItemInsert.original_subtotal rows
         - reduce_sum SaleItemInsert.discount_amount rows.
Proof.
  eexists. exists (map (POS.saleItem sale_id) (POS.cart s)).
  split; [reflexivity|]. split; [reflexivity|].
  split; [apply length_map|].
  rewrite !reduce_sum_map. repeat split.
Qed.

(** ** More on the checkout *)

(** X10.  [handleInitiateCheckout] sends nothing unless the cart has a
    line, a user with a role is signed in and the payment is by card.  With
    an empty cart, or without user or role, its only effect is an error
    toast; for a cash payment it only opens the cash dialog on an emptied
    amount field. *)
Theorem handleInitiateCheckout_guards (Store : Type)
    (exec : Store -> DbRequest -> Store * Reply)
    (now : N) (s : POS.State) (st : Store) :
  let out := POS.handleInitiateCheckout Store exec now (s, st) in
  (POS.cart s = [] -> out = (POS.toast (toast_error "Cart is empty") s, st))
  /\ (POS.cart s <> [] -> POS.user s = None \/ POS.role s = None ->
      out = (POS.toast (toast_error "You must be logged in to process sales") s,
             st))
  /\ (POS.cart s <> [] -> POS.user s <> None -> POS.role s <> None ->
      POS.paymentMethod s = cash ->
      out = (POS.setShowCashDialog true (POS.setCashReceived "" s), st))
  /\ (POS.requests (fst out) <> POS.requests s ->
      POS.cart s <> [] /\ POS.user s <> None /\ POS.role s <> None
      /\ POS.paymentMethod s = card).
Proof.
  cbv zeta. unfold POS.handleInitiateCheckout. cbn [fst snd].
  destruct (POS.cart s) as [|item rest] eqn:Hcart.
  - cbn [List.length Nat.eqb]. split; [reflexivity|].
    split; [intro H; now destruct H|]. split; [intro H; now destruct H|].
    intro H. now destruct H.
  - cbn [List.length Nat.eqb].
    split; [discriminate|].
    destruct (POS.user s) as [u|] eqn:Hu, (POS.role s) as [r|] eqn:Hr.
    + split; [intros _ [H|H]; discriminate H|].
      destruct (POS.paymentMethod s) eqn:Hp.
      * split; [reflexivity|]. intro H. now destruct H.
      * split; [intros _ _ _ H; discriminate H|].
        intros _. repeat split; discriminate.
    + split; [reflexivity|]. split; [intros _ _ H; now destruct H|].
      intro H. now destruct H.
    + split; [reflexivity|]. split; [intros _ H; now destruct H|].
      intro H. now destruct H.
    + split; [reflexivity|]. split; [intros _ H; now destruct H|].
      intro H. now destruct H.
Qed.

(** X11.  A checkout ends in one of two ways, and in both the page is no
    longer processing.  Failed: the failure toast is the only new toast, and
    cart, amount field and receipt are what they were, so the sale can be
    tried again.  Done: the success toast is raised, the receipt of this
    sale is shown, the cart is empty and the amount field cleared. *)
Theorem checkout_fails_or_clears (Store : Type)
    (exec : Store -> DbRequest -> Store * Reply)
    (now : N) (cashAmount change : option Q) (s : POS.State) (st : Store) :
  let s' := fst (POS.processCheckout Store exec now cashAmount change (s, st)) in
  POS.processing s' = false
  /\ ((gained (POS.toasts s) (POS.toasts s') = [the_failure]
       /\ POS.cart s' = POS.cart s
       /\ POS.cashReceived s' = POS.cashReceived s
       /\ POS.receiptData s' = POS.receiptData s
       /\ POS.showReceipt s' = POS.showReceipt s)
      \/ (In the_success (gained (POS.toasts s) (POS.toasts s'))
          /\ ~ In the_failure (gained (POS.toasts s) (POS.toasts s'))
          /\ POS.cart s' = []
          /\ POS.cashReceived s' = EmptyString
          /\ POS.showReceipt s' = true
          /\ exists sale_id,
               POS.receiptData s'
               = Some (receipt_of s sale_id now cashAmount change))).
Proof.
  cbv zeta.
  assert (Hfail : forall trace,
            POS.processing (after_failure trace s) = false
            /\ gained (POS.toasts s) (POS.toasts (after_failure trace s))
               = [the_failure]
            /\ POS.cart (after_failure trace s) = POS.cart s
            /\ POS.cashReceived (after_failure trace s) = POS.cashReceived s
            /\ POS.receiptData (after_failure trace s) = POS.receiptData s
            /\ POS.showReceipt (after_failure trace s) = POS.showReceipt s).
  { intro trace. unfold after_failure. rewrite sent_all_state. simpl.
    rewrite gained_app. repeat split. }
  destruct (processCheckout_state Store exec now cashAmount change s st)
    as [[_ E]|[user_id [_ [E|[[sale_id [tried [todo [_ E]]]]|
                               [sale_id [refreshed E]]]]]]];
    rewrite E.
  - destruct (Hfail []) as [P R]. split; [exact P|now left].
  - destruct (Hfail [sale_of s user_id]) as [P R]. split; [exact P|now left].
  - destruct (Hfail ([sale_of s user_id; sale_items_of s sale_id]
                     ++ map stock_write tried)) as [P R].
    split; [exact P|now left].
  - split; [now destruct refreshed|]. right.
    unfold after_success. cbv zeta. rewrite sent_all_state.
    destruct refreshed; simpl;
      (rewrite <- app_assoc || idtac); rewrite gained_app;
      repeat split; try (now left); try (now exists sale_id).
    + intros [H|[]]. discriminate H.
    + intros [H|[H|[]]]; discriminate H.
Qed.

(** X12.  A checkout that fails has stopped part way and undone nothing:
    what it sent is a proper beginning of what a full sale sends (the
    sale, its items, the stock writes of the lines that are not refills in
    cart order, the refresh), so a sale or stock writes already sent stay
    in the database. *)
Theorem failed_checkout_stops_short (Store : Type)
    (exec : Store -> DbRequest -> Store * Reply)
    (now : N) (cashAmount change : option Q) (s : POS.State) (st : Store) :
  let s' := fst (POS.processCheckout Store exec now cashAmount change (s, st)) in
  gained (POS.toasts s) (POS.toasts s') = [the_failure] ->
  exists user_id sale_id rest,
    (POS.user s = None \/ POS.user s = Some user_id)
    /\ rest <> []
    /\ gained (POS.requests s) (POS.requests s') ++ rest
       = [sale_of s user_id; sale_items_of s sale_id]
         ++ map stock_write (filter not_refill (POS.cart s))
         ++ [select_products].
Proof.
  cbv zeta.
  assert (R : forall trace,
            gained (POS.requests s) (POS.requests (after_failure trace s))
            = trace).
  { intro trace. unfold after_failure. rewrite sent_all_state. simpl.
    apply gained_app. }
  destruct (processCheckout_state Store exec now cashAmount change s st)
    as [[Hu E]|[user_id [Hu [E|[[sale_id [tried [todo [F E]]]]|
                                [sale_id [refreshed E]]]]]]];
    rewrite E; intro Htoast.
  - rewrite R. exists EmptyString, EmptyString. eexists.
    split; [now left|]. split; [|reflexivity]. discriminate.
  - rewrite R. exists user_id, EmptyString. eexists.
    split; [now right|]. split; [|reflexivity]. discriminate.
  - rewrite R. exists user_id, sale_id, (map stock_write todo ++ [select_products]).
    split; [now right|]. split.
    + intro H. apply app_eq_nil in H as [_ H]. discriminate H.
    + rewrite F, map_app. simpl. now rewrite <- !app_assoc.
  - exfalso. revert Htoast. unfold after_success. cbv zeta.
    rewrite sent_all_state.
    destruct refreshed; simpl; (rewrite <- app_assoc || idtac);
      rewrite gained_app; discriminate.
Qed.

(** With the database down, the sale itself is the request that fails. *)
Lemma failed_checkout_stops_short_witness :
  let s := Demo.session [mkCartItem Demo.mango 2 None] card "" in
  exists user_id sale_id rest,
    (POS.user s = None \/ POS.user s = Some user_id)
    /\ rest <> []
    /\ gained (POS.requests s)
         (POS.requests
            (fst (POS.processCheckout unit Demo.down 0 None None (s, tt))))
       ++ rest
       = [sale_of s user_id; sale_items_of s sale_id]
         ++ map stock_write (filter not_refill (POS.cart s))
         ++ [select_products].
Proof.
  cbv zeta.
  apply (failed_checkout_stops_short unit Demo.down 0 None None
           (Demo.session [mkCartItem Demo.mango 2 None] card "") tt).
  reflexivity.
Defined.

(** X13.  For a signed-in user and a database that accepts every request,
    the checkout goes through: it sends the sale, its items, one stock
    write per line that is not a refill and the refresh, sets the receipt
    of this sale, empties the cart and raises the success toast alone. *)
Theorem checkout_on_accepting_database (Store : Type)
    (exec : Store -> DbRequest -> Store * Reply)
    (now : N) (cashAmount change : option Q) (s : POS.State) (st : Store)
    (user_id : string) :
  POS.user s = Some user_id ->
  (forall st r, exists id, snd (exec st r) = success id) ->
  let s' := fst (POS.processCheckout Store exec now cashAmount change (s, st)) in
  exists sale_id,
    POS.requests s'
    = POS.requests s
      ++ [sale_of s user_id; sale_items_of s sale_id]
      ++ map stock_write (filter not_refill (POS.cart s))
      ++ [select_products]
    /\ POS.receiptData s' = Some (receipt_of s sale_id now cashAmount change)
    /\ POS.cart s' = []
    /\ POS.toasts s' = POS.toasts s ++ [the_success].
Proof. exact (processCheckout_completes Store exec now cashAmount change s st user_id). Qed.

(** Two units and a refill, by card, on the database that stores
    everything. *)
Lemma checkout_on_accepting_database_witness :
  exists sale_id,
    POS.requests
      (fst (POS.processCheckout Demo.Ledger Demo.serve 0 None None
              (Demo.mango_and_refill, [])))
    = POS.requests Demo.mango_and_refill
      ++ [sale_of Demo.mango_and_refill "u-1";
          sale_items_of Demo.mango_and_refill sale_id]
      ++ map stock_write (filter not_refill (POS.cart Demo.mango_and_refill))
      ++ [select_products].
Proof.
  destruct (checkout_on_accepting_database Demo.Ledger Demo.serve 0 None None
              Demo.mango_and_refill [] "u-1"%string eq_refl)
    as [sale_id [H _]].
  - intros st r. destruct r; eexists; reflexivity.
  - exists sale_id. exact H.
Defined.

(** ** Quick cash amounts *)

(** Keeping first occurrences among four numbers leaves numbers that differ
    from one another. *)
Lemma first_occurrences (a0 a1 a2 a3 : Q) :
  let a := [a0; a1; a2; a3] in
  ForallOrdPairs (fun x y => ~ x == y)
    (QuickCash.filter_from
       (fun v i => QuickCash.is_index (QuickCash.indexOf a v) i) 0%nat a).
Proof.
  cbv zeta. simpl.
  rewrite !(proj2 (Qeq_bool_iff _ _) (Qeq_refl _)).
  destruct (Qeq_bool a0 a1) eqn:E01, (Qeq_bool a0 a2) eqn:E02,
    (Qeq_bool a1 a2) eqn:E12, (Qeq_bool a0 a3) eqn:E03,
    (Qeq_bool a1 a3) eqn:E13, (Qeq_bool a2 a3) eqn:E23; simpl;
    repeat constructor;
    try (intro H; apply Qeq_bool_iff in H; congruence).
Qed.

Lemma filter_from_In {A : Type} (f : A -> nat -> bool) (a : list A) :
  forall i v, In v (QuickCash.filter_from f i a) -> In v a.
Proof.
  induction a as [|x rest IH]; intros i v H; simpl in *; [exact H|].
  destruct (f x i); [destruct H as [H|H]|]; eauto.
Qed.

Lemma filter_from_length {A : Type} (f : A -> nat -> bool) (a : list A) :
  forall i, (List.length (QuickCash.filter_from f i a) <= List.length a)%nat.
Proof.
  induction a as [|x rest IH]; intro i; simpl; [lia|].
  destruct (f x i); simpl; specialize (IH (S i)); lia.
Qed.

Lemma filter_from_ext {A : Type} (f g : A -> nat -> bool) (a : list A) :
  (forall v i, In v a -> f v i = g v i) ->
  forall i, QuickCash.filter_from f i a = QuickCash.filter_from g i a.
Proof.
  induction a as [|x rest IH]; intros H i; simpl; [reflexivity|].
  rewrite (H x i (or_introl eq_refl)).
  rewrite IH; [reflexivity|]. intros v j Hv. apply H. now right.
Qed.

Lemma ceiling_below_next (x : Q) : inject_Z (Qceiling x) < x + 1.
Proof.
  pose proof (Qceiling_lt x) as H. unfold Z.sub in H.
  rewrite inject_Z_plus in H. change (inject_Z (- (1))) with (-1) in H. lra.
Qed.

(** Rounding up to a multiple of [n]: at least the amount, less than [n]
    above it, and whole. *)
Lemma ceil_multiple (s : Q) (n : Z) :
  (0 < n)%Z ->
  let v := QuickCash.Math_ceil (s / inject_Z n) * inject_Z n in
  s <= v /\ v < s + inject_Z n /\ whole v.
Proof.
  intros Hn. cbv zeta. unfold QuickCash.Math_ceil.
  assert (Hq : 0 < inject_Z n)
    by (change 0 with (inject_Z 0); rewrite <- Zlt_Qlt; exact Hn).
  pose proof (Qle_ceiling (s / inject_Z n)) as Hle.
  pose proof (ceiling_below_next (s / inject_Z n)) as Hlt.
  set (c := inject_Z (Qceiling (s / inject_Z n))) in *.
  assert (E : s == s / inject_Z n * inject_Z n) by (field; lra).
  split; [|split].
  - rewrite E at 1. apply Qmult_le_compat_r; [exact Hle|lra].
  - assert (G : c * inject_Z n < (s / inject_Z n + 1) * inject_Z n)
      by (apply Qmult_lt_compat_r; assumption).
    assert (E' : (s / inject_Z n + 1) * inject_Z n == s + inject_Z n)
      by (field; lra).
    rewrite E' in G. exact G.
  - exists (Qceiling (s / inject_Z n) * n)%Z. unfold c.
    now rewrite inject_Z_mult.
Qed.

(** X15.  The quick amounts of the cash dialog: each is a whole amount that
    covers the net total, so choosing it passes the cash guard, and is less
    than 100 above it; the first is the net total rounded up to a whole
    amount; there are between one and four of them, and no two are the same
    amount. *)
Theorem quickCashAmounts_cover (subtotal : Q) :
  let amounts := QuickCash.quickCashAmounts subtotal in
  (forall v, In v amounts ->
     subtotal <= v /\ v < subtotal + 100 /\ whole v
     /\ num_ge v subtotal = true)
  /\ (exists rest,
        amounts = QuickCash.Math_ceil subtotal :: rest
        /\ QuickCash.Math_ceil subtotal < subtotal + 1)
  /\ (List.length amounts <= 4)%nat
  /\ ForallOrdPairs (fun x y => ~ x == y) amounts.
Proof.
  cbv zeta.
  set (a := [QuickCash.Math_ceil subtotal;
             QuickCash.Math_ceil (subtotal / 10) * 10;
             QuickCash.Math_ceil (subtotal / 50) * 50;
             QuickCash.Math_ceil (subtotal / 100) * 100]).
  assert (B : forall v, In v a ->
            subtotal <= v /\ v < subtotal + 100 /\ whole v).
  { intros v Hv.
    destruct (ceil_multiple subtotal 10 eq_refl) as [L10 [U10 W10]].
    destruct (ceil_multiple subtotal 50 eq_refl) as [L50 [U50 W50]].
    destruct (ceil_multiple subtotal 100 eq_refl) as [L100 [U100 W100]].
    change (inject_Z 10) with 10 in *. change (inject_Z 50) with 50 in *.
    change (inject_Z 100) with 100 in *.
    pose proof (Qle_ceiling subtotal) as L1.
    pose proof (ceiling_below_next subtotal) as U1.
    destruct Hv as [E|[E|[E|[E|[]]]]]; subst v.
    - unfold QuickCash.Math_ceil. split; [exact L1|]. split; [lra|].
      now exists (Qceiling subtotal).
    - split; [exact L10|]. split; [lra|exact W10].
    - split; [exact L50|]. split; [lra|exact W50].
    - split; [exact L100|]. split; [exact U100|exact W100]. }
  assert (E : QuickCash.quickCashAmounts subtotal
              = QuickCash.filter_from
                  (fun v i => QuickCash.is_index (QuickCash.indexOf a v) i)
                  0%nat a).
  { unfold QuickCash.quickCashAmounts. cbv zeta. fold a.
    rewrite firstn_all2 by apply (filter_from_length _ a).
    apply filter_from_ext. intros v i Hv.
    destruct (B v Hv) as [Hle _]. apply num_ge_iff in Hle. now rewrite Hle. }
  rewrite E. split; [|split; [|split]].
  - intros v Hv. apply filter_from_In in Hv.
    destruct (B v Hv) as [Hle [Hlt Hw]]. repeat split; try assumption.
    now apply num_ge_iff.
  - unfold a. simpl.
    rewrite (proj2 (Qeq_bool_iff _ _) (Qeq_refl (QuickCash.Math_ceil subtotal))).
    simpl. eexists. split; [reflexivity|].
    apply ceiling_below_next.
  - apply (filter_from_length _ a).
  - apply first_occurrences.
Qed.

(** For a net total of 300 the four roundings coincide: one amount is
    offered. *)
Example quickCashAmounts_of_300 :
  QuickCash.quickCashAmounts 300 = [300].
Proof. vm_compute. reflexivity. Qed.

(** For a net total of 237.50 four amounts are offered. *)
Example quickCashAmounts_of_237_50 :
  Forall2 Qeq (QuickCash.quickCashAmounts (475 # 2)) [238; 240; 250; 300].
Proof. vm_compute. repeat constructor. Qed.

(** ** More on saving a discount *)

(** How [handleSave] ends.  Either the form is refused with an error toast
    and nothing else changes; or the name is not blank, the value parsed to
    a number above 0 (and at most 100 on a percentage), and the save was
    attempted. *)
Lemma handleSave_state (parseFloat : string -> option Q)
    (trim : string -> string) (Store : Type)
    (exec : Store -> DbRequest -> Store * Reply)
    (form : Discounts.State) (st : Store) :
  let out := Discounts.handleSave parseFloat trim Store exec (form, st) in
  (exists msg,
     In msg ["Please enter a discount name";
             "Please enter a valid value greater than 0";
             "Percentage cannot exceed 100%"]%string
     /\ out = (Discounts.toast (toast_error msg) form, st))
  \/ exists numValue,
       trim (Discounts.name form) <> EmptyString
       /\ parseFloat (Discounts.value form) = Some numValue
       /\ 0 < numValue
       /\ (Discounts.type form = percentage -> numValue <= 100)
       /\ ((discount_write trim form numValue = None
            /\ out = (save_without_user form, st))
           \/ exists w,
                discount_write trim form numValue = Some w
                /\ (fst out = save_refused w form
                    \/ exists refreshed, fst out = save_done w refreshed form)).
Proof.
  cbv zeta. unfold Discounts.handleSave. cbn [fst snd].
  destruct (String.eqb (trim (Discounts.name form)) "") eqn:Hname;
    [left; eexists; split; [left; reflexivity|reflexivity]|].
  apply String.eqb_neq in Hname.
  destruct (parseFloat (Discounts.value form)) as [numValue|] eqn:Hparse;
    [|left; eexists; split; [right; left; reflexivity|reflexivity]].
  destruct (num_le numValue 0) eqn:Hpos;
    [left; eexists; split; [right; left; reflexivity|reflexivity]|].
  apply num_le_false_iff in Hpos.
  destruct (match Discounts.type form with
            | percentage => num_gt numValue 100
            | fixed => false
            end) eqn:Hmax;
    [left; eexists; split; [right; right; left; reflexivity|reflexivity]|].
  right. exists numValue. split; [exact Hname|]. split; [reflexivity|].
  split; [exact Hpos|]. split.
  { intro Hp. rewrite Hp in Hmax. now apply num_lt_false_iff in Hmax. }
  unfold Discounts.handleSave_try, discount_write.
  destruct (Discounts.editingDiscount form) as [editing|] eqn:Hedit.
  - right. eexists. split; [reflexivity|].
    unfold Discounts.supabase.
    rewrite (bind_run (bind _ _)), bind_await.
    destruct (exec st _) as [st1 [id|e]]; cbn [fst snd];
      rewrite bind_orThrow.
    + right. unfold modify at 1. cbn [fst snd]. cbv iota.
      rewrite !bind_modify. unfold Discounts.fetchDiscounts.
      unfold Discounts.supabase. rewrite bind_await.
      destruct (exec st1 select_discounts) as [st2 [y|e]]; cbn [fst snd];
        cbv beta iota; unfold ret, modify; cbn [fst snd].
      * exists true. unfold save_done. rewrite Hedit. reflexivity.
      * exists false. unfold save_done. rewrite Hedit. reflexivity.
    + left. reflexivity.
  - destruct (Discounts.user form) as [user_id|] eqn:Huser.
    + right. eexists. split; [reflexivity|].
      unfold Discounts.supabase.
      rewrite (bind_run (bind _ _)), bind_await.
      destruct (exec st _) as [st1 [id|e]]; cbn [fst snd];
        rewrite bind_orThrow.
      * right. unfold modify at 1. cbn [fst snd]. cbv iota.
        rewrite !bind_modify. unfold Discounts.fetchDiscounts.
        unfold Discounts.supabase. rewrite bind_await.
        destruct (exec st1 select_discounts) as [st2 [y|e]]; cbn [fst snd];
          cbv beta iota; unfold ret, modify; cbn [fst snd].
        -- exists true. unfold save_done. rewrite Hedit. reflexivity.
        -- exists false. unfold save_done. rewrite Hedit. reflexivity.
      * left. reflexivity.
    + left. split; reflexivity.
Qed.

Lemma gained_same {A : Type} (l : list A) : gained l l = [].
Proof. rewrite <- (app_nil_r l) at 2. apply gained_app. Qed.

(** What each ending of [handleSave] added to the two logs. *)
Lemma save_logs (form : Discounts.State) (w : DbRequest) (refreshed : bool) :
  gained (Discounts.requests form)
    (Discounts.requests (save_without_user form)) = []
  /\ gained (Discounts.requests form)
       (Discounts.requests (save_refused w form)) = [w]
  /\ gained (Discounts.requests form)
       (Discounts.requests (save_done w refreshed form))
     = [w; select_discounts]
  /\ gained (Discounts.toasts form)
       (Discounts.toasts (save_without_user form)) = [save_failed]
  /\ gained (Discounts.toasts form)
       (Discounts.toasts (save_refused w form)) = [save_failed]
  /\ exists ok,
       gained (Discounts.toasts form)
         (Discounts.toasts (save_done w refreshed form))
       = toast_success ok
         :: (if refreshed then []
             else [toast_error "Failed to load discounts"]).
Proof.
  unfold save_without_user, save_refused, save_done.
  destruct refreshed;
    cbv [Discounts.setShowDialog Discounts.setEditingDiscount
         Discounts.setSaving Discounts.setName Discounts.setType
         Discounts.setValue Discounts.toast Discounts.sent
         Discounts.resetForm
         Discounts.user Discounts.showDialog Discounts.editingDiscount
         Discounts.saving Discounts.name Discounts.type Discounts.value
         Discounts.toasts Discounts.requests];
    rewrite gained_same, !gained_app, <- !app_assoc, !gained_app;
    (split; [reflexivity|]); (split; [reflexivity|]);
    (split; [reflexivity|]); (split; [reflexivity|]);
    (split; [reflexivity|]); eexists; reflexivity.
Qed.

(** X16.  Whatever is typed and whatever the database answers, a discount
    that [handleSave] writes is in range: its value is the number typed, it
    is above 0 and, on a percentage, at most 100; its name is the trimmed
    name of the form and is not empty; its kind is the kind chosen.  One
    save writes at most one discount. *)
Theorem handleSave_writes_in_range (parseFloat : string -> option Q)
    (trim : string -> string) (Store : Type)
    (exec : Store -> DbRequest -> Store * Reply)
    (form : Discounts.State) (st : Store) :
  let out := Discounts.handleSave parseFloat trim Store exec (form, st) in
  let trace :=
    gained (Discounts.requests form) (Discounts.requests (fst out)) in
  (forall r row, In r trace -> discount_written r = Some row ->
     parseFloat (Discounts.value form) = Some (DiscountWrite.value row)
     /\ 0 < DiscountWrite.value row
     /\ (DiscountWrite.type row = percentage -> DiscountWrite.value row <= 100)
     /\ DiscountWrite.type row = Discounts.type form
     /\ DiscountWrite.name row = trim (Discounts.name form)
     /\ DiscountWrite.name row <> EmptyString)
  /\ (List.length
        (filter (fun r => match discount_written r with
                          | Some _ => true
                          | None => false
                          end) trace) <= 1)%nat.
Proof.
  cbv zeta.
  destruct (handleSave_state parseFloat trim Store exec form st)
    as [[msg [_ E]]|[numValue [Hname [Hparse [Hpos [Hmax Hend]]]]]].
  - rewrite E. simpl. rewrite gained_same. split; [now intros r row []|].
    simpl. lia.
  - assert (Hw : forall w row,
              discount_write trim form numValue = Some w ->
              discount_written w = Some row ->
              DiscountWrite.value row = numValue
              /\ DiscountWrite.type row = Discounts.type form
              /\ DiscountWrite.name row = trim (Discounts.name form)).
    { intros w row Hw Hrow. unfold discount_write in Hw.
      destruct (Discounts.editingDiscount form);
        [|destruct (Discounts.user form); [|discriminate]];
        injection Hw as <-; simpl in Hrow; injection Hrow as <-;
        repeat split. }
    assert (Hone : forall w more,
              (forall r, In r more -> discount_written r = None) ->
              discount_write trim form numValue = Some w ->
              (forall r row, In r (w :: more) ->
                 discount_written r = Some row ->
                 parseFloat (Discounts.value form)
                 = Some (DiscountWrite.value row)
                 /\ 0 < DiscountWrite.value row
                 /\ (DiscountWrite.type row = percentage ->
                     DiscountWrite.value row <= 100)
                 /\ DiscountWrite.type row = Discounts.type form
                 /\ DiscountWrite.name row = trim (Discounts.name form)
                 /\ DiscountWrite.name row <> EmptyString)).
    { intros w more Hmore Hwrite r row [E|Hin] Hrow.
      - subst r. destruct (Hw w row Hwrite Hrow) as [Ev [Et En]].
        rewrite Ev, Et, En. repeat split; try assumption.
      - rewrite (Hmore r Hin) in Hrow. discriminate. }
    destruct Hend as [[_ E]|[w [Hwrite [E|[refreshed E]]]]]; rewrite E;
      destruct (save_logs form select_discounts true) as [R0 _].
    + cbn [fst]. rewrite R0. split; [now intros r row []|]. simpl. lia.
    + destruct (save_logs form w true) as [_ [R1 _]]. rewrite R1.
      split; [apply (Hone w []); [now intros r []|exact Hwrite]|].
      simpl. destruct (discount_written w); simpl; lia.
    + destruct (save_logs form w refreshed) as [_ [_ [R2 _]]]. rewrite R2.
      split.
      * apply (Hone w [select_discounts]); [|exact Hwrite].
        intros r [<-|[]]. reflexivity.
      * simpl. destruct (discount_written w); simpl; lia.
Qed.



(** ** The sidebar and the pages *)

(** X18.  The management menu by role: nobody without a role and no
    cashier sees a management entry (the group is not rendered at all); a
    manager sees Inventory, Discounts and Reports; a super admin sees these
    and Users and Settings.  An entry is listed exactly when the role has
    the permission it names, and the entries keep their order. *)
Theorem sidebar_menu_by_role :
  map Sidebar.title (Sidebar.filteredManagementItems None) = []
  /\ map Sidebar.title (Sidebar.filteredManagementItems (Some cashier)) = []
  /\ map Sidebar.title (Sidebar.filteredManagementItems (Some manager))
     = ["Inventory"; "Discounts"; "Reports"]%string
  /\ map Sidebar.title (Sidebar.filteredManagementItems (Some super_admin))
     = ["Inventory"; "Discounts"; "Reports"; "Users"; "Settings"]%string
  /\ (forall role,
        Sidebar.showsManagement role = true
        <-> role = Some manager \/ role = Some super_admin)
  /\ (forall role item,
        In item (Sidebar.filteredManagementItems role)
        <-> In item Sidebar.managementItems
            /\ allows role (Sidebar.requiresPermission item) = true).
Proof.
  repeat split; try reflexivity.
  - destruct role as [[| |]|]; simpl; intro H;
      try discriminate H; [now right|now left].
  - intros [H|H]; subst role; reflexivity.
  - unfold Sidebar.filteredManagementItems in H.
    now apply filter_In in H.
  - unfold Sidebar.filteredManagementItems in H.
    apply filter_In in H as [_ H]. exact H.
  - intros [Hin Hallow]. unfold Sidebar.filteredManagementItems.
    apply filter_In. split; [exact Hin|exact Hallow].
Qed.

(** X19.  For a user with a role, the sidebar and the pages agree: a
    management entry is listed exactly when the page it leads to lets the
    role in, so no entry leads to a refusal and no open page lacks its
    entry.  Without a role every entry is hidden and every page but
    Settings turns the visitor away; the Settings page does not. *)
Theorem sidebar_agrees_with_pages :
  (forall role item,
     In item Sidebar.managementItems ->
     (In item (Sidebar.filteredManagementItems (Some role))
      <-> PageGuard.turnsAway (Sidebar.url item) (Some role) = false))
  /\ Sidebar.filteredManagementItems None = []
  /\ PageGuard.Inventory None = true
  /\ PageGuard.Discounts None = true
  /\ PageGuard.Reports None = true
  /\ PageGuard.Users None = true
  /\ PageGuard.Settings None = false
  /\ (forall role,
        PageGuard.Discounts role = negb (allows role key_canManageProducts)).
Proof.
  split; [|repeat split; try reflexivity].
  - intros role item Hin. simpl in Hin.
    destruct Hin as [E|[E|[E|[E|[E|[]]]]]]; subst item;
      destruct role; simpl; split; intro H;
      try reflexivity; try discriminate H; try tauto;
      repeat (destruct H as [H|H]; try discriminate H); try (now destruct H).
  - intros. now destruct role as [[| |]|].
Qed.

(** ** Categories and the product grid *)

(** X20.  The category selector offers a category exactly when it has no
    parent, or its parent is a category that has no parent.  A category
    whose parent is itself a sub-category, or is not in the list, is never
    offered. *)
Theorem offered_categories_two_levels (categories : list Category.t)
    (c : Category.t) :
  In c (Catalog.offeredCategories categories)
  <-> In c categories
      /\ (Catalog.no_parent c = true
          \/ exists main,
               In main categories /\ Catalog.no_parent main = true
               /\ Category.parent_id c = Some (Category.id main)).
Proof.
  unfold Catalog.offeredCategories, Catalog.mainCategories,
    Catalog.getSubCategories.
  rewrite in_flat_map. split.
  - intros [main [Hmain [E|Hsub]]]; apply filter_In in Hmain as [Hin Hno].
    + subst c. split; [exact Hin|now left].
    + apply filter_In in Hsub as [Hc Hp]. split; [exact Hc|].
      right. exists main. split; [exact Hin|]. split; [exact Hno|].
      destruct (Category.parent_id c) as [p|]; [|discriminate].
      apply String.eqb_eq in Hp. now subst p.
  - intros [Hc [Hno|[main [Hin [Hno Hp]]]]].
    + exists c. split; [now apply filter_In|now left].
    + exists main. split; [now apply filter_In|]. right.
      apply filter_In. split; [exact Hc|]. rewrite Hp.
      apply String.eqb_refl.
Qed.

(** X21.  Choosing a category in the product grid lists only the products
    filed directly under it: a product of a sub-category is not listed when
    the parent category is chosen, whatever is searched for; and a chosen
    brand lists only the products of that brand. *)
Theorem grid_lists_direct_products_only
    (toLowerCase : string -> string) (includes : string -> string -> bool)
    (products : list Product.t)
    (searchQuery selectedCategory selectedBrand : string) :
  let grid :=
    Catalog.filteredProducts toLowerCase includes products
      searchQuery selectedCategory selectedBrand in
  (forall p, In p grid ->
     In p products
     /\ (selectedCategory = "all"%string
         \/ Product.category_id p = Some selectedCategory)
     /\ (selectedBrand = "all"%string
         \/ Product.brand_id p = Some selectedBrand))
  /\ (forall main sub p,
        Category.parent_id sub = Some (Category.id main) ->
        Category.id sub <> Category.id main ->
        Product.category_id p = Some (Category.id sub) ->
        selectedCategory = Category.id main ->
        selectedCategory <> "all"%string ->
        ~ In p grid).
Proof.
  cbv zeta.
  assert (A : forall p,
            In p (Catalog.filteredProducts toLowerCase includes products
                    searchQuery selectedCategory selectedBrand) ->
            In p products
            /\ (selectedCategory = "all"%string
                \/ Product.category_id p = Some selectedCategory)
            /\ (selectedBrand = "all"%string
                \/ Product.brand_id p = Some selectedBrand)).
  { intros p Hin. unfold Catalog.filteredProducts in Hin.
    apply filter_In in Hin as [Hp Hm]. cbv zeta in Hm.
    apply andb_true_iff in Hm as [Hm Hb].
    apply andb_true_iff in Hm as [_ Hc].
    split; [exact Hp|]. split.
    - apply orb_true_iff in Hc as [Hc|Hc].
      + left. now apply String.eqb_eq.
      + right. destruct (Product.category_id p) as [c|]; [|discriminate].
        apply String.eqb_eq in Hc. now subst c.
    - apply orb_true_iff in Hb as [Hb|Hb].
      + left. now apply String.eqb_eq.
      + right. destruct (Product.brand_id p) as [b|]; [|discriminate].
        apply String.eqb_eq in Hb. now subst b. }
  split; [exact A|].
  intros main sub p Hparent Hdiff Hcat Hsel Hnotall Hin.
  destruct (A p Hin) as [_ [[H|H] _]]; [contradiction|].
  rewrite Hcat, Hsel in H. injection H as H. contradiction.
Qed.

(** ** The Reports page *)

Lemma map_set_keys_present {V : Type} (m : list (string * V)) (k : string)
    (v : V) :
  In k (map fst m) -> map fst (map_set m k v) = map fst m.
Proof.
  induction m as [|[k' v'] rest IH]; simpl; intro H; [destruct H|].
  destruct (String.eqb k' k) eqn:E; [reflexivity|].
  simpl. f_equal. apply IH. destruct H as [H|H]; [|exact H].
  apply String.eqb_neq in E. contradiction.
Qed.

Lemma map_set_keys_absent {V : Type} (m : list (string * V)) (k : string)
    (v : V) :
  ~ In k (map fst m) -> map fst (map_set m k v) = map fst m ++ [k].
Proof.
  induction m as [|[k' v'] rest IH]; simpl; intro H; [reflexivity|].
  destruct (String.eqb k' k) eqn:E.
  - apply String.eqb_eq in E. exfalso. apply H. now left.
  - simpl. f_equal. apply IH. intro Hin. apply H. now right.
Qed.

Lemma map_set_keys {V : Type} (m : list (string * V)) (k : string) (v : V) :
  NoDup (map fst m) ->
  NoDup (map fst (map_set m k v))
  /\ In k (map fst (map_set m k v))
  /\ (forall k', In k' (map fst m) -> In k' (map fst (map_set m k v))).
Proof.
  intro Hn. destruct (in_dec string_dec k (map fst m)) as [Hin|Hout].
  - rewrite map_set_keys_present by exact Hin. now repeat split.
  - rewrite map_set_keys_absent by exact Hout. split; [|split].
    + apply NoDup_app; [exact Hn|constructor; [now intros []|constructor]|].
      intros x Hx [E|[]]. subst x. contradiction.
    + apply in_or_app. right. now left.
    + intros k' Hk'. apply in_or_app. now left.
Qed.

Lemma map_set_count {V : Type} (g : V -> nat) (m : list (string * V))
    (k : string) (v : V) :
  (list_sum (map (fun e => g (snd e)) (map_set m k v))
   + match map_get m k with Some old => g old | None => 0 end
   = list_sum (map (fun e => g (snd e)) m) + g v)%nat.
Proof.
  induction m as [|[k' v'] rest IH]; simpl; [lia|].
  destruct (String.eqb k' k); simpl; lia.
Qed.

Lemma map_get_set {V : Type} (m : list (string * V)) (k k' : string) (v : V) :
  map_get (map_set m k v) k'
  = if String.eqb k k' then Some v else map_get m k'.
Proof.
  induction m as [|[k0 v0] rest IH]; simpl.
  - reflexivity.
  - destruct (String.eqb k0 k) eqn:E; simpl.
    + apply String.eqb_eq in E. subst k0.
      now destruct (String.eqb k k').
    + destruct (String.eqb k0 k') eqn:E'; [|exact IH].
      apply String.eqb_eq in E'. subst k'.
      rewrite String.eqb_sym. now rewrite E.
Qed.

Lemma map_get_in {V : Type} (m : list (string * V)) (k : string) (v : V) :
  NoDup (map fst m) -> In (k, v) m -> map_get m k = Some v.
Proof.
  induction m as [|[k0 v0] rest IH]; simpl; intros Hn Hin; [destruct Hin|].
  inversion Hn as [|x l Hnot Hrest]; subst.
  destruct Hin as [E|Hin].
  - injection E as -> ->. now rewrite String.eqb_refl.
  - destruct (String.eqb k0 k) eqn:E; [|now apply IH].
    apply String.eqb_eq in E. subst k0. exfalso. apply Hnot.
    exact (in_map fst _ _ Hin).
Qed.

(** What one more sale does to the days. *)
Lemma addSale_effect (format : string -> string)
    (m : list (string * Reports.Day)) (sale : Reports.SaleRow.t) :
  NoDup (map fst m) ->
  let m' := Reports.addSale format m sale in
  NoDup (map fst m')
  /\ In (format (Reports.SaleRow.created_at sale)) (map fst m')
  /\ (forall k, In k (map fst m) -> In k (map fst m'))
  /\ list_sum (map (fun e => Reports.count (snd e)) m')
     = S (list_sum (map (fun e => Reports.count (snd e)) m)).
Proof.
  intro Hn. cbv zeta. unfold Reports.addSale.
  set (k := format (Reports.SaleRow.created_at sale)).
  destruct (map_set_keys m k
              (Reports.mkDay
                 (Reports.revenue
                    match map_get m k with
                    | Some d => d
                    | None => Reports.mkDay 0 0 0
                    end + Reports.SaleRow.total_amount sale)
                 (Reports.profit
                    match map_get m k with
                    | Some d => d
                    | None => Reports.mkDay 0 0 0
                    end + Reports.SaleRow.total_profit sale)
                 (Reports.count
                    match map_get m k with
                    | Some d => d
                    | None => Reports.mkDay 0 0 0
                    end + 1)) Hn) as [N [I K]].
  split; [exact N|]. split; [exact I|]. split; [exact K|].
  match goal with
  | |- list_sum (map ?f (map_set m k ?v)) = _ =>
      pose proof (map_set_count Reports.count m k v) as C;
      set (total := list_sum (map f (map_set m k v))) in *
  end.
  cbn [Reports.count] in C.
  destruct (map_get m k); cbn [Reports.count] in C; lia.
Qed.

Lemma salesByDate_from (format : string -> string)
    (sales : list Reports.SaleRow.t) (m : list (string * Reports.Day)) :
  NoDup (map fst m) ->
  let m' := fold_left (Reports.addSale format) sales m in
  NoDup (map fst m')
  /\ (forall k, In k (map fst m) -> In k (map fst m'))
  /\ (forall sale, In sale sales ->
        In (format (Reports.SaleRow.created_at sale)) (map fst m'))
  /\ list_sum (map (fun e => Reports.count (snd e)) m')
     = (list_sum (map (fun e => Reports.count (snd e)) m)
        + List.length sales)%nat.
Proof.
  revert m. induction sales as [|sale rest IH]; intros m Hn; cbv zeta.
  - simpl. split; [exact Hn|]. split; [now intros k H|].
    split; [now intros sale []|lia].
  - simpl fold_left.
    destruct (addSale_effect format m sale Hn) as [N [I [K C]]].
    destruct (IH (Reports.addSale format m sale) N) as [N' [K' [I' C']]].
    split; [exact N'|]. split; [intros k Hk; now apply K', K|].
    split.
    { intros s [E|Hin]; [subst s; now apply K'|now apply I']. }
    rewrite C', C. simpl. lia.
Qed.

(** What the map of the days holds for the day [k] after the sales
    [sales], starting from [m]: the sales of that day added, in the order
    fetched, to what it held. *)
Lemma salesByDate_day (format : string -> string)
    (sales : list Reports.SaleRow.t) (m : list (string * Reports.Day))
    (k : string) :
  let held_by m :=
    match map_get m k with
    | Some d => d
    | None => Reports.mkDay 0 0 0
    end in
  let m' := fold_left (Reports.addSale format) sales m in
  let on := salesOn format k sales in
  Reports.revenue (held_by m')
  = fold_left (fun sum s => sum + Reports.SaleRow.total_amount s) on
      (Reports.revenue (held_by m))
  /\ Reports.profit (held_by m')
     = fold_left (fun sum s => sum + Reports.SaleRow.total_profit s) on
         (Reports.profit (held_by m))
  /\ Reports.count (held_by m')
     = (Reports.count (held_by m) + List.length on)%nat
  /\ (map_get m' k = None <-> map_get m k = None /\ on = []).
Proof.
  cbv zeta. revert m.
  induction sales as [|sale rest IH]; intro m.
  - simpl. split; [reflexivity|]. split; [reflexivity|]. split; [lia|].
    split; [now split|now intros [H _]].
  - simpl fold_left. unfold salesOn in *. cbn [filter].
    destruct (IH (Reports.addSale format m sale)) as [R [P [C N]]].
    rewrite R, P, C, N. clear R P C N IH.
    unfold Reports.addSale. cbv zeta. rewrite !map_get_set.
    destruct (String.eqb (format (Reports.SaleRow.created_at sale)) k) eqn:E.
    + apply String.eqb_eq in E. rewrite E.
      cbn [fold_left List.length Reports.revenue Reports.profit Reports.count].
      split; [reflexivity|]. split; [reflexivity|]. split; [lia|].
      split; [intros [H _]; discriminate H|intros [_ H]; discriminate H].
    + split; [reflexivity|]. split; [reflexivity|]. split; [reflexivity|].
      reflexivity.
Qed.

(** X22.  The sales chart of the Reports page ([fetchReportData]).  The
    number of sales is the number of rows fetched, and the average order
    value is 0 when there is none.  The days of the chart are distinct and
    every sale falls on one of them.  Every day of the chart has at least
    one sale; its revenue and its profit are the amounts and the profits of
    the sales of that day added up in the order fetched, and its count is
    their number.  The counts of the days add up to the number of sales. *)
Theorem report_adds_up (format : string -> string)
    (sales : list Reports.SaleRow.t) :
  let st := Reports.stats sales in
  let chart := Reports.chartData format sales in
  Reports.totalSales st = List.length sales
  /\ (sales = [] -> Reports.avgOrderValue st = 0)
  /\ NoDup (map Reports.date chart)
  /\ (forall sale, In sale sales ->
        In (format (Reports.SaleRow.created_at sale)) (map Reports.date chart))
  /\ (forall d, In d chart ->
        let on := salesOn format (Reports.date d) sales in
        on <> []
        /\ Reports.revenue (Reports.day d)
           = reduce_sum Reports.SaleRow.total_amount on
        /\ Reports.profit (Reports.day d)
           = reduce_sum Reports.SaleRow.total_profit on
        /\ Reports.count (Reports.day d) = List.length on)
  /\ list_sum (map (fun d => Reports.count (Reports.day d)) chart)
     = List.length sales.
Proof.
  cbv zeta.
  destruct (salesByDate_from format sales [] (NoDup_nil _))
    as [N [_ [I C]]].
  fold (Reports.salesByDate format sales) in N, I, C.
  assert (D : map Reports.date (Reports.chartData format sales)
              = map fst (Reports.salesByDate format sales))
    by (unfold Reports.chartData; rewrite map_map; reflexivity).
  split; [reflexivity|]. split; [intro E; now subst sales|].
  rewrite D. split; [exact N|]. split; [exact I|]. split.
  - intros d Hd. unfold Reports.chartData in Hd.
    apply in_map_iff in Hd as [[k v] [<- Hin]].
    cbn [Reports.date Reports.day fst snd].
    pose proof (map_get_in _ k v N Hin) as G.
    destruct (salesByDate_day format sales [] k) as [R [P [Cn Z]]].
    fold (Reports.salesByDate format sales) in R, P, Cn, Z.
    rewrite G in R, P, Cn, Z. cbn [map_get] in R, P, Cn, Z.
    split; [|split; [exact R|split; [exact P|exact Cn]]].
    intro E. destruct Z as [_ Z]. now discriminate Z.
  - unfold Reports.chartData. rewrite map_map. cbn [Reports.day snd].
    exact C.
Qed.


(** The totals by category after the items [saleItems], starting from
    [m]. *)
Lemma categoryTotals_from (saleItems : list Reports.SaleItemRow.t)
    (m : list (string * Q)) :
  NoDup (map fst m) ->
  let m' := fold_left Reports.addItem saleItems m in
  NoDup (map fst m')
  /\ (forall k, In k (map fst m') <->
        In k (map fst m)
        \/ exists item, In item saleItems /\ Reports.categoryName item = k)
  /\ (forall k, held m' k == held m k + categoryTotal saleItems k).
Proof.
  revert m. induction saleItems as [|item rest IH]; intros m Hn; cbv zeta.
  - simpl. split; [exact Hn|]. split.
    + intro k. split; [now left|]. intros [H|[i [[] _]]]. exact H.
    + intro k. unfold categoryTotal. simpl. ring.
  - simpl fold_left.
    assert (Hset : forall v,
              NoDup (map fst (map_set m (Reports.categoryName item) v)))
      by (intro v; now apply map_set_keys).
    destruct (IH (Reports.addItem m item) (Hset _)) as [N [K H]].
    split; [exact N|]. split.
    + intro k. rewrite K. unfold Reports.addItem. split.
      * intros [Hk|[i [Hi E]]].
        -- destruct (in_dec string_dec (Reports.categoryName item)
                       (map fst m)) as [Hin|Hout].
           ++ rewrite map_set_keys_present in Hk by exact Hin. now left.
           ++ rewrite map_set_keys_absent in Hk by exact Hout.
              apply in_app_or in Hk as [Hk|[Hk|[]]]; [now left|].
              right. exists item. split; [now left|exact Hk].
        -- right. exists i. split; [now right|exact E].
      * intros [Hk|[i [[Ei|Hi] E]]].
        -- left. now apply (map_set_keys m _ _ Hn).
        -- subst i. left. rewrite <- E.
           exact (proj1 (proj2 (map_set_keys m _ _ Hn))).
        -- right. now exists i.
    + intro k. rewrite H. unfold held at 1. unfold Reports.addItem.
      rewrite map_get_set. unfold categoryTotal. simpl.
      destruct (String.eqb (Reports.categoryName item) k) eqn:E.
      * apply String.eqb_eq in E. subst k. unfold held. simpl.
        destruct (map_get m (Reports.categoryName item)) as [v|].
        -- destruct (Qeq_bool v 0) eqn:Z; [|ring].
           apply Qeq_bool_iff in Z. rewrite Z. ring.
        -- ring.
      * unfold held. ring.
Qed.

(** Inserting keeps a chart in descending order and adds one entry. *)
Lemma insert_perm (x : Reports.CategorySales)
    (l : list Reports.CategorySales) :
  Permutation (Reports.insert x l) (x :: l).
Proof.
  induction l as [|y rest IH]; simpl; [reflexivity|].
  destruct (num_gt (Reports.compare x y) 0); [|reflexivity].
  rewrite IH. apply perm_swap.
Qed.

Lemma insert_sorted (x : Reports.CategorySales)
    (l : list Reports.CategorySales) :
  StronglySorted not_below l -> StronglySorted not_below (Reports.insert x l).
Proof.
  intro Hs. induction Hs as [|y rest Hs IH Hy]; simpl.
  - constructor; constructor.
  - destruct (num_gt (Reports.compare x y) 0) eqn:G.
    + constructor; [exact IH|].
      rewrite Forall_forall in *. intros z Hz.
      apply (Permutation_in _ (insert_perm x rest)) in Hz.
      destruct Hz as [E|Hz]; [|now apply Hy].
      subst z. apply num_gt_iff in G. unfold Reports.compare, not_below in *.
      lra.
    + constructor; [now constructor|].
      apply num_lt_false_iff in G. unfold Reports.compare in G.
      constructor.
      * unfold not_below. lra.
      * rewrite Forall_forall in *. intros z Hz. specialize (Hy z Hz).
        unfold not_below in *. lra.
Qed.

Lemma sort_spec (l : list Reports.CategorySales) :
  Permutation (Reports.sort l) l /\ StronglySorted not_below (Reports.sort l).
Proof.
  induction l as [|x l [P S]]; simpl; [split; constructor|].
  split.
  - rewrite insert_perm. now constructor.
  - now apply insert_sorted.
Qed.

Lemma sorted_split (l1 l2 : list Reports.CategorySales) :
  StronglySorted not_below (l1 ++ l2) ->
  StronglySorted not_below l1
  /\ forall a b, In a l1 -> In b l2 -> not_below a b.
Proof.
  induction l1 as [|x l1 IH]; simpl; intro H.
  - split; [constructor|now intros a b []].
  - inversion H as [|y l Hs Hx]; subst.
    destruct (IH Hs) as [S1 C]. split.
    + constructor; [exact S1|]. rewrite Forall_forall in *.
      intros z Hz. apply Hx, in_or_app. now left.
    + intros a b [E|Ha] Hb.
      * subst a. rewrite Forall_forall in Hx. apply Hx, in_or_app. now right.
      * now apply C.
Qed.

(** X23. The category chart of the Reports page ([fetchReportData]): it
    shows min(5, number of distinct category names among the sale items)
    bars, in descending order of value and with distinct names; every bar
    is the name of a category that has a sale item and its value is the
    total of the subtotals of the items of that category (items without a
    category counting under [Uncategorized]); and a category that has no bar
    has a total not above any bar shown. *)
Theorem category_chart (saleItems : list Reports.SaleItemRow.t) :
  let data := Reports.categoryData saleItems in
  List.length data
  = Nat.min 5
      (List.length (nodup string_dec (map Reports.categoryName saleItems)))
  /\ StronglySorted not_below data
  /\ NoDup (map Reports.name data)
  /\ (forall e, In e data ->
        Reports.value e == categoryTotal saleItems (Reports.name e)
        /\ exists item,
             In item saleItems /\ Reports.categoryName item = Reports.name e)
  /\ (forall item, In item saleItems ->
        (exists e,
           In e data /\ Reports.name e = Reports.categoryName item)
        \/ (forall e, In e data ->
              categoryTotal saleItems (Reports.categoryName item)
              <= Reports.value e)).
Proof.
  cbv zeta. unfold Reports.categoryData.
  destruct (categoryTotals_from saleItems [] (NoDup_nil _)) as [N [K H]].
  fold (Reports.categoryTotals saleItems) in N, K, H.
  set (m := Reports.categoryTotals saleItems) in *.
  set (L := map (fun entry => Reports.mkCategorySales (fst entry) (snd entry))
              m).
  assert (Names : map Reports.name L = map fst m).
  { unfold L. rewrite map_map. apply map_ext. now intros [k v]. }
  destruct (sort_spec L) as [P S].
  set (sorted := Reports.sort L) in *.
  assert (Split : sorted = firstn 5 sorted ++ skipn 5 sorted)
    by (symmetry; apply firstn_skipn).
  assert (Entry : forall e, In e sorted ->
            In (Reports.name e) (map fst m)
            /\ Reports.value e == categoryTotal saleItems (Reports.name e)).
  { intros e He. apply (Permutation_in _ P) in He.
    unfold L in He. apply in_map_iff in He as [[k v] [E Hin]]. subst e.
    cbn [Reports.name Reports.value fst snd]. split.
    - exact (in_map fst _ _ Hin).
    - rewrite <- (Qplus_0_l (categoryTotal saleItems k)).
      change 0 with (held [] k) at 1. rewrite <- H. unfold held.
      now rewrite (map_get_in m k v N Hin). }
  assert (Hold : forall k, In k (map fst m) ->
            exists e, In e sorted /\ Reports.name e = k).
  { intros k Hk. apply in_map_iff in Hk as [[k0 v] [E Hin]].
    cbn [fst] in E. subst k0.
    exists (Reports.mkCategorySales k v). split; [|reflexivity].
    apply (Permutation_in _ (Permutation_sym P)). unfold L.
    apply in_map_iff. now exists (k, v). }
  rewrite Split in S. apply sorted_split in S as [S1 Cross].
  split; [|split; [exact S1|split; [|split]]].
  - rewrite length_firstn. f_equal.
    rewrite (Permutation_length P). unfold L. rewrite length_map.
    rewrite <- (length_map fst m). apply Permutation_length.
    apply NoDup_Permutation; [exact N|apply NoDup_nodup|].
    intro k. rewrite K, nodup_In, (in_map_iff Reports.categoryName). split.
    + intros [[]|[item [Hi E]]]. now exists item.
    + intros [item [E Hi]]. right. now exists item.
  - assert (Nd : NoDup (map Reports.name sorted)).
    { apply (Permutation_NoDup
               (Permutation_sym (Permutation_map Reports.name P))).
      now rewrite Names. }
    rewrite Split, map_app in Nd. exact (NoDup_app_remove_r _ _ Nd).
  - intros e He.
    assert (Hs : In e sorted)
      by (rewrite Split; apply in_or_app; now left).
    destruct (Entry e Hs) as [Hk V]. split; [exact V|].
    apply K in Hk as [[]|Hk]. exact Hk.
  - intros item Hitem.
    destruct (Hold (Reports.categoryName item)) as [e0 [He0 Ne0]].
    { apply K. right. now exists item. }
    rewrite Split in He0. apply in_app_or in He0 as [Hshown|Hcut].
    + left. now exists e0.
    + right. intros e He.
      assert (Hs : In e0 sorted)
        by (rewrite Split; apply in_or_app; now right).
      destruct (Entry e0 Hs) as [_ V]. rewrite Ne0 in V. rewrite <- V.
      exact (Cross e e0 He Hcut).
Qed.

Lemma prefix_app (a b : string) : String.prefix a (a ++ b) = true.
Proof.
  induction a as [|c a IH]; simpl.
  - now destruct b.
  - destruct (Ascii.ascii_dec c c) as [_|N]; [exact IH|now destruct N].
Qed.

Lemma addRefillToCart_line now nowIso name price volumeMl (s : POS.State) :
  exists line,
    POS.cart (POS.addRefillToCart now nowIso name price volumeMl s)
    = POS.cart s ++ [line]
    /\ sold_as_refill name price line.
Proof.
  unfold POS.addRefillToCart. cbv zeta.
  eexists. split; [now destruct s|].
  split; [|split; [reflexivity|]].
  - unfold POS.isRefill. cbn [product Product.id]. apply prefix_app.
  - intro sale_id. cbv zeta. unfold POS.saleItem. cbv zeta.
    unfold POS.isRefill. cbn [product Product.id]. rewrite prefix_app.
    cbn [SaleItemInsert.product_id SaleItemInsert.product_name
         SaleItemInsert.quantity SaleItemInsert.unit_price
         SaleItemInsert.buying_price SaleItemInsert.subtotal
         SaleItemInsert.profit].
    unfold POS.calculateItemSubtotal, POS.calculateItemDiscount.
    cbn [product quantity discount Product.name Product.selling_price
         Product.buying_price].
    assert (E : price * 1 - 0 == price) by ring.
    assert (M : Math_max 0 (price * 1 - 0) == Math_max 0 price).
    { unfold Math_max, num_lt.
      destruct (Qle_bool (price * 1 - 0) 0) eqn:A;
        destruct (Qle_bool price 0) eqn:B; try reflexivity; try exact E.
      - apply Qle_bool_iff in A. rewrite E in A. apply Qle_bool_iff in A.
        congruence.
      - apply Qle_bool_iff in B. rewrite <- E in B. apply Qle_bool_iff in B.
        congruence. }
    repeat split; try reflexivity; [exact M|]. ring.
Qed.

(** X24.  What the refill panel puts in the cart.  A quick add always
    appends one line, and a custom-price add either leaves the cart, the
    dialog and the form as they are (nothing selected, nothing typed, or a
    price that is not a number above 0) or appends one line at the typed
    price and closes the dialog.  The appended line is a line of quantity 1
    without discount that checkout sells as a refill: its row names no
    product, has cost 0, and its profit is its subtotal. *)
Theorem refill_panel_adds_refill_lines
    (parseFloat : string -> option number) (toString : number -> string)
    (now : N) (nowIso : string)
    (panel : RefillQuickAdd.State) (page : POS.State) :
  let onAddRefill := POS.addRefillToCart now nowIso in
  (forall option,
     let out := RefillQuickAdd.handleQuickAdd onAddRefill option (panel, page) in
     exists line,
       POS.cart (snd out) = POS.cart page ++ [line]
       /\ sold_as_refill (RefillOption.name option)
            (RefillOption.default_price option) line)
  /\ (let out :=
        RefillQuickAdd.handleCustomPriceAdd onAddRefill parseFloat toString
          (panel, page) in
      (snd out = page
       /\ RefillQuickAdd.editDialogOpen (fst out)
          = RefillQuickAdd.editDialogOpen panel
       /\ RefillQuickAdd.selectedRefill (fst out)
          = RefillQuickAdd.selectedRefill panel
       /\ RefillQuickAdd.customPrice (fst out)
          = RefillQuickAdd.customPrice panel
       /\ (RefillQuickAdd.selectedRefill panel = None
           \/ RefillQuickAdd.customPrice panel = ""%string
           \/ match parseFloat (RefillQuickAdd.customPrice panel) with
              | Some price => price <= 0
              | None => True
              end))
      \/ exists selected price line,
           RefillQuickAdd.selectedRefill panel = Some selected
           /\ parseFloat (RefillQuickAdd.customPrice panel) = Some price
           /\ 0 < price
           /\ POS.cart (snd out) = POS.cart page ++ [line]
           /\ sold_as_refill
                (RefillOption.name selected ++ " (Custom)")%string price line
           /\ RefillQuickAdd.editDialogOpen (fst out) = false
           /\ RefillQuickAdd.selectedRefill (fst out) = None
           /\ RefillQuickAdd.customPrice (fst out) = ""%string).
Proof.
  cbv zeta. split.
  - intro option. unfold RefillQuickAdd.handleQuickAdd. cbn [fst snd].
    apply addRefillToCart_line.
  - unfold RefillQuickAdd.handleCustomPriceAdd. cbn [fst snd].
    destruct (RefillQuickAdd.selectedRefill panel) as [selected|] eqn:Sel.
    2:{ left. cbn [fst snd]. rewrite Sel. repeat split. now left. }
    destruct (String.eqb (RefillQuickAdd.customPrice panel) "") eqn:Empty.
    { left. cbn [fst snd]. rewrite Sel. repeat split.
      right. left. now apply String.eqb_eq. }
    destruct (parseFloat (RefillQuickAdd.customPrice panel)) as [price|]
      eqn:Parsed.
    2:{ left. cbn [fst snd]. destruct panel. cbn in *. rewrite Sel.
        repeat split. right. right. exact I. }
    destruct (num_le price 0) eqn:Low.
    { left. cbn [fst snd]. destruct panel. cbn in *. rewrite Sel.
      repeat split. right. right. now apply num_le_iff. }
    right. cbn [fst snd].
    destruct (addRefillToCart_line now nowIso
                (RefillOption.name selected ++ " (Custom)")%string price
                (RefillOption.volume_ml selected) page) as [line [C R]].
    exists selected, price, line.
    split; [reflexivity|]. split; [reflexivity|].
    split; [now apply num_le_false_iff|].
    split; [exact C|]. split; [exact R|]. now destruct panel.
Qed.

Lemma number_or_nonzero (x : option number) (d : number) :
  ~ d == 0 -> ~ Inventory.number_or x d == 0.
Proof.
  intro Hd. unfold Inventory.number_or. destruct x as [v|]; [|exact Hd].
  destruct (Qeq_bool v 0) eqn:E; [exact Hd|].
  intro Z. apply Qeq_bool_iff in Z. congruence.
Qed.

Ltac run_save :=
  cbv [bind Inventory.fetchProducts Inventory.supabase orThrow modify ret
       throw fst snd].

(** X25.  Saving a product on the Inventory page ([handleSave]).  With an
    empty name or an empty selling price it only raises a toast.  Otherwise
    it sends one write, the update of the product being edited or an
    insert: if the database refuses it, nothing else is sent, the failure
    toast is raised and the dialog stays as it was; if the database accepts
    it, the success toast is raised, the dialog is closed and the products
    are fetched again.  The saving flag is down at the end, the form keeps
    its text in every case, and the low-stock threshold written is never 0
    (a threshold typed as 0 is written as 10). *)
Theorem inventory_handleSave_outcomes
    (parseFloat parseInt : string -> option number) (trim : string -> string)
    (Store : Type) (exec : Store -> Inventory.Request -> Store * Reply)
    (c : Inventory.State * Store) :
  let s := fst c in
  let form := Inventory.formData s in
  let out := Inventory.handleSave parseFloat parseInt trim Store exec c in
  let write := Inventory.write_of parseFloat parseInt trim s in
  let row := Inventory.productData parseFloat parseInt trim form in
  Inventory.formData (fst out) = form
  /\ ~ Inventory.ProductWrite.low_stock_threshold row == 0
  /\ (((Inventory.FormData.name form = ""%string
        \/ Inventory.FormData.selling_price form = ""%string)
       /\ out
          = (Inventory.toast
               (toast_error "Name and selling price are required") s,
             snd c))
      \/ (Inventory.FormData.name form <> ""%string
          /\ Inventory.FormData.selling_price form <> ""%string
          /\ Inventory.saving (fst out) = false
          /\ ((exists e,
                 exec (snd c) write = (snd out, failure e)
                 /\ Inventory.requests (fst out)
                    = Inventory.requests s ++ [write]
                 /\ Inventory.toasts (fst out)
                    = Inventory.toasts s
                      ++ [toast_error "Failed to save product"]
                 /\ Inventory.dialogOpen (fst out) = Inventory.dialogOpen s)
              \/ (exists id store reply,
                    exec (snd c) write = (store, success id)
                    /\ exec store Inventory.select_products
                       = (snd out, reply)
                    /\ Inventory.requests (fst out)
                       = Inventory.requests s
                         ++ [write; Inventory.select_products]
                    /\ Inventory.toasts (fst out)
                       = Inventory.toasts s
                         ++ toast_success
                              match Inventory.editingProduct s with
                              | Some _ => "Product updated successfully"
                              | None => "Product added successfully"
                              end
                            :: match reply with
                               | failure _ =>
                                   [toast_error "Failed to load products"]
                               | success _ => []
                               end
                    /\ Inventory.dialogOpen (fst out) = false)))).
Proof.
  destruct c as [s st]. cbv zeta. cbn [fst snd].
  split; [|split].
  - unfold Inventory.handleSave. cbn [fst snd].
    destruct (_ || _)%bool; [now destruct s|].
    unfold Inventory.handleSave_try.
    destruct (Inventory.editingProduct s); run_save;
      destruct (exec st _) as [st1 [id|e]]; run_save;
      try (destruct (exec st1 _) as [st3 [id3|e3]]; run_save);
      now destruct s.
  - apply number_or_nonzero. intro Z. discriminate Z.
  - unfold Inventory.handleSave. cbn [fst snd].
    destruct (_ || _)%bool eqn:Empty.
    { left. split; [|reflexivity].
      apply orb_true_iff in Empty as [E|E]; apply String.eqb_eq in E;
        [now left|now right]. }
    right. apply orb_false_iff in Empty as [En Es].
    apply String.eqb_neq in En, Es.
    split; [exact En|]. split; [exact Es|].
    unfold Inventory.handleSave_try, Inventory.write_of.
    destruct (Inventory.editingProduct s) as [editing|] eqn:Ed; run_save;
      destruct (exec st _) as [st1 [id|e]] eqn:X; run_save.
    all: try (destruct (exec st1 _) as [st3 reply] eqn:Y; run_save).
    all: split; [now destruct reply || reflexivity|].
    all: try (left; exists e; cbn [fst snd];
              split; [reflexivity|]; destruct s; cbn in *;
              now rewrite ?Ed).
    all: right; exists id, st1, reply; split; [reflexivity|];
         destruct reply; cbn [fst snd];
         (split; [exact Y|]); destruct s; cbn in *;
         rewrite <- ?app_assoc; cbn [app]; now rewrite ?Ed.
Qed.

Lemma rolesMap_from (rows : list Users.RoleRow) (k : string) :
  let m := Users.rolesMap (Some rows) in
  (map_get m k = None <->
   forall r, In r rows -> Users.user_id r <> k)
  /\ (forall ro,
        map_get m k = Some ro <->
        exists before after,
          rows = before ++ Users.mkRoleRow k ro :: after
          /\ forall r, In r after -> Users.user_id r <> k).
Proof.
  cbv zeta. unfold Users.rolesMap.
  induction rows as [|x rows IH] using rev_ind.
  - simpl. split.
    + split; [now intros _ r []|reflexivity].
    + intro ro. split; [discriminate|].
      intros [before [after [E _]]]. now destruct before.
  - rewrite map_app, fold_left_app. cbn [map fold_left fst snd].
    rewrite map_get_set. destruct IH as [None_iff Some_iff].
    destruct (String.eqb (Users.user_id x) k) eqn:E.
    + apply String.eqb_eq in E. split.
      * split; [discriminate|]. intro H. exfalso.
        apply (H x); [apply in_or_app; right; now left|exact E].
      * intro ro. split.
        -- intro H. injection H as <-. exists rows, []. split.
           ++ subst k. now destruct x.
           ++ now intros r [].
        -- intros [before [after [Eq Hafter]]].
           destruct after as [|a after] using rev_ind.
           ++ apply app_inj_tail in Eq as [_ Eq]. now subst x.
           ++ exfalso. clear IHafter.
              change (before ++ Users.mkRoleRow k ro :: after ++ [a])
                with (before ++ (Users.mkRoleRow k ro :: after) ++ [a]) in Eq.
              rewrite app_assoc in Eq.
              apply app_inj_tail in Eq as [_ Eq]. subst a.
              apply (Hafter x); [apply in_or_app; right; now left|exact E].
    + apply String.eqb_neq in E. split.
      * rewrite None_iff. split.
        -- intros H r Hr. apply in_app_or in Hr as [Hr|[<-|[]]];
             [now apply H|exact E].
        -- intros H r Hr. apply H, in_or_app. now left.
      * intro ro. rewrite Some_iff. split.
        -- intros [before [after [Eq Hafter]]].
           exists before, (after ++ [x]). split.
           ++ rewrite Eq, <- app_assoc. reflexivity.
           ++ intros r Hr. apply in_app_or in Hr as [Hr|[<-|[]]];
                [now apply Hafter|exact E].
        -- intros [before [after [Eq Hafter]]].
           destruct after as [|a after] using rev_ind.
           ++ apply app_inj_tail in Eq as [_ Eq]. subst x.
              now destruct E.
           ++ clear IHafter.
              change (before ++ Users.mkRoleRow k ro :: after ++ [a])
                with (before ++ (Users.mkRoleRow k ro :: after) ++ [a]) in Eq.
              rewrite app_assoc in Eq.
              apply app_inj_tail in Eq as [Eq _].
              exists before, after. split; [exact Eq|].
              intros r Hr. apply Hafter, in_or_app. now left.
Qed.

(** X26.  The list of the Users page ([fetchUsers]): one entry per
    profile, in the order of the profiles.  An entry has no role exactly
    when [user_roles] holds no row of that user, and it has the role of the
    last row of that user otherwise (a user can have several rows, one per
    role). *)
Theorem users_page_shows_last_role (profiles : list Users.Profile.t)
    (roles : list Users.RoleRow) :
  let users := Users.usersWithRoles (Some profiles) (Some roles) in
  map Users.profile users = profiles
  /\ forall u, In u users ->
       let uid := Users.Profile.user_id (Users.profile u) in
       (Users.user_role u = None <->
        forall r, In r roles -> Users.user_id r <> uid)
       /\ (forall ro,
             Users.user_role u = Some ro <->
             exists before after,
               roles = before ++ Users.mkRoleRow uid ro :: after
               /\ forall r, In r after -> Users.user_id r <> uid).
Proof.
  cbv zeta. unfold Users.usersWithRoles. split.
  - rewrite map_map. cbn [Users.profile]. apply map_id.
  - intros u Hu. apply in_map_iff in Hu as [p [<- _]].
    cbn [Users.profile Users.user_role].
    exact (rolesMap_from roles (Users.Profile.user_id p)).
Qed.

Ltac run_option_save :=
  cbv [bind RefillOptionsManager.fetchRefillOptions
       RefillOptionsManager.supabase orThrow modify ret throw fst snd].

(** X27.  Saving a refill option on the Settings page ([handleSave] of
    [RefillOptionsManager]).  A form with a blank name, a volume that is
    not above 0 or a negative price only raises a validation toast: nothing
    is sent and the dialog stays open as it was.  Otherwise one write is
    sent, the update of the option being edited or an insert, with the
    trimmed name (not empty), a volume above 0 and a price of at least 0:
    if the database refuses it the failure toast is raised and nothing else
    is sent; if it accepts, the dialog is closed and the options are
    fetched again.  The saving flag is down at the end. *)
Theorem refill_option_save_outcomes (trim : string -> string) (Store : Type)
    (exec : Store -> RefillOptionsManager.Request -> Store * Reply)
    (c : RefillOptionsManager.State * Store) :
  let s := fst c in
  let form := RefillOptionsManager.formData s in
  let out := RefillOptionsManager.handleSave trim Store exec c in
  let write := RefillOptionsManager.write_of trim s in
  let row := RefillOptionsManager.optionData trim form in
  ((trim (RefillOptionsManager.FormData.name form) = ""%string
    \/ RefillOptionsManager.FormData.volume_ml form <= 0
    \/ RefillOptionsManager.FormData.default_price form < 0)
   /\ exists description,
        out
        = (RefillOptionsManager.toast
             (RefillOptionsManager.validation_error description) s,
           snd c))
  \/ (RefillOptionsManager.FormData.name row <> ""%string
      /\ 0 < RefillOptionsManager.FormData.volume_ml row
      /\ 0 <= RefillOptionsManager.FormData.default_price row
      /\ RefillOptionsManager.saving (fst out) = false
      /\ ((exists e,
             exec (snd c) write = (snd out, failure e)
             /\ RefillOptionsManager.requests (fst out)
                = RefillOptionsManager.requests s ++ [write]
             /\ RefillOptionsManager.notices (fst out)
                = RefillOptionsManager.notices s
                  ++ [RefillOptionsManager.error
                        "Failed to save refill option"]
             /\ RefillOptionsManager.dialogOpen (fst out)
                = RefillOptionsManager.dialogOpen s)
          \/ (exists id store reply,
                exec (snd c) write = (store, success id)
                /\ exec store RefillOptionsManager.select_options
                   = (snd out, reply)
                /\ RefillOptionsManager.requests (fst out)
                   = RefillOptionsManager.requests s
                     ++ [write; RefillOptionsManager.select_options]
                /\ RefillOptionsManager.notices (fst out)
                   = RefillOptionsManager.notices s
                     ++ RefillOptionsManager.done
                          match RefillOptionsManager.editingOption s with
                          | Some _ => "Refill option updated successfully"
                          | None => "Refill option created successfully"
                          end
                        :: match reply with
                           | failure _ =>
                               [RefillOptionsManager.error
                                  "Failed to load refill options"]
                           | success _ => []
                           end
                /\ RefillOptionsManager.dialogOpen (fst out) = false))).
Proof.
  destruct c as [s st]. cbv zeta. cbn [fst snd].
  unfold RefillOptionsManager.handleSave. cbn [fst snd].
  destruct (String.eqb _ _) eqn:Blank.
  { left. split; [left; now apply String.eqb_eq|]. now eexists. }
  destruct (num_le _ 0) eqn:Volume.
  { left. split; [right; left; now apply num_le_iff|]. now eexists. }
  destruct (num_lt _ 0) eqn:Price.
  { left. split; [right; right; now apply num_lt_iff|]. now eexists. }
  right. apply String.eqb_neq in Blank. apply num_le_false_iff in Volume.
  apply num_lt_false_iff in Price.
  split; [exact Blank|]. split; [exact Volume|]. split; [exact Price|].
  unfold RefillOptionsManager.handleSave_try, RefillOptionsManager.write_of.
  destruct (RefillOptionsManager.editingOption s) as [editing|] eqn:Ed;
    run_option_save;
    destruct (exec st _) as [st1 [id|e]] eqn:X; run_option_save.
  all: try (destruct (exec st1 _) as [st3 reply] eqn:Y; run_option_save).
  all: split; [now destruct reply || reflexivity|].
  all: try (left; exists e; cbn [fst snd];
            split; [reflexivity|]; destruct s; cbn in *;
            now rewrite ?Ed).
  all: right; exists id, st1, reply; split; [reflexivity|];
       destruct reply; cbn [fst snd];
       (split; [exact Y|]); destruct s; cbn in *;
       rewrite <- ?app_assoc; cbn [app]; now rewrite ?Ed.
Qed.
